(** * FinsightAI: the deterministic insight engine, the QuickBooks parser,
      the explanation layer and the routes that call them

    A shallow embedding of

    - [lib/engine/insights]: [computeVariances], [computeExpenseVariances],
      [computeRatios], [detectTrends], [detectAnomalies], [generateIssues]
      and their helpers [getTrend], [detectDirection], [describeTrend];
    - [lib/integrations/quickbooks-parser]: [parseProfitAndLoss],
      [parseMonthlyPnL] and [parseCashPosition];
    - [lib/ai/explanations]: [callAI], [generateInsightsFromMetrics] and
      [answerQuestion];
    - [app/api/sync/route] and [app/api/chat/route]: the handlers, from the
      reports and the cached data on;
    - [components/insights/IssuesBanner]: the issues it displays.

    Modelling conventions.

    - Numbers, twice.  In the first embedding a JavaScript [number]
      holding a currency amount, a percentage or a count is an exact
      rational ([Q]): the arithmetic of the program is kept as written
      ([Math.round(x * 10) / 10], [Math.abs], the guards in front of every
      division), and what is abstracted is the binary64 rounding error and
      the values NaN and ±Infinity.  The one division of the engine that
      is not guarded ([/ mean] in [detectAnomalies]) is modelled with its
      IEEE result written out.  Statements on these numbers use [==]
      ([Qeq]), and they are statements on the structure of the results
      (what is emitted, in which order, under which guard) and on values
      that binary64 computes exactly.  Where a statement follows the program
      to the boundary of a band or of a threshold (the significance of a
      variance, the value and the trend of a ratio, the cash and the
      expense rule of [generateIssues]), the rounding decides, and the
      functions are embedded a second time on binary64 ([Binary64]), every
      operation rounded as the program rounds it; those statements are made
      there.
    - Strings.  [toLowerCase], [trim] and the white space of a regular
      expression are written out for ASCII; in the binary64 embedding
      [toLowerCase] and [replace(/\s+/g, "-")] are what the runtime
      provides.
    - [Array.prototype.sort] is stable; with a comparator that is a total
      preorder its result is the stable sorted permutation, computed here by
      insertion.
    - Optional fields and [undefined] are [option]; string literal unions
      are inductive types; interfaces are records, one module per interface
      so that the field names of the source are kept.
    - What the program asks its runtime (number formatting, [Math.sqrt],
      the clock, [parseFloat], the text-generation service) is a section
      variable. *)

From Stdlib Require Import QArith Qround Qabs Qminmax Lqa ZArith Lia.
From Stdlib Require Import List String Ascii Bool DecimalString.
From Stdlib Require Import Sorting.Sorted Sorting.Permutation.
From Stdlib Require PrimFloat.
Import ListNotations.

Set Implicit Arguments.

(** ** JavaScript values and built-ins *)

Definition number := Q.

Declare Scope js_scope.
Delimit Scope js_scope with js.

Definition Qlt_bool (x y : Q) : bool := negb (Qle_bool y x).

Notation "x <? y" := (Qlt_bool x y) (at level 70, no associativity) : js_scope.
Notation "x <=? y" := (Qle_bool x y) (at level 70, no associativity) : js_scope.
Notation "x =? y" := (Qeq_bool x y) (at level 70, no associativity) : js_scope.
Notation "x >? y" := (Qlt_bool y x) (at level 70, no associativity) : js_scope.
Notation "x >=? y" := (Qle_bool y x) (at level 70, no associativity) : js_scope.
(** [x !== y] on numbers. *)
Notation "x <>? y" := (negb (Qeq_bool x y)) (at level 70, no associativity) : js_scope.

Open Scope Q_scope.
Open Scope js_scope.

(** [Math.abs]. *)
Definition Math_abs (x : number) : number := Qabs x.

(** [Math.round]: the nearest integer, a tie going up. *)
Definition Math_round (x : number) : number := inject_Z (Qfloor (x + (1 # 2))).

(** [Math.min], [Math.max]. *)
Definition Math_min (x y : number) : number := if x <=? y then x else y.
Definition Math_max (x y : number) : number := if x <=? y then y else x.

(** The idiom [Math.round(x * 10) / 10] of the engine. *)
Definition round1 (x : number) : number := Math_round (x * 10) / 10.

(** Truthiness of a number: [0] is falsy. *)
Definition truthy (x : number) : bool := x <>? 0.

(** [xs.length] as a number. *)
Definition length_n {A} (xs : list A) : number := inject_Z (Z.of_nat (List.length xs)).

(** [Array.prototype.sort(cmp)]: [cmp a b > 0] puts [a] after [b]; elements
    that compare equal keep their order. *)
Fixpoint insertBy {A} (cmp : A -> A -> number) (x : A) (l : list A) : list A :=
  match l with
  | [] => [x]
  | y :: l' => if cmp x y >? 0 then y :: insertBy cmp x l' else x :: l
  end.

Fixpoint sort {A} (cmp : A -> A -> number) (l : list A) : list A :=
  match l with
  | [] => []
  | x :: l' => insertBy cmp x (sort cmp l')
  end.

(** [xs.slice(0, n)] is [firstn n xs]; [xs.slice(0, -1)] is [removelast xs];
    [xs.slice(1)] is [tl xs]. *)

(** [Map<string, number>] built from entries: insertion order of the keys,
    a repeated key keeps its place and takes the later value. *)
Definition JMap := list (string * number).

Fixpoint Map_set (m : JMap) (k : string) (v : number) : JMap :=
  match m with
  | [] => [(k, v)]
  | (k', v') :: m' =>
      if String.eqb k' k then (k', v) :: m' else (k', v') :: Map_set m' k v
  end.

Definition Map_new (entries : list (string * number)) : JMap :=
  fold_left (fun m e => Map_set m (fst e) (snd e)) entries [].

Fixpoint Map_get (m : JMap) (k : string) : option number :=
  match m with
  | [] => None
  | (k', v) :: m' => if String.eqb k' k then Some v else Map_get m' k
  end.

Definition Map_keys (m : JMap) : list string := map fst m.

(** [Set<string>]: insertion order, no repetition. *)
Definition JSet := list string.

Definition Set_has (s : JSet) (k : string) : bool := existsb (String.eqb k) s.

Definition Set_add (s : JSet) (k : string) : JSet :=
  if Set_has s k then s else s ++ [k].

Definition Set_new (ks : list string) : JSet := fold_left Set_add ks [].

(** [m.get(k) || 0]. *)
Definition or_zero (o : option number) : number :=
  match o with
  | Some v => if truthy v then v else 0
  | None => 0
  end.

(** ASCII part of [String.prototype.toLowerCase]. *)
Definition lower_ascii (c : ascii) : ascii :=
  let n := nat_of_ascii c in
  if ((65 <=? n) && (n <=? 90))%nat then ascii_of_nat (n + 32) else c.

(** [String.prototype.toLowerCase] on a string of ASCII characters; any
    other character is left as it is. *)
Definition toLowerCase (s : string) : string :=
  string_of_list_ascii (map lower_ascii (list_ascii_of_string s)).

(** The white space of [\s] within ASCII. *)
Definition is_space (c : ascii) : bool :=
  let n := nat_of_ascii c in
  ((n =? 32) || ((9 <=? n) && (n <=? 13)))%nat.

(** [s.replace(/\s+/g, "-")]: every maximal run of white space becomes one
    dash. *)
Fixpoint dash_spaces (in_run : bool) (cs : list ascii) : list ascii :=
  match cs with
  | [] => []
  | c :: cs' =>
      if is_space c
      then (if in_run then dash_spaces true cs' else "-"%char :: dash_spaces true cs')
      else c :: dash_spaces false cs'
  end.

Definition replace_spaces (s : string) : string :=
  string_of_list_ascii (dash_spaces false (list_ascii_of_string s)).

(** [String.prototype.trim], on ASCII white space. *)
Fixpoint drop_spaces (cs : list ascii) : list ascii :=
  match cs with
  | c :: cs' => if is_space c then drop_spaces cs' else cs
  | [] => []
  end.

Definition trim (s : string) : string :=
  string_of_list_ascii
    (rev (drop_spaces (rev (drop_spaces (list_ascii_of_string s))))).

(** [xs.join(sep)]. *)
Fixpoint join (sep : string) (xs : list string) : string :=
  match xs with
  | [] => EmptyString
  | [x] => x
  | x :: xs' => (x ++ sep ++ join sep xs')%string
  end.

(** ** The types of [lib/types] *)

(** ["high" | "medium" | "low"]: significance, anomaly severity, confidence. *)
Inductive Level := high | medium | low.

(** ["up" | "down" | "flat"]. *)
Inductive Direction := up | down | flat.

(** ["improving" | "declining" | "stable"]. *)
Inductive RatioTrend := improving | declining | stable.

(** ["increasing" | "decreasing" | "stable" | "volatile"]. *)
Inductive TrendDirection := increasing | decreasing | steady | volatile.

(** [IssueSeverity]. *)
Inductive IssueSeverity := critical | warning | info.

(** The [type] of an insight. *)
Inductive InsightType :=
  ins_variance | ins_trend | ins_anomaly | ins_health_signal | ins_issue.

Module PeriodData.
Record t := mk { periodStart : string; periodEnd : string; label : string }.
End PeriodData.

Module ExpenseCategory.
Record t := mk { name : string; amount : number }.
End ExpenseCategory.

Module ProfitAndLoss.
Record t := mk {
    period : PeriodData.t;
    totalRevenue : number;
    totalCogs : number;
    grossProfit : number;
    totalExpenses : number;
    netIncome : number;
    expenseCategories : list ExpenseCategory.t
  }.
End ProfitAndLoss.

Module CashPosition.
Record t := mk {
    currentBalance : number;
    previousBalance : number;
    asOfDate : string
  }.
End CashPosition.

Module VarianceResult.
Record t := mk {
    metric : string;
    currentValue : number;
    previousValue : number;
    absoluteChange : number;
    percentChange : number;
    direction : Direction;
    significance : Level
  }.
End VarianceResult.

Module RatioResult.
Record t := mk {
    name : string;
    value : number;
    previousValue : option number;
    trend : RatioTrend;
    description : string
  }.
End RatioResult.

Module TrendResult.
Record t := mk {
    metric : string;
    direction : TrendDirection;
    periods : number;
    magnitude : number;
    description : string
  }.
End TrendResult.

Module AnomalyResult.
Record t := mk {
    metric : string;
    value : number;
    expectedRange_min : number;
    expectedRange_max : number;
    severity : Level;
    description : string
  }.
End AnomalyResult.

Module Issue.
Record t := mk {
    id : string;
    severity : IssueSeverity;
    title : string;
    description : string;
    metric : string;
    currentValue : number;
    threshold : option number;
    firstDetectedAt : string;
    periodsActive : number
  }.
End Issue.

Module AIInsight.
Record t := mk {
    id : string;
    type : InsightType;
    summary : string;
    evidence : string;
    confidence : Level;
    action : option string;
    severity : option IssueSeverity;
    promptVersion : string;
    generatedAt : string;
    isStale : bool
  }.
End AIInsight.

(** ** [lib/engine/insights] *)

Definition level_eqb (a b : Level) : bool :=
  match a, b with
  | high, high | medium, medium | low, low => true
  | _, _ => false
  end.

Definition trendDirection_eqb (a b : TrendDirection) : bool :=
  match a, b with
  | increasing, increasing | decreasing, decreasing
  | steady, steady | volatile, volatile => true
  | _, _ => false
  end.

Definition ratioTrend_eqb (a b : RatioTrend) : bool :=
  match a, b with
  | improving, improving | declining, declining | stable, stable => true
  | _, _ => false
  end.

Definition direction_eqb (a b : Direction) : bool :=
  match a, b with
  | up, up | down, down | flat, flat => true
  | _, _ => false
  end.

(** The rows of the [metrics] table of [computeVariances]. *)
Definition headline_metrics (current previous : ProfitAndLoss.t)
  : list (string * (number * number)) :=
  [ ("Revenue"%string,
      (ProfitAndLoss.totalRevenue current, ProfitAndLoss.totalRevenue previous));
    ("Gross Profit"%string,
      (ProfitAndLoss.grossProfit current, ProfitAndLoss.grossProfit previous));
    ("Total Expenses"%string,
      (ProfitAndLoss.totalExpenses current, ProfitAndLoss.totalExpenses previous));
    ("Net Income"%string,
      (ProfitAndLoss.netIncome current, ProfitAndLoss.netIncome previous));
    ("Cost of Goods Sold"%string,
      (ProfitAndLoss.totalCogs current, ProfitAndLoss.totalCogs previous)) ].

(** The unrounded [percentChange] local of both variance functions. *)
Definition rawPercentChange (cur prev : number) : number :=
  if prev <>? 0 then ((cur - prev) / Math_abs prev) * 100 else 0.

Definition directionOf (absoluteChange : number) : Direction :=
  if absoluteChange >? 0 then up
  else if absoluteChange <? 0 then down
  else flat.

Definition computeVariances (current previous : ProfitAndLoss.t)
  : list VarianceResult.t :=
  map
    (fun m =>
       let '(metric, (cur, prev)) := m in
       let absoluteChange := cur - prev in
       let percentChange := rawPercentChange cur prev in
       let absPercent := Math_abs percentChange in
       {| VarianceResult.metric := metric;
          VarianceResult.currentValue := cur;
          VarianceResult.previousValue := prev;
          VarianceResult.absoluteChange := absoluteChange;
          VarianceResult.percentChange := round1 percentChange;
          VarianceResult.direction := directionOf absoluteChange;
          VarianceResult.significance :=
            if absPercent >? 20 then high
            else if absPercent >? 10 then medium
            else low |})
    (filter
       (fun m => let '(_, (cur, prev)) := m in (prev <>? 0) || (cur <>? 0))
       (headline_metrics current previous)).

(** [new Map(p.expenseCategories.map((c) => [c.name, c.amount]))]. *)
Definition categoryAmounts (p : ProfitAndLoss.t) : JMap :=
  Map_new
    (map (fun c => (ExpenseCategory.name c, ExpenseCategory.amount c))
       (ProfitAndLoss.expenseCategories p)).

(** The callback of the [map] of [computeExpenseVariances]. *)
Definition expenseVarianceOf (currentMap previousMap : JMap) (name : string)
  : VarianceResult.t :=
  let cur := or_zero (Map_get currentMap name) in
  let prev := or_zero (Map_get previousMap name) in
  let absoluteChange := cur - prev in
  let percentChange := rawPercentChange cur prev in
  let absPercent := Math_abs percentChange in
  {| VarianceResult.metric := name;
     VarianceResult.currentValue := cur;
     VarianceResult.previousValue := prev;
     VarianceResult.absoluteChange := absoluteChange;
     VarianceResult.percentChange := round1 percentChange;
     VarianceResult.direction := directionOf absoluteChange;
     VarianceResult.significance :=
       if absPercent >? 25 then high
       else if absPercent >? 10 then medium
       else low |}.

(** The comparator of the [sort] of [computeExpenseVariances]. *)
Definition compareDollarChange (a b : VarianceResult.t) : number :=
  Math_abs (VarianceResult.absoluteChange b)
  - Math_abs (VarianceResult.absoluteChange a).

Definition computeExpenseVariances (current previous : ProfitAndLoss.t)
  : list VarianceResult.t :=
  let currentMap := categoryAmounts current in
  let previousMap := categoryAmounts previous in
  let allCategories := Set_new (Map_keys currentMap ++ Map_keys previousMap) in
  sort compareDollarChange
    (filter
       (fun v => Math_abs (VarianceResult.percentChange v) >=? 5)
       (map (expenseVarianceOf currentMap previousMap) allCategories)).

Definition getTrend (current : number) (previous : option number) : RatioTrend :=
  match previous with
  | None => stable
  | Some previous =>
      let diff := current - previous in
      if diff >? 1 then improving
      else if diff <? -1 then declining
      else stable
  end.

(** [current.totalRevenue > 0 ? (x / current.totalRevenue) * 100 : 0]. *)
Definition marginOf (p : ProfitAndLoss.t) (numerator : number) : number :=
  if ProfitAndLoss.totalRevenue p >? 0
  then (numerator / ProfitAndLoss.totalRevenue p) * 100
  else 0.

(** [previous && previous.totalRevenue > 0 ? ... : undefined]. *)
Definition prevMarginOf (previous : option ProfitAndLoss.t)
  (field : ProfitAndLoss.t -> number) : option number :=
  match previous with
  | Some p =>
      if ProfitAndLoss.totalRevenue p >? 0
      then Some ((field p / ProfitAndLoss.totalRevenue p) * 100)
      else None
  | None => None
  end.

(** [prev ? Math.round(prev * 10) / 10 : undefined]: a previous ratio of 0 is
    falsy. *)
Definition roundedIfTruthy (prev : option number) : option number :=
  match prev with
  | Some x => if truthy x then Some (round1 x) else None
  | None => None
  end.

Definition computeRatios (current : ProfitAndLoss.t)
  (previous : option ProfitAndLoss.t) (cashPosition : option CashPosition.t)
  : list RatioResult.t :=
  (* Gross Margin *)
  let grossMargin := marginOf current (ProfitAndLoss.grossProfit current) in
  let prevGrossMargin := prevMarginOf previous ProfitAndLoss.grossProfit in
  let ratios :=
    [ {| RatioResult.name := "Gross Margin";
         RatioResult.value := round1 grossMargin;
         RatioResult.previousValue := roundedIfTruthy prevGrossMargin;
         RatioResult.trend := getTrend grossMargin prevGrossMargin;
         RatioResult.description :=
           "How much you keep from each sale after direct costs" |} ] in
  (* Net Profit Margin *)
  let netMargin := marginOf current (ProfitAndLoss.netIncome current) in
  let prevNetMargin := prevMarginOf previous ProfitAndLoss.netIncome in
  let ratios := ratios ++
    [ {| RatioResult.name := "Profit Margin";
         RatioResult.value := round1 netMargin;
         RatioResult.previousValue := roundedIfTruthy prevNetMargin;
         RatioResult.trend := getTrend netMargin prevNetMargin;
         RatioResult.description :=
           "What's left after all expenses, as a share of revenue" |} ] in
  (* Expense Ratio *)
  let expenseRatio := marginOf current (ProfitAndLoss.totalExpenses current) in
  let prevExpenseRatio := prevMarginOf previous ProfitAndLoss.totalExpenses in
  let ratios := ratios ++
    [ {| RatioResult.name := "Expense Ratio";
         RatioResult.value := round1 expenseRatio;
         RatioResult.previousValue := roundedIfTruthy prevExpenseRatio;
         RatioResult.trend :=
           match prevExpenseRatio with
           | Some prev =>
               if truthy prev
               then (if expenseRatio <? prev - 1 then improving
                     else if expenseRatio >? prev + 1 then declining
                     else stable)
               else stable
           | None => stable
           end;
         RatioResult.description :=
           "Your regular costs as a share of revenue" |} ] in
  (* Revenue Growth *)
  let ratios :=
    match previous with
    | Some previous =>
        if ProfitAndLoss.totalRevenue previous >? 0
        then
          let revenueGrowth :=
            ((ProfitAndLoss.totalRevenue current
              - ProfitAndLoss.totalRevenue previous)
             / Math_abs (ProfitAndLoss.totalRevenue previous)) * 100 in
          ratios ++
          [ {| RatioResult.name := "Revenue Growth";
               RatioResult.value := round1 revenueGrowth;
               RatioResult.previousValue := None;
               RatioResult.trend :=
                 if revenueGrowth >? 2 then improving
                 else if revenueGrowth <? -2 then declining
                 else stable;
               RatioResult.description :=
                 "How this month compares to last month" |} ]
        else ratios
    | None => ratios
    end in
  (* Cash Runway (if cash data available) *)
  match cashPosition with
  | Some cashPosition =>
      if ProfitAndLoss.totalExpenses current >? 0
      then
        let monthlyBurn :=
          ProfitAndLoss.totalExpenses current
          - ProfitAndLoss.totalRevenue current in
        let runwayMonths :=
          if monthlyBurn >? 0
          then CashPosition.currentBalance cashPosition / monthlyBurn
          else 99 in
        ratios ++
        [ {| RatioResult.name := "Cash Runway";
             RatioResult.value := round1 (Math_min runwayMonths 99);
             RatioResult.previousValue := None;
             RatioResult.trend :=
               if runwayMonths <? 3 then declining
               else if runwayMonths <? 6 then stable
               else improving;
             RatioResult.description :=
               "Months your cash will last at current spending" |} ]
      else ratios
  | None => ratios
  end.

(** The loop of [detectDirection]: [prev] is [values[i - 1]], the list the
    values from index [i] on. *)
Fixpoint countSteps (prev : number) (rest : list number) (ups downs : nat)
  : nat * nat :=
  match rest with
  | [] => (ups, downs)
  | v :: rest' =>
      let change := v - prev in
      let threshold := Math_abs prev * 0.03 in
      if change >? threshold then countSteps v rest' (S ups) downs
      else if change <? - threshold then countSteps v rest' ups (S downs)
      else countSteps v rest' ups downs
  end.

Definition of_nat (n : nat) : number := inject_Z (Z.of_nat n).

Definition detectDirection (values : list number) : TrendDirection :=
  let '(ups, downs) :=
    match values with
    | [] => (O, O)
    | v0 :: rest => countSteps v0 rest O O
    end in
  let total := length_n values - 1 in
  if of_nat ups >=? total * 0.7 then increasing
  else if of_nat downs >=? total * 0.7 then decreasing
  else if (0 <? ups)%nat && (0 <? downs)%nat
          && (of_nat (ups + downs) >=? total * 0.7) then volatile
  else steady.

(** The literal a [TrendDirection] stands for. *)
Definition directionString (d : TrendDirection) : string :=
  match d with
  | increasing => "increasing"
  | decreasing => "decreasing"
  | steady => "stable"
  | volatile => "volatile"
  end.

Definition sum (l : list number) : number := fold_left Qplus l 0.

(** [.filter(Boolean)] on the results of [find]. *)
Fixpoint filter_Boolean {A} (l : list (option A)) : list A :=
  match l with
  | [] => []
  | Some x :: l' => x :: filter_Boolean l'
  | None :: l' => filter_Boolean l'
  end.

(** [deviation > 50 ? "high" : deviation > 25 ? "medium" : "low"] with
    [deviation = Math.abs(((amount - mean) / mean) * 100)].  With [mean]
    zero the quotient is ±Infinity (greater than 50), or NaN when the
    dividend is zero too (every comparison false). *)
Definition deviationSeverity (amount mean : number) : Level :=
  if mean =? 0
  then (if amount =? 0 then low else high)
  else
    let deviation := Math_abs (((amount - mean) / mean) * 100) in
    if deviation >? 50 then high
    else if deviation >? 25 then medium
    else low.

Definition severityRank (s : Level) : number :=
  match s with high => 0 | medium => 1 | low => 2 end.

(** [order] of the comparator of [generateIssues]. *)
Definition order (s : IssueSeverity) : number :=
  match s with critical => 0 | warning => 1 | info => 2 end.

(** [order[a.severity] - order[b.severity] || b.currentValue - a.currentValue]. *)
Definition compareIssues (a b : Issue.t) : number :=
  let d := order (Issue.severity a) - order (Issue.severity b) in
  if truthy d then d else Issue.currentValue b - Issue.currentValue a.

(** The two containers [generateIssues] fills side by side. *)
Record IssueState := mkIssueState {
  issues : list Issue.t;
  rootCauses : JSet
}.

(** [issues.push(i); rootCauses.add(tag)]. *)
Definition raise (st : IssueState) (i : Issue.t) (tag : string) : IssueState :=
  {| issues := issues st ++ [i]; rootCauses := Set_add (rootCauses st) tag |}.

Section Engine.

(** [String(x)] as a template literal renders a number. *)
Variable numToString : number -> string.
(** [x.toLocaleString()]. *)
Variable toLocaleString : number -> string.
(** [Math.sqrt]. *)
Variable Math_sqrt : number -> number.
(** [new Date().toISOString()] at the n-th reading of the clock within one
    call. *)
Variable clock : nat -> string.

Local Open Scope string_scope.
Local Open Scope js_scope.

Definition describeTrend (metric direction : string) (periods magnitude : number)
  : string :=
  let dirWord :=
    if String.eqb direction "increasing" then "been growing"
    else if String.eqb direction "decreasing" then "been declining"
    else "been fluctuating" in
  metric ++ " has " ++ dirWord ++ " over the past " ++ numToString periods
    ++ " months (" ++ numToString magnitude ++ "% total change).".

(** [metrics] of [detectTrends] with [metricLabels]. *)
Definition trend_metrics : list ((ProfitAndLoss.t -> number) * string) :=
  [ (ProfitAndLoss.totalRevenue, "Revenue");
    (ProfitAndLoss.totalExpenses, "Expenses");
    (ProfitAndLoss.netIncome, "Profit");
    (ProfitAndLoss.grossProfit, "Gross Profit") ].

(** One turn of the loop over [metrics]: what it pushes. *)
Definition trendOf (periods : list ProfitAndLoss.t)
  (m : (ProfitAndLoss.t -> number) * string) : list TrendResult.t :=
  let '(metric, label) := m in
  let values := map metric periods in
  let direction := detectDirection values in
  if negb (trendDirection_eqb direction steady)
  then
    let firstVal := hd 0%Q values in
    let lastVal := last values 0%Q in
    let magnitude :=
      if firstVal <>? 0
      then Math_abs (((lastVal - firstVal) / Math_abs firstVal) * 100)
      else 0%Q in
    [ {| TrendResult.metric := label;
         TrendResult.direction := direction;
         TrendResult.periods := length_n periods;
         TrendResult.magnitude := round1 magnitude;
         TrendResult.description :=
           describeTrend label (directionString direction)
             (length_n periods) magnitude |} ]
  else [].

Definition detectTrends (periods : list ProfitAndLoss.t) : list TrendResult.t :=
  if length_n periods <? 2 then []
  else flat_map (trendOf periods) trend_metrics.

(** [historicalValues] of one category of the latest period. *)
Definition historicalValues (historicalPeriods : list ProfitAndLoss.t)
  (category : ExpenseCategory.t) : list number :=
  map ExpenseCategory.amount
    (filter_Boolean
       (map
          (fun p =>
             find
               (fun c =>
                  String.eqb (ExpenseCategory.name c)
                    (ExpenseCategory.name category))
               (ProfitAndLoss.expenseCategories p))
          historicalPeriods)).

(** One turn of the loop of [detectAnomalies]: what it pushes. *)
Definition anomalyOf (historicalPeriods : list ProfitAndLoss.t)
  (category : ExpenseCategory.t) : list AnomalyResult.t :=
  let historicalValues := historicalValues historicalPeriods category in
  if length_n historicalValues <? 2 then []
  else
    let mean := (sum historicalValues / length_n historicalValues)%Q in
    let stdDev :=
      Math_sqrt
        (sum (map (fun v => (v - mean) * (v - mean)) historicalValues)
         / length_n historicalValues)%Q in
    let upperBound := (mean + 1.5 * stdDev)%Q in
    let lowerBound := Math_max 0 (mean - 1.5 * stdDev) in
    let amount := ExpenseCategory.amount category in
    if (amount >? upperBound) || (amount <? lowerBound)
    then
      [ {| AnomalyResult.metric := ExpenseCategory.name category;
           AnomalyResult.value := amount;
           AnomalyResult.expectedRange_min := Math_round lowerBound;
           AnomalyResult.expectedRange_max := Math_round upperBound;
           AnomalyResult.severity := deviationSeverity amount mean;
           AnomalyResult.description :=
             ExpenseCategory.name category ++ " is "
             ++ (if amount >? mean then "higher" else "lower")
             ++ " than usual. Expected range: $"
             ++ toLocaleString (Math_round lowerBound) ++ "–$"
             ++ toLocaleString (Math_round upperBound) ++ ", actual: $"
             ++ toLocaleString (Math_round amount) ++ "." |} ]
    else [].

Definition detectAnomalies (periods : list ProfitAndLoss.t)
  : list AnomalyResult.t :=
  if length_n periods <? 3 then []
  else
    match rev periods with
    | [] => []
    | latestPeriod :: _ =>
        let historicalPeriods := removelast periods in
        sort
          (fun a b =>
             severityRank (AnomalyResult.severity a)
             - severityRank (AnomalyResult.severity b))%Q
          (flat_map (anomalyOf historicalPeriods)
             (ProfitAndLoss.expenseCategories latestPeriod))
    end.

(** *** [generateIssues], rule by rule

    The object literal of each [issues.push] is a function of what the
    rule found and of the time read for [firstDetectedAt]. *)

Definition cashRunwayIssue (cashRunway : RatioResult.t)
  (firstDetectedAt : string) : Issue.t :=
  {| Issue.id := "iss-cash-runway";
     Issue.severity := critical;
     Issue.title := "Cash runway is getting short";
     Issue.description :=
       "At current spending, your cash will last about "
       ++ numToString (RatioResult.value cashRunway)
       ++ " months. Consider reducing expenses or increasing revenue.";
     Issue.metric := "cash_runway";
     Issue.currentValue := RatioResult.value cashRunway;
     Issue.threshold := Some 3%Q;
     Issue.firstDetectedAt := firstDetectedAt;
     Issue.periodsActive := 1%Q |}.

Definition cashRunwayRule (ratios : list RatioResult.t) (st : IssueState)
  : IssueState :=
  match find (fun r => String.eqb (RatioResult.name r) "Cash Runway") ratios with
  | Some cashRunway =>
      if RatioResult.value cashRunway <? 3
      then
        raise st
          (cashRunwayIssue cashRunway (clock (List.length (issues st))))
          "cash"
      else st
  | None => st
  end.

Definition expenseRevenueIssue (revenueVariance expenseVariance : VarianceResult.t)
  (firstDetectedAt : string) : Issue.t :=
  {| Issue.id := "iss-expense-revenue";
     Issue.severity :=
       if VarianceResult.percentChange expenseVariance
          >? VarianceResult.percentChange revenueVariance + 15
       then critical else warning;
     Issue.title := "Expenses growing faster than revenue";
     Issue.description :=
       "Your costs grew "
       ++ numToString (VarianceResult.percentChange expenseVariance)
       ++ "% while revenue "
       ++ (if direction_eqb (VarianceResult.direction revenueVariance) up
           then "only grew "
                ++ numToString (VarianceResult.percentChange revenueVariance)
                ++ "%"
           else "declined "
                ++ numToString
                     (Math_abs (VarianceResult.percentChange revenueVariance))
                ++ "%")
       ++ ". This gap is squeezing your margins.";
     Issue.metric := "expense_to_revenue_ratio";
     Issue.currentValue := VarianceResult.percentChange expenseVariance;
     Issue.threshold :=
       Some (VarianceResult.percentChange revenueVariance + 5)%Q;
     Issue.firstDetectedAt := firstDetectedAt;
     Issue.periodsActive := 1%Q |}.

Definition expenseRevenueRule (variances : list VarianceResult.t)
  (st : IssueState) : IssueState :=
  let revenueVariance :=
    find (fun v => String.eqb (VarianceResult.metric v) "Revenue") variances in
  let expenseVariance :=
    find (fun v => String.eqb (VarianceResult.metric v) "Total Expenses")
      variances in
  match revenueVariance, expenseVariance with
  | Some revenueVariance, Some expenseVariance =>
      if (VarianceResult.percentChange expenseVariance
          >? VarianceResult.percentChange revenueVariance + 5)
         && negb (Set_has (rootCauses st) "expense_revenue")
      then
        raise st
          (expenseRevenueIssue revenueVariance expenseVariance
             (clock (List.length (issues st))))
          "expense_revenue"
      else st
  | _, _ => st
  end.

Definition marginIssue (marginTrend : TrendResult.t)
  (firstDetectedAt : string) : Issue.t :=
  {| Issue.id := "iss-margin-decline";
     Issue.severity :=
       if TrendResult.periods marginTrend >=? 3 then warning else info;
     Issue.title :=
       "Profit margin declining for "
       ++ numToString (TrendResult.periods marginTrend) ++ " months";
     Issue.description :=
       "Your gross profit has been shrinking for "
       ++ numToString (TrendResult.periods marginTrend)
       ++ " consecutive months, dropping a total of "
       ++ numToString (TrendResult.magnitude marginTrend) ++ "%.";
     Issue.metric := "gross_margin_trend";
     Issue.currentValue := TrendResult.magnitude marginTrend;
     Issue.threshold := None;
     Issue.firstDetectedAt := firstDetectedAt;
     Issue.periodsActive := TrendResult.periods marginTrend |}.

(** [trends.find(t => t.metric === "Gross Profit" && t.direction === "decreasing")]. *)
Definition findMarginTrend (trends : list TrendResult.t) : option TrendResult.t :=
  find
    (fun t =>
       String.eqb (TrendResult.metric t) "Gross Profit"
       && trendDirection_eqb (TrendResult.direction t) decreasing)
    trends.

Definition marginRule (trends : list TrendResult.t) (st : IssueState)
  : IssueState :=
  match findMarginTrend trends with
  | Some marginTrend =>
      if (TrendResult.periods marginTrend >=? 2)
         && negb (Set_has (rootCauses st) "margin")
      then
        raise st
          (marginIssue marginTrend (clock (List.length (issues st))))
          "margin"
      else st
  | None => st
  end.

Definition anomalyIssue (anomaly : AnomalyResult.t)
  (firstDetectedAt : string) : Issue.t :=
  {| Issue.id :=
       "iss-anomaly-"
       ++ replace_spaces (toLowerCase (AnomalyResult.metric anomaly));
     Issue.severity :=
       if level_eqb (AnomalyResult.severity anomaly) high
       then warning else info;
     Issue.title := "Unusual spending on " ++ AnomalyResult.metric anomaly;
     Issue.description := AnomalyResult.description anomaly;
     Issue.metric := "anomaly_" ++ AnomalyResult.metric anomaly;
     Issue.currentValue := AnomalyResult.value anomaly;
     Issue.threshold := None;
     Issue.firstDetectedAt := firstDetectedAt;
     Issue.periodsActive := 1%Q |}.

(** One turn of the loop over [anomalies.slice(0, 2)]. *)
Definition anomalyRule (st : IssueState) (anomaly : AnomalyResult.t)
  : IssueState :=
  let rootKey := "anomaly-" ++ AnomalyResult.metric anomaly in
  if negb (Set_has (rootCauses st) rootKey)
  then raise st (anomalyIssue anomaly (clock (List.length (issues st)))) rootKey
  else st.

(** The state of [generateIssues] in front of its [return]. *)
Definition issueCascade (variances : list VarianceResult.t)
  (ratios : list RatioResult.t) (trends : list TrendResult.t)
  (anomalies : list AnomalyResult.t) : IssueState :=
  let st := {| issues := []; rootCauses := [] |} in
  let st := cashRunwayRule ratios st in
  let st := expenseRevenueRule variances st in
  let st := marginRule trends st in
  fold_left anomalyRule (firstn 2 anomalies) st.

Definition generateIssues (variances : list VarianceResult.t)
  (ratios : list RatioResult.t) (trends : list TrendResult.t)
  (anomalies : list AnomalyResult.t) (cashPosition : option CashPosition.t)
  : list Issue.t :=
  firstn 5
    (sort compareIssues (issues (issueCascade variances ratios trends anomalies))).

End Engine.

(** ** [lib/integrations/quickbooks-parser] *)

(** [QBReportRow].  A cell [{ value }] is its [value]; the fields the parser
    reaches through [?.] are optional. *)
#[local] Set Warnings "-register-all".

Inductive QBReportRow := mkQBReportRow {
  ColData : option (list string);
  Rows : option (list QBReportRow);
  group : option string;
  Summary : option (list string)
}.

Module QBColumn.
Record t := mk { ColTitle : string; ColType : string }.
End QBColumn.

Module QBReport.
Record t := mk {
  StartPeriod : string;
  EndPeriod : string;
  Column : option (list QBColumn.t);
  Row : option (list QBReportRow)
}.
End QBReport.

(** [s || d] on strings: the empty string is falsy. *)
Definition str_or (s : option string) (d : string) : string :=
  match s with
  | Some EmptyString | None => d
  | Some s => s
  end.

(** [xs || []]. *)
Definition list_or {A} (xs : option (list A)) : list A :=
  match xs with Some l => l | None => [] end.

(** [cells?.[i]?.value]. *)
Definition cell (cells : option (list string)) (i : nat) : option string :=
  match cells with
  | Some l => nth_error l i
  | None => None
  end.

(** The locals of the row loop of both parsers. *)
Record Totals := mkTotals {
  t_totalRevenue : number;
  t_totalCogs : number;
  t_grossProfit : number;
  t_totalExpenses : number;
  t_netIncome : number;
  t_expenseCategories : list ExpenseCategory.t
}.

Definition zeroTotals : Totals := mkTotals 0 0 0 0 0 [].

(** [parseFloat] on a plain decimal literal, [-]digits[.digits]; used where a
    concrete report is evaluated. *)
Definition digit_of (c : ascii) : option Z :=
  let n := nat_of_ascii c in
  if ((48 <=? n) && (n <=? 57))%nat then Some (Z.of_nat (n - 48)) else None.

Fixpoint parseDigits (cs : list ascii) (acc : Z) : Z * list ascii :=
  match cs with
  | c :: cs' =>
      match digit_of c with
      | Some d => parseDigits cs' (10 * acc + d)%Z
      | None => (acc, cs)
      end
  | [] => (acc, [])
  end.

Fixpoint parseFraction (cs : list ascii) (num : Z) (den : positive) : Q :=
  match cs with
  | c :: cs' =>
      match digit_of c with
      | Some d => parseFraction cs' (10 * num + d)%Z (10 * den)%positive
      | None => num # den
      end
  | [] => num # den
  end.

Definition parseUnsigned (cs : list ascii) : Q :=
  let '(int, rest) := parseDigits cs 0%Z in
  match rest with
  | "."%char :: frac => inject_Z int + parseFraction frac 0%Z 1%positive
  | _ => inject_Z int
  end.

Definition parseDecimal (s : string) : number :=
  match drop_spaces (list_ascii_of_string s) with
  | "-"%char :: cs => - parseUnsigned cs
  | cs => parseUnsigned cs
  end.

Definition compareAmounts (a b : ExpenseCategory.t) : number :=
  Math_abs (ExpenseCategory.amount b) - Math_abs (ExpenseCategory.amount a).

Section Parser.

(** [parseFloat] at the texts of a report. *)
Variable parseFloat : string -> number.
(** The helper [formatPeriodLabel], a matter of [Date] and of the locale. *)
Variable formatPeriodLabel : string -> string -> string.

Local Open Scope string_scope.
Local Open Scope js_scope.

(** The inner loop of the ["Expenses"] case; [enough] is the test on
    [expRow.ColData.length], [dataIdx] the column read, [keep] the test in
    front of the [push]. *)
Definition expenseRows (enough : nat -> bool) (dataIdx : nat)
  (keep : number -> string -> bool)
  (rows : list QBReportRow) (acc : list ExpenseCategory.t)
  : list ExpenseCategory.t :=
  fold_left
    (fun acc expRow =>
       match ColData expRow with
       | Some colData =>
           if enough (List.length colData)
           then
             let name := str_or (cell (ColData expRow) 0) "Unknown" in
             let amount := parseFloat (str_or (cell (ColData expRow) dataIdx) "0") in
             if keep amount name
             then (acc ++ [ {| ExpenseCategory.name := name;
                               ExpenseCategory.amount := amount |} ])%list
             else acc
         else acc
       | None => acc
       end)
    rows acc.

(** One turn of the row loop of [parseProfitAndLoss]. *)
Definition pnlRow (t : Totals) (row : QBReportRow) : Totals :=
  let groupName := str_or (group row) "" in
  let summaryValue := parseFloat (str_or (cell (Summary row) 1) "0") in
  if String.eqb groupName "Income" then
    mkTotals summaryValue (t_totalCogs t) (t_grossProfit t) (t_totalExpenses t)
      (t_netIncome t) (t_expenseCategories t)
  else if String.eqb groupName "COGS" then
    mkTotals (t_totalRevenue t) summaryValue (t_grossProfit t)
      (t_totalExpenses t) (t_netIncome t) (t_expenseCategories t)
  else if String.eqb groupName "GrossProfit" then
    mkTotals (t_totalRevenue t) (t_totalCogs t) summaryValue
      (t_totalExpenses t) (t_netIncome t) (t_expenseCategories t)
  else if String.eqb groupName "Expenses" then
    mkTotals (t_totalRevenue t) (t_totalCogs t) (t_grossProfit t) summaryValue
      (t_netIncome t)
      (match Rows row with
       | Some expRows =>
           expenseRows (fun n => (2 <=? n)%nat) 1
             (fun amount name => (amount <>? 0) && negb (String.eqb name ""))
             expRows (t_expenseCategories t)
       | None => t_expenseCategories t
       end)
  else if String.eqb groupName "OtherExpenses" then
    mkTotals (t_totalRevenue t) (t_totalCogs t) (t_grossProfit t)
      (t_totalExpenses t + summaryValue)%Q (t_netIncome t)
      (t_expenseCategories t)
  else if String.eqb groupName "NetIncome"
          || String.eqb groupName "NetOperatingIncome" then
    mkTotals (t_totalRevenue t) (t_totalCogs t) (t_grossProfit t)
      (t_totalExpenses t) summaryValue (t_expenseCategories t)
  else t.

(** [if (grossProfit === 0 && totalRevenue > 0) grossProfit = totalRevenue - totalCogs]. *)
Definition deriveGrossProfit (t : Totals) : number :=
  if (t_grossProfit t =? 0) && (t_totalRevenue t >? 0)
  then (t_totalRevenue t - t_totalCogs t)%Q
  else t_grossProfit t.

Definition statementOf (period : PeriodData.t) (t : Totals) : ProfitAndLoss.t :=
  {| ProfitAndLoss.period := period;
     ProfitAndLoss.totalRevenue := t_totalRevenue t;
     ProfitAndLoss.totalCogs := t_totalCogs t;
     ProfitAndLoss.grossProfit := deriveGrossProfit t;
     ProfitAndLoss.totalExpenses := t_totalExpenses t;
     ProfitAndLoss.netIncome := t_netIncome t;
     ProfitAndLoss.expenseCategories :=
       sort compareAmounts (t_expenseCategories t) |}.

Definition parseProfitAndLoss (report : QBReport.t) : ProfitAndLoss.t :=
  let period :=
    {| PeriodData.periodStart := QBReport.StartPeriod report;
       PeriodData.periodEnd := QBReport.EndPeriod report;
       PeriodData.label :=
         formatPeriodLabel (QBReport.StartPeriod report)
           (QBReport.EndPeriod report) |} in
  let rows := list_or (QBReport.Row report) in
  statementOf period (fold_left pnlRow rows zeroTotals).

(** One turn of the row loop of [parseMonthlyPnL], for the column
    [dataIdx]. *)
Definition monthlyRow (dataIdx : nat) (t : Totals) (row : QBReportRow) : Totals :=
  let groupName := str_or (group row) "" in
  let summaryValue := parseFloat (str_or (cell (Summary row) dataIdx) "0") in
  if String.eqb groupName "Income" then
    mkTotals summaryValue (t_totalCogs t) (t_grossProfit t) (t_totalExpenses t)
      (t_netIncome t) (t_expenseCategories t)
  else if String.eqb groupName "COGS" then
    mkTotals (t_totalRevenue t) summaryValue (t_grossProfit t)
      (t_totalExpenses t) (t_netIncome t) (t_expenseCategories t)
  else if String.eqb groupName "GrossProfit" then
    mkTotals (t_totalRevenue t) (t_totalCogs t) summaryValue
      (t_totalExpenses t) (t_netIncome t) (t_expenseCategories t)
  else if String.eqb groupName "Expenses" then
    mkTotals (t_totalRevenue t) (t_totalCogs t) (t_grossProfit t) summaryValue
      (t_netIncome t)
      (match Rows row with
       | Some expRows =>
           expenseRows (fun n => (dataIdx <? n)%nat) dataIdx
             (fun amount _ => amount <>? 0)
             expRows (t_expenseCategories t)
       | None => t_expenseCategories t
       end)
  else if String.eqb groupName "NetIncome"
          || String.eqb groupName "NetOperatingIncome" then
    mkTotals (t_totalRevenue t) (t_totalCogs t) (t_grossProfit t)
      (t_totalExpenses t) summaryValue (t_expenseCategories t)
  else t.

Definition parseMonthlyPnL (report : QBReport.t) : list ProfitAndLoss.t :=
  let columns := list_or (QBReport.Column report) in
  let rows := list_or (QBReport.Row report) in
  let monthColumns :=
    filter
      (fun col =>
         negb (String.eqb (QBColumn.ColTitle col) "")
         && negb (String.eqb (QBColumn.ColTitle col) "Total"))
      (tl columns) in
  map
    (fun ic =>
       let '(colIdx, col) := ic in
       let dataIdx := (colIdx + 1)%nat in
       let colTitle := QBColumn.ColTitle col in
       statementOf
         {| PeriodData.periodStart := colTitle;
            PeriodData.periodEnd := colTitle;
            PeriodData.label := colTitle |}
         (fold_left (monthlyRow dataIdx) rows zeroTotals))
    (combine (seq 0 (List.length monthColumns)) monthColumns).

End Parser.

(** ** [lib/ai/explanations] *)

(** What the text-generation service answers to one request: a text, or a
    failure ([generateText] throws). *)
Inductive Completion := Text (text : string) | Failure (error : string).

Module Request.
Record t := mk {
  model : string;
  system : string;
  prompt : string;
  maxOutputTokens : number;
  temperature : number
}.
End Request.

(** The state of the outside world an invocation goes through: how many
    requests the service has received, how often the clock has been read, and
    what has been written to the console. *)
Record World := mkWorld {
  requests : nat;
  clockReads : nat;
  console : list string
}.

(** A computation returns or throws. *)
Inductive Outcome (A : Type) := Returned (a : A) | Thrown (error : string).
Arguments Returned {A} a.
Arguments Thrown {A} error.

(** An [async] function, its [await]s in sequence. *)
Definition Async (A : Type) := World -> Outcome A * World.

Definition ret {A} (a : A) : Async A := fun w => (Returned a, w).

Definition bind {A B} (m : Async A) (k : A -> Async B) : Async B :=
  fun w =>
    match m w with
    | (Returned a, w') => k a w'
    | (Thrown e, w') => (Thrown e, w')
    end.

(** [try { body } catch (error) { handler }]. *)
Definition tryCatch {A} (body : Async A) (handler : string -> Async A) : Async A :=
  fun w =>
    match body w with
    | (Returned a, w') => (Returned a, w')
    | (Thrown e, w') => handler e w'
    end.

Notation "x <- m ;; k" := (bind m (fun x => k))
  (at level 61, m at next level, right associativity).

(** A [for ... of] loop with [await] in its body, over an accumulator. *)
Fixpoint forOf {A S} (xs : list A) (body : S -> A -> Async S) (s : S) : Async S :=
  match xs with
  | [] => ret s
  | x :: xs' => s' <- body s x ;; forOf xs' body s'
  end.

Definition console_error (message : string) : Async unit :=
  fun w =>
    (Returned tt,
     mkWorld (requests w) (clockReads w) (console w ++ [message])).

(** The argument of [generateInsightsFromMetrics]. *)
Module MetricsData.
Record t := mk {
  variances : list VarianceResult.t;
  ratios : list RatioResult.t;
  trends : list TrendResult.t;
  anomalies : list AnomalyResult.t;
  issues : list Issue.t;
  current : ProfitAndLoss.t;
  previous : option ProfitAndLoss.t
}.
End MetricsData.

(** The result of [callAI]: [{ action?: string }]. *)
Module Explanation.
Record t := mk { action : option string }.
End Explanation.

Definition nl : string := String (ascii_of_nat 10) EmptyString.

(** What [callAI] makes of a completion: the [action] it returns and the
    line it writes to the console. *)
Definition actionFrom (c : Completion) : option string :=
  match c with
  | Text text => Some (trim text)
  | Failure _ => None
  end.

Definition logOf (c : Completion) : list string :=
  match c with
  | Text _ => []
  | Failure error => [("AI explanation error: " ++ error)%string]
  end.

Definition PROMPT_VERSION : string := "v1.0".

Section Explanations.

Variable numToString : number -> string.
Variable toLocaleString : number -> string.
(** The answer of the service to its n-th request. *)
Variable service : nat -> Request.t -> Completion.
(** [process.env.AI_MODEL]. *)
Variable AI_MODEL : option string.
(** The constant [SYSTEM_PROMPT]. *)
Variable SYSTEM_PROMPT : string.
(** The clock at its n-th reading, in milliseconds, and [toISOString]. *)
Variable now : nat -> number.
Variable toISOString : number -> string.

Local Open Scope string_scope.
Local Open Scope js_scope.

(** [generateText] of the SDK: one request to the service. *)
Definition generateText (request : Request.t) : Async string :=
  fun w =>
    let w' := mkWorld (S (requests w)) (clockReads w) (console w) in
    match service (requests w) request with
    | Text text => (Returned text, w')
    | Failure error => (Thrown error, w')
    end.

(** [Date.now()]. *)
Definition Date_now : Async number :=
  fun w =>
    (Returned (now (clockReads w)),
     mkWorld (requests w) (S (clockReads w)) (console w)).

(** [new Date().toISOString()]. *)
Definition Date_toISOString : Async string :=
  t <- Date_now ;; ret (toISOString t).

Definition callAI (prompt : string) : Async Explanation.t :=
  tryCatch
    (text <- generateText
               {| Request.model := str_or AI_MODEL "gpt-4o-mini";
                  Request.system := SYSTEM_PROMPT;
                  Request.prompt := prompt;
                  Request.maxOutputTokens := 200%Q;
                  Request.temperature := 0.2%Q |} ;;
     ret {| Explanation.action := Some (trim text) |})
    (fun error =>
       _ <- console_error ("AI explanation error: " ++ error) ;;
       ret {| Explanation.action := None |}).

Definition directionWord (d : Direction) : string :=
  match d with up => "up" | down => "down" | flat => "flat" end.

Definition dollars (x : number) : string :=
  "$" ++ toLocaleString (Math_round x).

Definition buildVariancePrompt (variances : list VarianceResult.t)
  (current : ProfitAndLoss.t) (previous : option ProfitAndLoss.t) : string :=
  let varianceLines :=
    join nl
      (map
         (fun v =>
            "• " ++ VarianceResult.metric v ++ ": "
            ++ dollars (VarianceResult.currentValue v) ++ " ("
            ++ directionWord (VarianceResult.direction v) ++ " "
            ++ numToString (Math_abs (VarianceResult.percentChange v))
            ++ "% from " ++ dollars (VarianceResult.previousValue v) ++ ")")
         variances) in
  "Based on these metric changes, suggest ONE actionable next step for the business owner (1-2 sentences max):"
  ++ nl ++ nl ++ varianceLines ++ nl ++ nl
  ++ "Top expense categories this period:" ++ nl
  ++ join nl
       (map
          (fun c =>
             "• " ++ ExpenseCategory.name c ++ ": "
             ++ dollars (ExpenseCategory.amount c))
          (firstn 5 (ProfitAndLoss.expenseCategories current)))
  ++ nl ++ nl
  ++ "Only suggest actions using the data above. Do NOT invent numbers.".

Definition buildTrendPrompt (trend : TrendResult.t)
  (ratios : list RatioResult.t) : string :=
  "A business's " ++ TrendResult.metric trend ++ " has been "
  ++ directionString (TrendResult.direction trend) ++ " for "
  ++ numToString (TrendResult.periods trend) ++ " months ("
  ++ numToString (TrendResult.magnitude trend) ++ "% total change)."
  ++ nl ++ nl ++ "Current ratios:" ++ nl
  ++ join nl
       (map
          (fun r =>
             "• " ++ RatioResult.name r ++ ": "
             ++ numToString (RatioResult.value r) ++ "%")
          ratios)
  ++ nl ++ nl
  ++ "Suggest ONE specific, actionable next step (1-2 sentences max). Do NOT generate numbers.".

Definition getVarianceSummary (variances : list VarianceResult.t) : string :=
  let revenueSummary :=
    match
      find (fun v => String.eqb (VarianceResult.metric v) "Revenue") variances
    with
    | Some revenue =>
        if negb (direction_eqb (VarianceResult.direction revenue) flat)
        then
          "Revenue "
          ++ (if direction_eqb (VarianceResult.direction revenue) up
              then "grew" else "declined")
          ++ " "
          ++ numToString (Math_abs (VarianceResult.percentChange revenue))
          ++ "% this period"
        else "Several financial metrics changed significantly this period"
    | None => "Several financial metrics changed significantly this period"
    end in
  match
    find (fun v => String.eqb (VarianceResult.metric v) "Net Income") variances
  with
  | Some netIncome =>
      match VarianceResult.direction netIncome with
      | down =>
          "Your profit dropped "
          ++ numToString (Math_abs (VarianceResult.percentChange netIncome))
          ++ "% compared to last month"
      | up =>
          "Your profit increased "
          ++ numToString (VarianceResult.percentChange netIncome)
          ++ "% compared to last month"
      | flat => revenueSummary
      end
  | None => revenueSummary
  end.

Definition buildEvidenceFromVariances (variances : list VarianceResult.t)
  : string :=
  join ". "
    (map
       (fun v =>
          VarianceResult.metric v ++ ": "
          ++ dollars (VarianceResult.previousValue v) ++ " → "
          ++ dollars (VarianceResult.currentValue v) ++ " ("
          ++ (if direction_eqb (VarianceResult.direction v) up then "+" else "")
          ++ numToString (VarianceResult.percentChange v) ++ "%)")
       variances).

(** [significantVariances] of [generateInsightsFromMetrics]. *)
Definition significantVariances (data : MetricsData.t)
  : list VarianceResult.t :=
  filter
    (fun v =>
       negb (level_eqb (VarianceResult.significance v) low)
       && negb (String.eqb (VarianceResult.metric v) "Cost of Goods Sold"))
    (MetricsData.variances data).

(** The object literals of the four [insights.push], as functions of what
    they read: the data, the explanation, [Date.now()] and
    [new Date().toISOString()]. *)
Definition varianceInsightOf (significantVariances : list VarianceResult.t)
  (explanation : Explanation.t) (t : number) (generatedAt : string)
  : AIInsight.t :=
  {| AIInsight.id := "ins-var-" ++ numToString t;
     AIInsight.type := ins_variance;
     AIInsight.summary := getVarianceSummary significantVariances;
     AIInsight.evidence := buildEvidenceFromVariances significantVariances;
     AIInsight.confidence :=
       if existsb (fun v => level_eqb (VarianceResult.significance v) high)
            significantVariances
       then high else medium;
     AIInsight.action := Explanation.action explanation;
     AIInsight.severity := None;
     AIInsight.promptVersion := PROMPT_VERSION;
     AIInsight.generatedAt := generatedAt;
     AIInsight.isStale := false |}.

Definition trendInsightOf (trend : TrendResult.t)
  (explanation : Explanation.t) (t : number) (generatedAt : string)
  : AIInsight.t :=
  {| AIInsight.id :=
       "ins-trend-" ++ TrendResult.metric trend ++ "-" ++ numToString t;
     AIInsight.type := ins_trend;
     AIInsight.summary := TrendResult.description trend;
     AIInsight.evidence :=
       TrendResult.metric trend ++ " has moved "
       ++ numToString (TrendResult.magnitude trend) ++ "% over "
       ++ numToString (TrendResult.periods trend) ++ " months.";
     AIInsight.confidence :=
       if TrendResult.periods trend >=? 3 then high else medium;
     AIInsight.action := Explanation.action explanation;
     AIInsight.severity := None;
     AIInsight.promptVersion := PROMPT_VERSION;
     AIInsight.generatedAt := generatedAt;
     AIInsight.isStale := false |}.

Definition anomalyInsightOf (anomaly : AnomalyResult.t) (t : number)
  (generatedAt : string) : AIInsight.t :=
  {| AIInsight.id :=
       "ins-anomaly-" ++ AnomalyResult.metric anomaly ++ "-" ++ numToString t;
     AIInsight.type := ins_anomaly;
     AIInsight.summary :=
       AnomalyResult.metric anomaly ++ " is unusually "
       ++ (if AnomalyResult.value anomaly
              >? (AnomalyResult.expectedRange_min anomaly
                  + AnomalyResult.expectedRange_max anomaly) / 2
           then "high" else "low")
       ++ " this period";
     AIInsight.evidence := AnomalyResult.description anomaly;
     AIInsight.confidence :=
       if level_eqb (AnomalyResult.severity anomaly) high
       then high else medium;
     AIInsight.action :=
       Some ("Review recent " ++ toLowerCase (AnomalyResult.metric anomaly)
             ++ " to check if this is a one-time event or a new pattern.");
     AIInsight.severity := None;
     AIInsight.promptVersion := PROMPT_VERSION;
     AIInsight.generatedAt := generatedAt;
     AIInsight.isStale := false |}.

Definition healthInsightOf (decliningRatios : list RatioResult.t) (t : number)
  (generatedAt : string) : AIInsight.t :=
  {| AIInsight.id := "ins-health-" ++ numToString t;
     AIInsight.type := ins_health_signal;
     AIInsight.summary :=
       numToString (length_n decliningRatios) ++ " health signal"
       ++ (if (1 <? List.length decliningRatios)%nat then "s" else "")
       ++ " trending downward";
     AIInsight.evidence :=
       join ". "
         (map
            (fun r =>
               RatioResult.name r ++ ": "
               ++ numToString (RatioResult.value r) ++ "%"
               ++ match RatioResult.previousValue r with
                  | Some p =>
                      if truthy p
                      then " (was " ++ numToString p ++ "%)"
                      else ""
                  | None => ""
                  end)
            decliningRatios);
     AIInsight.confidence := high;
     AIInsight.action := None;
     AIInsight.severity := None;
     AIInsight.promptVersion := PROMPT_VERSION;
     AIInsight.generatedAt := generatedAt;
     AIInsight.isStale := false |}.

(** The first block: the insight on the significant variances. *)
Definition varianceInsight (data : MetricsData.t) (insights : list AIInsight.t)
  : Async (list AIInsight.t) :=
  let significantVariances := significantVariances data in
  if (0 <? List.length significantVariances)%nat
  then
    let prompt :=
      buildVariancePrompt significantVariances (MetricsData.current data)
        (MetricsData.previous data) in
    explanation <- callAI prompt ;;
    t <- Date_now ;;
    generatedAt <- Date_toISOString ;;
    ret (List.app insights
           [varianceInsightOf significantVariances explanation t generatedAt])
  else ret insights.

(** One turn of the loop over [data.trends.slice(0, 2)]. *)
Definition trendInsight (data : MetricsData.t) (insights : list AIInsight.t)
  (trend : TrendResult.t) : Async (list AIInsight.t) :=
  let prompt := buildTrendPrompt trend (MetricsData.ratios data) in
  explanation <- callAI prompt ;;
  t <- Date_now ;;
  generatedAt <- Date_toISOString ;;
  ret (List.app insights [trendInsightOf trend explanation t generatedAt]).

(** One turn of the loop over [data.anomalies.slice(0, 2)]. *)
Definition anomalyInsight (insights : list AIInsight.t)
  (anomaly : AnomalyResult.t) : Async (list AIInsight.t) :=
  t <- Date_now ;;
  generatedAt <- Date_toISOString ;;
  ret (List.app insights [anomalyInsightOf anomaly t generatedAt]).

(** [decliningRatios] of [generateInsightsFromMetrics]. *)
Definition decliningRatios (data : MetricsData.t) : list RatioResult.t :=
  filter (fun r => ratioTrend_eqb (RatioResult.trend r) declining)
    (MetricsData.ratios data).

(** The last block: the health signals. *)
Definition healthInsight (data : MetricsData.t) (insights : list AIInsight.t)
  : Async (list AIInsight.t) :=
  let decliningRatios := decliningRatios data in
  if (0 <? List.length decliningRatios)%nat
  then
    t <- Date_now ;;
    generatedAt <- Date_toISOString ;;
    ret (List.app insights [healthInsightOf decliningRatios t generatedAt])
  else ret insights.

Definition generateInsightsFromMetrics (data : MetricsData.t)
  : Async (list AIInsight.t) :=
  insights <- varianceInsight data [] ;;
  insights <- forOf (firstn 2 (MetricsData.trends data)) (trendInsight data)
                insights ;;
  insights <- forOf (firstn 2 (MetricsData.anomalies data)) anomalyInsight
                insights ;;
  healthInsight data insights.

(** The prompts of one invocation, in the order of their requests. *)
Definition prompts (data : MetricsData.t) : list string :=
  ((if (0 <? List.length (significantVariances data))%nat
    then [ buildVariancePrompt (significantVariances data)
             (MetricsData.current data) (MetricsData.previous data) ]
    else [])
   ++ map (fun trend => buildTrendPrompt trend (MetricsData.ratios data))
        (firstn 2 (MetricsData.trends data)))%list.

(** The request [callAI] makes for a prompt. *)
Definition requestFor (prompt : string) : Request.t :=
  {| Request.model := str_or AI_MODEL "gpt-4o-mini";
     Request.system := SYSTEM_PROMPT;
     Request.prompt := prompt;
     Request.maxOutputTokens := 200%Q;
     Request.temperature := 0.2%Q |}.

(** The [type]s of the insights an invocation emits when every request
    succeeds, in order. *)
Definition categories (data : MetricsData.t) : list InsightType :=
  ((if (0 <? List.length (significantVariances data))%nat
    then [ins_variance] else [])
   ++ map (fun _ => ins_trend) (firstn 2 (MetricsData.trends data))
   ++ map (fun _ => ins_anomaly) (firstn 2 (MetricsData.anomalies data))
   ++ (if (0 <? List.length (decliningRatios data))%nat
       then [ins_health_signal] else []))%list.

End Explanations.

(** An insight with its [action] left out. *)
Definition withoutAction (i : AIInsight.t) : AIInsight.t :=
  {| AIInsight.id := AIInsight.id i;
     AIInsight.type := AIInsight.type i;
     AIInsight.summary := AIInsight.summary i;
     AIInsight.evidence := AIInsight.evidence i;
     AIInsight.confidence := AIInsight.confidence i;
     AIInsight.action := None;
     AIInsight.severity := AIInsight.severity i;
     AIInsight.promptVersion := AIInsight.promptVersion i;
     AIInsight.generatedAt := AIInsight.generatedAt i;
     AIInsight.isStale := AIInsight.isStale i |}.

(** ** The rest of [lib/integrations/quickbooks-parser]: [parseCashPosition] *)

(** [s.startsWith(t)] and [s.includes(t)]. *)
Fixpoint startsWith (s t : string) : bool :=
  match t, s with
  | EmptyString, _ => true
  | String c t', String d s' => Ascii.eqb c d && startsWith s' t'
  | String _ _, EmptyString => false
  end.

Fixpoint includes (s t : string) : bool :=
  startsWith s t
  || match s with
     | EmptyString => false
     | String _ s' => includes s' t
     end.

(** The groups [parseCashPosition] looks into. *)
Definition isAssetGroup (groupName : string) : bool :=
  String.eqb groupName "Assets" || String.eqb groupName "BankAccounts"
  || String.eqb groupName "Bank".

(** [subRow.group === "BankAccounts" || subRow.group === "Bank"]. *)
Definition isBankGroup (g : option string) : bool :=
  match g with
  | Some g => String.eqb g "BankAccounts" || String.eqb g "Bank"
  | None => false
  end.

Definition isCashLabel (label : string) : bool :=
  includes label "bank" || includes label "cash" || includes label "checking"
  || includes label "savings".

Section CashPositionParser.

Variable parseFloat : string -> number.

Local Open Scope string_scope.
Local Open Scope js_scope.

(** One turn of the loop over the sub rows of an asset row. *)
Definition cashSubRow (currentBalance : number) (subRow : QBReportRow) : number :=
  let currentBalance :=
    if isBankGroup (group subRow)
    then parseFloat (str_or (cell (Summary subRow) 1) "0")
    else currentBalance in
  match ColData subRow with
  | Some _ =>
      let label := toLowerCase (str_or (cell (ColData subRow) 0) "") in
      if isCashLabel label
      then (currentBalance + parseFloat (str_or (cell (ColData subRow) 1) "0"))%Q
      else currentBalance
  | None => currentBalance
  end.

(** One turn of the loop over the rows of the balance sheet. *)
Definition cashRow (currentBalance : number) (row : QBReportRow) : number :=
  let groupName := str_or (group row) "" in
  if isAssetGroup groupName
  then
    let currentBalance :=
      match Rows row with
      | Some subRows => fold_left cashSubRow subRows currentBalance
      | None => currentBalance
      end in
    if currentBalance =? 0
    then parseFloat (str_or (cell (Summary row) 1) "0")
    else currentBalance
  else currentBalance.

Definition parseCashPosition (report : QBReport.t) : CashPosition.t :=
  let rows := list_or (QBReport.Row report) in
  {| CashPosition.currentBalance := fold_left cashRow rows 0%Q;
     CashPosition.previousBalance := 0%Q;
     CashPosition.asOfDate := QBReport.EndPeriod report |}.

End CashPositionParser.

(** ** The rest of [lib/ai/explanations]: [answerQuestion] *)

(** The [context] argument of [answerQuestion]. *)
Module QuestionContext.
Record t := mk {
  variances : list VarianceResult.t;
  ratios : list RatioResult.t;
  trends : list TrendResult.t;
  anomalies : list AnomalyResult.t;
  current : ProfitAndLoss.t;
  previous : option ProfitAndLoss.t
}.
End QuestionContext.

(** The double quote. *)
Definition dq : string := String (ascii_of_nat 34) EmptyString.

Definition QUESTION_FALLBACK : string :=
  "I'm having trouble analyzing your data right now. Please try again in a moment, or check your QuickBooks reports directly for this detail.".

Section Questions.

Variable numToString : number -> string.
Variable toLocaleString : number -> string.
Variable service : nat -> Request.t -> Completion.
Variable AI_MODEL : option string.
Variable SYSTEM_PROMPT : string.

Local Open Scope string_scope.
Local Open Scope js_scope.

Definition buildQuestionContext (context : QuestionContext.t) : string :=
  let current := QuestionContext.current context in
  let parts :=
    [ "CURRENT PERIOD:";
      "Revenue: " ++ dollars toLocaleString (ProfitAndLoss.totalRevenue current);
      "Gross Profit: "
      ++ dollars toLocaleString (ProfitAndLoss.grossProfit current);
      "Total Expenses: "
      ++ dollars toLocaleString (ProfitAndLoss.totalExpenses current);
      "Net Income (Profit): "
      ++ dollars toLocaleString (ProfitAndLoss.netIncome current);
      "" ] in
  let parts :=
    match QuestionContext.previous context with
    | Some previous =>
        List.app parts
         [ "PREVIOUS PERIOD:";
           "Revenue: "
           ++ dollars toLocaleString (ProfitAndLoss.totalRevenue previous);
           "Net Income (Profit): "
           ++ dollars toLocaleString (ProfitAndLoss.netIncome previous);
           "" ]
    | None => parts
    end in
  let parts := List.app parts ["KEY CHANGES:"] in
  let parts :=
    List.app parts
      (map
         (fun v =>
            VarianceResult.metric v ++ ": "
            ++ directionWord (VarianceResult.direction v) ++ " "
            ++ numToString (Math_abs (VarianceResult.percentChange v)) ++ "% ("
            ++ dollars toLocaleString (VarianceResult.previousValue v) ++ " → "
            ++ dollars toLocaleString (VarianceResult.currentValue v) ++ ")")
         (QuestionContext.variances context)) in
  let parts := List.app parts [""; "EXPENSE CATEGORIES (this period):"] in
  let parts :=
    List.app parts
      (map
         (fun c =>
            "• " ++ ExpenseCategory.name c ++ ": "
            ++ dollars toLocaleString (ExpenseCategory.amount c))
         (firstn 8 (ProfitAndLoss.expenseCategories current))) in
  let parts := List.app parts [""; "HEALTH RATIOS:"] in
  let parts :=
    List.app parts
      (map
         (fun r =>
            "• " ++ RatioResult.name r ++ ": "
            ++ numToString (RatioResult.value r) ++ "%"
            ++ match RatioResult.previousValue r with
               | Some p =>
                   if truthy p then " (was " ++ numToString p ++ "%)" else ""
               | None => ""
               end
            ++ " — " ++ RatioResult.description r)
         (QuestionContext.ratios context)) in
  let parts :=
    if (0 <? List.length (QuestionContext.trends context))%nat
    then
      List.app (List.app parts [""; "TRENDS:"])
        (map (fun t => "• " ++ TrendResult.description t)
           (QuestionContext.trends context))
    else parts in
  let parts :=
    if (0 <? List.length (QuestionContext.anomalies context))%nat
    then
      List.app (List.app parts [""; "ANOMALIES:"])
        (map (fun a => "• " ++ AnomalyResult.description a)
           (QuestionContext.anomalies context))
    else parts in
  join nl parts.

(** The prompt of [answerQuestion]. *)
Definition questionPrompt (question : string) (context : QuestionContext.t)
  : string :=
  "A business owner is asking: " ++ dq ++ question ++ dq ++ nl ++ nl
  ++ "Here is their current financial data (all numbers are pre-computed and verified — reference them exactly):"
  ++ nl ++ nl ++ buildQuestionContext context ++ nl ++ nl
  ++ "Answer their question using ONLY the data above. If you cannot answer from the available data, say: "
  ++ dq
  ++ "I don't have enough information to answer that right now. You can check your QuickBooks reports directly for this detail."
  ++ dq ++ nl ++ nl
  ++ "Remember: NEVER generate or estimate numbers. Only use the exact figures provided above.".

(** The request [answerQuestion] makes. *)
Definition questionRequest (question : string) (context : QuestionContext.t)
  : Request.t :=
  {| Request.model := str_or AI_MODEL "gpt-4o-mini";
     Request.system := SYSTEM_PROMPT;
     Request.prompt := questionPrompt question context;
     Request.maxOutputTokens := 500%Q;
     Request.temperature := 0.3%Q |}.

Definition answerQuestion (question : string) (context : QuestionContext.t)
  : Async string :=
  tryCatch
    (text <- generateText service (questionRequest question context) ;;
     ret text)
    (fun error =>
       _ <- console_error ("AI question error: " ++ error) ;;
       ret QUESTION_FALLBACK).

End Questions.

(** ** [app/api/chat/route]: [POST] *)

(** What the handler reads of the connection row and of the cached data. *)
Module Connection.
Record t := mk {
  id : string;
  companyName : string;
  (** [lastSyncedAt] as [getTime()] gives it, [null] when never synced. *)
  lastSyncedAt : option number
}.
End Connection.

Module CachedFinancialData.
Record t := mk {
  currentPnl : option ProfitAndLoss.t;
  previousPnl : option ProfitAndLoss.t;
  monthlyPnl : list ProfitAndLoss.t;
  cashPosition : option CashPosition.t;
  variances : list VarianceResult.t;
  ratios : list RatioResult.t;
  trends : list TrendResult.t;
  anomalies : list AnomalyResult.t;
  issues : list Issue.t;
  insights : list AIInsight.t
}.
End CachedFinancialData.

(** What [POST] finds: the session ([auth()]), the connection of the user
    ([getUserConnection]), the cached data of the connection
    ([getCachedDataForConnection]), and [question] of the body of the
    request, [Thrown] when [request.json()] rejects, [None] when the field
    is missing or not a string. *)
Module ChatInput.
Record t := mk {
  session : option string;
  conn : option Connection.t;
  data : option CachedFinancialData.t;
  question : Outcome (option string)
}.
End ChatInput.

(** The response: the status and the fields of the JSON body that are
    there. *)
Module ChatResponse.
Record t := mk {
  status : nat;
  error : option string;
  answer : option string;
  isStale : option bool;
  lastSyncedAt : option (option string)
}.
End ChatResponse.

Definition errorResponse (status : nat) (message : string) : ChatResponse.t :=
  ChatResponse.mk status (Some message) None None None.

Definition answerResponse (status : nat) (answer : string) : ChatResponse.t :=
  ChatResponse.mk status None (Some answer) None None.

(** [48 * 60 * 60 * 1000]. *)
Definition STALE_AFTER : number := 48 * 60 * 60 * 1000.

Section Chat.

Variable numToString : number -> string.
Variable toLocaleString : number -> string.
Variable service : nat -> Request.t -> Completion.
Variable AI_MODEL : option string.
Variable SYSTEM_PROMPT : string.
Variable now : nat -> number.
Variable toISOString : number -> string.
(** [toLocaleDateString("en-US", { month: "short", day: "numeric" })]. *)
Variable toLocaleDateString : number -> string.

Local Open Scope string_scope.
Local Open Scope js_scope.

(** [lastSynced > 0 && Date.now() - lastSynced > 48 * 60 * 60 * 1000]: the
    clock is read only behind the first test. *)
Definition isStaleAt (lastSynced : number) : Async bool :=
  if lastSynced >? 0
  then t <- Date_now now ;; ret (t - lastSynced >? STALE_AFTER)
  else ret false.

(** The [try] block of [POST]. *)
Definition chatAnswer (conn : Connection.t) (data : CachedFinancialData.t)
  (currentPnl : ProfitAndLoss.t) (question : Outcome (option string))
  : Async ChatResponse.t :=
  match question with
  | Thrown error => fun w => (Thrown error, w)
  | Returned None | Returned (Some EmptyString) =>
      ret (errorResponse 400 "Please provide a question.")
  | Returned (Some question) =>
      answer <- answerQuestion numToString toLocaleString service AI_MODEL
                  SYSTEM_PROMPT question
                  {| QuestionContext.variances := CachedFinancialData.variances data;
                     QuestionContext.ratios := CachedFinancialData.ratios data;
                     QuestionContext.trends := CachedFinancialData.trends data;
                     QuestionContext.anomalies := CachedFinancialData.anomalies data;
                     QuestionContext.current := currentPnl;
                     QuestionContext.previous := CachedFinancialData.previousPnl data |} ;;
      let lastSynced :=
        match Connection.lastSyncedAt conn with
        | Some t => t
        | None => 0%Q
        end in
      isStale <- isStaleAt lastSynced ;;
      let stalePrefix :=
        if isStale
        then "Based on data as of " ++ toLocaleDateString lastSynced ++ ":"
             ++ nl ++ nl
        else "" in
      ret {| ChatResponse.status := 200;
             ChatResponse.error := None;
             ChatResponse.answer := Some (stalePrefix ++ answer);
             ChatResponse.isStale := Some isStale;
             ChatResponse.lastSyncedAt :=
               Some (option_map toISOString (Connection.lastSyncedAt conn)) |}
  end.

Definition chatPOST (input : ChatInput.t) : Async ChatResponse.t :=
  match ChatInput.session input with
  | None => ret (errorResponse 401 "Unauthorized")
  | Some _ =>
      match ChatInput.conn input with
      | None =>
          ret (answerResponse 400
                 "Please connect your QuickBooks account first so I can access your financial data.")
      | Some conn =>
          match ChatInput.data input with
          | Some data =>
              match CachedFinancialData.currentPnl data with
              | Some currentPnl =>
                  tryCatch
                    (chatAnswer conn data currentPnl (ChatInput.question input))
                    (fun error =>
                       _ <- console_error ("Chat error: " ++ error) ;;
                       ret (answerResponse 200
                              "I'm having trouble analyzing your data right now. Please try again in a moment, or check your QuickBooks reports directly."))
              | None =>
                  ret (answerResponse 400
                         "Your data hasn't been synced yet. Please sync your QuickBooks data first.")
              end
          | None =>
              ret (answerResponse 400
                     "Your data hasn't been synced yet. Please sync your QuickBooks data first.")
          end
      end
  end.

End Chat.

(** ** [app/api/sync/route]: from the reports to the bundle that is cached *)

(** [console.warn]. *)
Definition console_warn (message : string) : Async unit :=
  fun w =>
    (Returned tt,
     mkWorld (requests w) (clockReads w) (console w ++ [message])).

Section Sync.

Variable parseFloat : string -> number.
Variable formatPeriodLabel : string -> string -> string.
Variable numToString : number -> string.
Variable toLocaleString : number -> string.
Variable Math_sqrt : number -> number.
Variable service : nat -> Request.t -> Completion.
Variable AI_MODEL : option string.
Variable SYSTEM_PROMPT : string.
Variable now : nat -> number.
Variable toISOString : number -> string.

Local Open Scope string_scope.
Local Open Scope js_scope.

(** [generateIssues] on the clock of the world: each issue raised reads
    it once, for [firstDetectedAt]. *)
Definition generateIssuesNow (variances : list VarianceResult.t)
  (ratios : list RatioResult.t) (trends : list TrendResult.t)
  (anomalies : list AnomalyResult.t) (cashPosition : option CashPosition.t)
  : Async (list Issue.t) :=
  fun w =>
    let clock := fun n => toISOString (now (clockReads w + n)%nat) in
    (Returned
       (generateIssues numToString clock variances ratios trends anomalies
          cashPosition),
     mkWorld (requests w)
       (clockReads w
        + List.length
            (issues (issueCascade numToString clock variances ratios trends
                       anomalies)))%nat
       (console w)).

(** The object literal of the [map] in the [catch] block. *)
Definition fallbackInsightOf (v : VarianceResult.t) (t : number)
  (generatedAt : string) : AIInsight.t :=
  {| AIInsight.id :=
       "ins-" ++ VarianceResult.metric v ++ "-" ++ numToString t;
     AIInsight.type := ins_variance;
     AIInsight.summary :=
       VarianceResult.metric v ++ " "
       ++ (if direction_eqb (VarianceResult.direction v) up
           then "increased" else "decreased")
       ++ " " ++ numToString (Math_abs (VarianceResult.percentChange v))
       ++ "% compared to last month";
     AIInsight.evidence :=
       VarianceResult.metric v ++ ": "
       ++ dollars toLocaleString (VarianceResult.previousValue v) ++ " → "
       ++ dollars toLocaleString (VarianceResult.currentValue v);
     AIInsight.confidence :=
       if level_eqb (VarianceResult.significance v) high then high else medium;
     AIInsight.action := None;
     AIInsight.severity := None;
     AIInsight.promptVersion := "v1.0-fallback";
     AIInsight.generatedAt := generatedAt;
     AIInsight.isStale := false |}.

Definition fallbackInsights (variances : list VarianceResult.t)
  : Async (list AIInsight.t) :=
  forOf
    (filter (fun v => negb (level_eqb (VarianceResult.significance v) low))
       variances)
    (fun insights v =>
       t <- Date_now now ;;
       generatedAt <- Date_toISOString now toISOString ;;
       ret (List.app insights [fallbackInsightOf v t generatedAt]))
    [].

(** The [try]/[catch] around [generateInsightsFromMetrics]. *)
Definition syncInsights (data : MetricsData.t) : Async (list AIInsight.t) :=
  tryCatch
    (generateInsightsFromMetrics numToString toLocaleString service AI_MODEL
       SYSTEM_PROMPT now toISOString data)
    (fun aiError =>
       _ <- console_warn
              ("AI insights generation failed, using deterministic only: "
               ++ aiError) ;;
       fallbackInsights (MetricsData.variances data)).

(** [POST] from "Parse reports" to the argument of
    [setCachedDataForConnection]. *)
Definition syncCompute
  (currentPnlReport previousPnlReport monthlyPnlReport balanceSheet : QBReport.t)
  : Async CachedFinancialData.t :=
  let currentPnl := parseProfitAndLoss parseFloat formatPeriodLabel currentPnlReport in
  let previousPnl := parseProfitAndLoss parseFloat formatPeriodLabel previousPnlReport in
  let monthlyPnl := parseMonthlyPnL parseFloat monthlyPnlReport in
  let cashPosition := parseCashPosition parseFloat balanceSheet in
  let cashPosition :=
    if (2 <=? List.length monthlyPnl)%nat
    then
      {| CashPosition.currentBalance := CashPosition.currentBalance cashPosition;
         CashPosition.previousBalance :=
           (CashPosition.currentBalance cashPosition * 1.05)%Q;
         CashPosition.asOfDate := CashPosition.asOfDate cashPosition |}
    else cashPosition in
  let variances := computeVariances currentPnl previousPnl in
  let expenseVariances := computeExpenseVariances currentPnl previousPnl in
  let ratios := computeRatios currentPnl (Some previousPnl) (Some cashPosition) in
  let trends := detectTrends numToString monthlyPnl in
  let anomalies := detectAnomalies toLocaleString Math_sqrt monthlyPnl in
  issues <- generateIssuesNow variances ratios trends anomalies (Some cashPosition) ;;
  insights <- syncInsights
                {| MetricsData.variances := variances;
                   MetricsData.ratios := ratios;
                   MetricsData.trends := trends;
                   MetricsData.anomalies := anomalies;
                   MetricsData.issues := issues;
                   MetricsData.current := currentPnl;
                   MetricsData.previous := Some previousPnl |} ;;
  ret {| CachedFinancialData.currentPnl := Some currentPnl;
         CachedFinancialData.previousPnl := Some previousPnl;
         CachedFinancialData.monthlyPnl := monthlyPnl;
         CachedFinancialData.cashPosition := Some cashPosition;
         CachedFinancialData.variances := List.app variances expenseVariances;
         CachedFinancialData.ratios := ratios;
         CachedFinancialData.trends := trends;
         CachedFinancialData.anomalies := anomalies;
         CachedFinancialData.issues := issues;
         CachedFinancialData.insights := insights |}.

End Sync.

(** ** [components/insights/IssuesBanner] *)

(** The comparator of the banner: [severityDiff] when it is not 0, else
    [b.currentValue - a.currentValue]. *)
Definition compareForBanner (a b : Issue.t) : number :=
  let severityDiff := order (Issue.severity a) - order (Issue.severity b) in
  if severityDiff <>? 0 then severityDiff
  else Issue.currentValue b - Issue.currentValue a.

(** [displayIssues]: the issues sorted, the first three of them. *)
Definition displayIssues (issues : list Issue.t) : list Issue.t :=
  firstn 3 (sort compareForBanner issues).

(** ** Vocabulary of the statements *)

(** The root-cause tag an issue is raised under: each [issues.push] of
    [generateIssues] comes with one [rootCauses.add], and the tag added is
    determined by the [metric] of the issue pushed. *)
Definition rootCauseOf (i : Issue.t) : string :=
  let m := Issue.metric i in
  if String.eqb m "cash_runway" then "cash"%string
  else if String.eqb m "expense_to_revenue_ratio" then "expense_revenue"%string
  else if String.eqb m "gross_margin_trend" then "margin"%string
  else ("anomaly-" ++ substring 8 (String.length m - 8) m)%string.

(** [a] may stand in front of [b] in the list of issues: a more severe issue
    first, and for one severity the larger [currentValue] first. *)
Definition issueBefore (a b : Issue.t) : Prop :=
  order (Issue.severity a) < order (Issue.severity b)
  \/ (order (Issue.severity a) == order (Issue.severity b)
      /\ Issue.currentValue b <= Issue.currentValue a).

(** Descending absolute dollar change. *)
Definition byDollarChange (a b : VarianceResult.t) : Prop :=
  Qabs (VarianceResult.absoluteChange b) <= Qabs (VarianceResult.absoluteChange a).

(** Descending absolute amount. *)
Definition byAmount (a b : ExpenseCategory.t) : Prop :=
  Qabs (ExpenseCategory.amount b) <= Qabs (ExpenseCategory.amount a).

(** A period statement given by its five totals and its categories. *)
Definition statement (revenue cogs gross expenses net : number)
  (categories : list ExpenseCategory.t) : ProfitAndLoss.t :=
  {| ProfitAndLoss.period := PeriodData.mk "2026-01-01" "2026-01-31" "Jan 2026";
     ProfitAndLoss.totalRevenue := revenue;
     ProfitAndLoss.totalCogs := cogs;
     ProfitAndLoss.grossProfit := gross;
     ProfitAndLoss.totalExpenses := expenses;
     ProfitAndLoss.netIncome := net;
     ProfitAndLoss.expenseCategories := categories |}.

(** The variance of [computeVariances] named [metric], if any. *)
Definition varianceNamed (metric : string) (vs : list VarianceResult.t)
  : option VarianceResult.t :=
  find (fun v => String.eqb (VarianceResult.metric v) metric) vs.

(** The ratio of [computeRatios] named [name], if any. *)
Definition ratioNamed (name : string) (rs : list RatioResult.t)
  : option RatioResult.t :=
  find (fun r => String.eqb (RatioResult.name r) name) rs.

(** Example statements: revenue 120,000 against 100,000, and 120,040
    against 100,000. *)
Definition revenue_120000 : ProfitAndLoss.t :=
  statement 120000 0 120000 0 120000 [].
Definition revenue_100000 : ProfitAndLoss.t :=
  statement 100000 0 100000 0 100000 [].
Definition revenue_120040 : ProfitAndLoss.t :=
  statement 120040 0 120040 0 120040 [].

(** A previous period whose revenue is negative (refunds above sales), and
    one with revenue but neither gross profit, expenses nor income. *)
Definition revenue_negative : ProfitAndLoss.t :=
  statement (-100) 0 (-100) 0 (-100) [].
Definition revenue_only : ProfitAndLoss.t :=
  statement 100000 100000 0 0 0 [].

(** The two containers of [generateIssues] agree: the tags added are the
    tags of the issues pushed, in order, each once. *)
Definition consistent (st : IssueState) : Prop :=
  rootCauses st = map rootCauseOf (issues st) /\ NoDup (rootCauses st).

(** Every value of the series after [prev] is below its predecessor by more
    than 3% of the predecessor's magnitude. *)
Fixpoint fallingFrom (prev : number) (rest : list number) : Prop :=
  match rest with
  | [] => True
  | v :: rest' => v - prev < - (Qabs prev * 0.03) /\ fallingFrom v rest'
  end.

Definition falling (values : list number) : Prop :=
  match values with
  | [] => True
  | v0 :: rest => fallingFrom v0 rest
  end.

(** The test for the margin-decline issue and for the cash-runway issue. *)
Definition isMarginDecline (i : Issue.t) : bool :=
  String.eqb (Issue.id i) "iss-margin-decline".

Definition isCashRunway (i : Issue.t) : bool :=
  String.eqb (Issue.id i) "iss-cash-runway".

(** Five months of gross profit, each 10% below the month before. *)
Definition falling_months : list ProfitAndLoss.t :=
  map (fun g => statement 100000 0 g 0 0 []) [50000; 45000; 40500; 36450; 32805].

(** Scenario 2: a balance of 15,000, expenses of 20,000, revenue of 15,000. *)
Definition runway_statement : ProfitAndLoss.t :=
  statement 15000 0 15000 20000 (-5000) [].
Definition runway_cash : CashPosition.t :=
  CashPosition.mk 15000 0 "2026-01-31".

(** A rendering of numbers and a clock for the examples: an integer in
    decimal, as JavaScript prints it, any other rational as a fraction. *)
Definition render (x : number) : string :=
  let q := Qred x in
  (DecimalString.NilZero.string_of_int (Z.to_int (Qnum q))
   ++ match Qden q with
      | xH => ""
      | d => "/" ++ DecimalString.NilZero.string_of_uint (Pos.to_uint d)
      end)%string.
Definition midnight (n : nat) : string := "2026-02-01T00:00:00.000Z".

(** The names of the expense categories of a period. *)
Definition categoryNames (p : ProfitAndLoss.t) : list string :=
  map ExpenseCategory.name (ProfitAndLoss.expenseCategories p).

(** Two periods: Rent falls from 2,000 to 1,000, Travel (500) is gone in the
    current period, Software (300) is new in it, Payroll moves by 2%. *)
Definition expenses_previous : ProfitAndLoss.t :=
  statement 0 0 0 12500 0
    [ ExpenseCategory.mk "Payroll" 10000; ExpenseCategory.mk "Rent" 2000;
      ExpenseCategory.mk "Travel" 500 ].
Definition expenses_current : ProfitAndLoss.t :=
  statement 0 0 0 11500 0
    [ ExpenseCategory.mk "Payroll" 10200; ExpenseCategory.mk "Rent" 1000;
      ExpenseCategory.mk "Software" 300 ].

(** A report of a month without sales: no income, cost of goods of 500,
    rent of 200, and no GrossProfit row. *)
Definition summaryRow (groupName : string) (cells : list string)
  (rows : option (list QBReportRow)) : QBReportRow :=
  mkQBReportRow None rows (Some groupName) (Some cells).

Definition report_without_sales : QBReport.t :=
  {| QBReport.StartPeriod := "2026-01-01";
     QBReport.EndPeriod := "2026-01-31";
     QBReport.Column :=
       Some [ QBColumn.mk "" "Account"; QBColumn.mk "Jan 2026" "Money";
              QBColumn.mk "Total" "Money" ];
     QBReport.Row :=
       Some [ summaryRow "Income" ["Total Income"; "0.00"; "0.00"]%string None;
              summaryRow "COGS"
                ["Total Cost of Goods Sold"; "500.00"; "500.00"]%string None;
              summaryRow "Expenses" ["Total Expenses"; "200.00"; "200.00"]%string
                (Some [ mkQBReportRow (Some ["Rent"; "200.00"; "200.00"]%string)
                          None None None ]);
              summaryRow "NetIncome" ["Net Income"; "-700.00"; "-700.00"]%string None ]
  |}.

(** The [group] names of the rows of a report. *)
Definition groupNames (report : QBReport.t) : list string :=
  map (fun row => str_or (group row) "") (list_or (QBReport.Row report)).

(** A label for the examples, in place of [formatPeriodLabel]. *)
Definition plainLabel (start finish : string) : string :=
  (start ++ " – " ++ finish)%string.

(** Scenario 5: a significant variance and a trend, and a service that
    answers its first request and fails on every later one. *)
Definition scenario5_data : MetricsData.t :=
  {| MetricsData.variances := computeVariances revenue_120040 revenue_100000;
     MetricsData.ratios := [];
     MetricsData.trends := detectTrends render falling_months;
     MetricsData.anomalies := [];
     MetricsData.issues := [];
     MetricsData.current := revenue_120040;
     MetricsData.previous := Some revenue_100000 |}.

Definition scenario5_service (n : nat) (request : Request.t) : Completion :=
  match n with
  | O => Text " Review your pricing. "
  | S _ => Failure "timeout"
  end.

Definition world0 : World := mkWorld 0 0 [].

Definition epoch (n : nat) : number := inject_Z (1767225600000 + Z.of_nat n).

(** The world after an insight that asked the service (one request more,
    the clock read twice), and after one that did not. *)
Definition afterRequest (w : World) (c : Completion) : World :=
  mkWorld (S (requests w)) (S (S (clockReads w))) (console w ++ logOf c).

Definition afterClock (w : World) : World :=
  mkWorld (requests w) (S (S (clockReads w))) (console w).

(** ** The engine on binary64

    A JavaScript [number] is a binary64 value, and the bands and thresholds
    of the engine are decided on the results of its rounded operations.
    The functions a statement below follows to such a boundary are embedded
    here a second time, on the primitive floating-point numbers: the same
    expressions in the same order, every operation rounded as the program
    rounds it, NaN and the infinities included.  What formats a number or
    maps a string ([String(x)], [toLowerCase], [replace(/\s+/g, "-")], the
    clock) is a section variable. *)
Module Binary64.
Import PrimFloat.
Local Open Scope string_scope.
Local Open Scope float_scope.
#[local] Set Warnings "-inexact-float".

(** The [percentChange] local of [computeVariances], before rounding. *)
Definition rawPercentChange64 (cur prev : float) : float :=
  if negb (prev =? 0) then ((cur - prev) / abs prev) * 100 else 0.

(** [Math.round(x) === n] for an integer [n]: [x] lies in [[n - 0.5, n + 0.5)]. *)
Definition roundsTo (x n : float) : bool :=
  (n - 0.5 <=? x) && (x <? n + 0.5).

(** [runwayMonths] of [computeRatios] when the burn is positive. *)
Definition runwayMonths64 (balance expenses revenue : float) : float :=
  balance / (expenses - revenue).

(** [Number.isNaN]: NaN is the one value that differs from itself. *)
Definition isNaN64 (x : float) : bool := negb (x =? x).

(** Truthiness of a number: [0], [-0] and NaN are falsy. *)
Definition truthy64 (x : float) : bool := negb (x =? 0) && negb (isNaN64 x).

(** [2^52]: from there on every binary64 value is an integer. *)
Definition two52 : float := 4503599627370496.

(** The integer nearest to [x] (ties to even): below [2^52] the sum with
    [2^52] is rounded to an integer, and the difference is exact. *)
Definition nearestInteger64 (x : float) : float :=
  if abs x <? two52
  then (if 0 <=? x then (x + two52) - two52 else (x - two52) + two52)
  else x.

(** The largest integer not above [x]. *)
Definition floor64 (x : float) : float :=
  let r := nearestInteger64 x in
  if x <? r then r - 1 else r.

(** [Math.round]: the integer nearest to [x], a tie going up, [-0] for an
    [x] from [-0.5] to [-0]; [x - floor64 x] is exact where it matters (it is
    rounded only for [x] in [(-0.5, 0)], to a value that is still not below
    [0.5]). *)
Definition Math_round64 (x : float) : float :=
  let f := floor64 x in
  let r := if x - f <? 0.5 then f else f + 1 in
  if (r =? 0) && ((x <? 0) || (1 / x <? 0)) then -0 else r.

(** The idiom [Math.round(x * 10) / 10] of the engine. *)
Definition round1_64 (x : float) : float := Math_round64 (x * 10) / 10.

(** [Math.min]: NaN when an argument is NaN, and [-0] below [+0]. *)
Definition Math_min64 (x y : float) : float :=
  if isNaN64 x || isNaN64 y then nan
  else if x <? y then x
  else if y <? x then y
  else if 1 / x <? 0 then x else y.

Module ExpenseCategory64.
Record t := mk { name : string; amount : float }.
End ExpenseCategory64.

Module ProfitAndLoss64.
Record t := mk {
  period : PeriodData.t;
  totalRevenue : float;
  totalCogs : float;
  grossProfit : float;
  totalExpenses : float;
  netIncome : float;
  expenseCategories : list ExpenseCategory64.t
}.
End ProfitAndLoss64.

Module CashPosition64.
Record t := mk {
  currentBalance : float;
  previousBalance : float;
  asOfDate : string
}.
End CashPosition64.

Module VarianceResult64.
Record t := mk {
  metric : string;
  currentValue : float;
  previousValue : float;
  absoluteChange : float;
  percentChange : float;
  direction : Direction;
  significance : Level
}.
End VarianceResult64.

Module RatioResult64.
Record t := mk {
  name : string;
  value : float;
  previousValue : option float;
  trend : RatioTrend;
  description : string
}.
End RatioResult64.

Module TrendResult64.
Record t := mk {
  metric : string;
  direction : TrendDirection;
  periods : float;
  magnitude : float;
  description : string
}.
End TrendResult64.

Module AnomalyResult64.
Record t := mk {
  metric : string;
  value : float;
  expectedRange_min : float;
  expectedRange_max : float;
  severity : Level;
  description : string
}.
End AnomalyResult64.

Module Issue64.
Record t := mk {
  id : string;
  severity : IssueSeverity;
  title : string;
  description : string;
  metric : string;
  currentValue : float;
  threshold : option float;
  firstDetectedAt : string;
  periodsActive : float
}.
End Issue64.

(** *** [computeVariances] *)

(** The rows of the [metrics] table. *)
Definition headline_metrics64 (current previous : ProfitAndLoss64.t)
  : list (string * (float * float)) :=
  [ ("Revenue",
      (ProfitAndLoss64.totalRevenue current,
       ProfitAndLoss64.totalRevenue previous));
    ("Gross Profit",
      (ProfitAndLoss64.grossProfit current,
       ProfitAndLoss64.grossProfit previous));
    ("Total Expenses",
      (ProfitAndLoss64.totalExpenses current,
       ProfitAndLoss64.totalExpenses previous));
    ("Net Income",
      (ProfitAndLoss64.netIncome current, ProfitAndLoss64.netIncome previous));
    ("Cost of Goods Sold",
      (ProfitAndLoss64.totalCogs current, ProfitAndLoss64.totalCogs previous)) ].

Definition directionOf64 (absoluteChange : float) : Direction :=
  if 0 <? absoluteChange then up
  else if absoluteChange <? 0 then down
  else flat.

Definition computeVariances64 (current previous : ProfitAndLoss64.t)
  : list VarianceResult64.t :=
  map
    (fun m =>
       let '(metric, (cur, prev)) := m in
       let absoluteChange := cur - prev in
       let percentChange := rawPercentChange64 cur prev in
       let absPercent := abs percentChange in
       {| VarianceResult64.metric := metric;
          VarianceResult64.currentValue := cur;
          VarianceResult64.previousValue := prev;
          VarianceResult64.absoluteChange := absoluteChange;
          VarianceResult64.percentChange := round1_64 percentChange;
          VarianceResult64.direction := directionOf64 absoluteChange;
          VarianceResult64.significance :=
            if 20 <? absPercent then high
            else if 10 <? absPercent then medium
            else low |})
    (filter
       (fun m =>
          let '(_, (cur, prev)) := m in negb (prev =? 0) || negb (cur =? 0))
       (headline_metrics64 current previous)).

(** *** [computeRatios] *)

Definition getTrend64 (current : float) (previous : option float) : RatioTrend :=
  match previous with
  | None => stable
  | Some previous =>
      let diff := current - previous in
      if 1 <? diff then improving
      else if diff <? -1 then declining
      else stable
  end.

(** [current.totalRevenue > 0 ? (x / current.totalRevenue) * 100 : 0]. *)
Definition marginOf64 (p : ProfitAndLoss64.t) (numerator : float) : float :=
  if 0 <? ProfitAndLoss64.totalRevenue p
  then (numerator / ProfitAndLoss64.totalRevenue p) * 100
  else 0.

(** [previous && previous.totalRevenue > 0 ? ... : undefined]. *)
Definition prevMarginOf64 (previous : option ProfitAndLoss64.t)
  (field : ProfitAndLoss64.t -> float) : option float :=
  match previous with
  | Some p =>
      if 0 <? ProfitAndLoss64.totalRevenue p
      then Some ((field p / ProfitAndLoss64.totalRevenue p) * 100)
      else None
  | None => None
  end.

(** [prev ? Math.round(prev * 10) / 10 : undefined]. *)
Definition roundedIfTruthy64 (prev : option float) : option float :=
  match prev with
  | Some x => if truthy64 x then Some (round1_64 x) else None
  | None => None
  end.

Definition computeRatios64 (current : ProfitAndLoss64.t)
  (previous : option ProfitAndLoss64.t)
  (cashPosition : option CashPosition64.t) : list RatioResult64.t :=
  (* Gross Margin *)
  let grossMargin := marginOf64 current (ProfitAndLoss64.grossProfit current) in
  let prevGrossMargin := prevMarginOf64 previous ProfitAndLoss64.grossProfit in
  let ratios :=
    [ {| RatioResult64.name := "Gross Margin";
         RatioResult64.value := round1_64 grossMargin;
         RatioResult64.previousValue := roundedIfTruthy64 prevGrossMargin;
         RatioResult64.trend := getTrend64 grossMargin prevGrossMargin;
         RatioResult64.description :=
           "How much you keep from each sale after direct costs" |} ] in
  (* Net Profit Margin *)
  let netMargin := marginOf64 current (ProfitAndLoss64.netIncome current) in
  let prevNetMargin := prevMarginOf64 previous ProfitAndLoss64.netIncome in
  let ratios :=
    List.app ratios
      [ {| RatioResult64.name := "Profit Margin";
           RatioResult64.value := round1_64 netMargin;
           RatioResult64.previousValue := roundedIfTruthy64 prevNetMargin;
           RatioResult64.trend := getTrend64 netMargin prevNetMargin;
           RatioResult64.description :=
             "What's left after all expenses, as a share of revenue" |} ] in
  (* Expense Ratio *)
  let expenseRatio :=
    marginOf64 current (ProfitAndLoss64.totalExpenses current) in
  let prevExpenseRatio :=
    prevMarginOf64 previous ProfitAndLoss64.totalExpenses in
  let ratios :=
    List.app ratios
      [ {| RatioResult64.name := "Expense Ratio";
           RatioResult64.value := round1_64 expenseRatio;
           RatioResult64.previousValue := roundedIfTruthy64 prevExpenseRatio;
           RatioResult64.trend :=
             match prevExpenseRatio with
             | Some prev =>
                 if truthy64 prev
                 then (if expenseRatio <? prev - 1 then improving
                       else if prev + 1 <? expenseRatio then declining
                       else stable)
                 else stable
             | None => stable
             end;
           RatioResult64.description :=
             "Your regular costs as a share of revenue" |} ] in
  (* Revenue Growth *)
  let ratios :=
    match previous with
    | Some previous =>
        if 0 <? ProfitAndLoss64.totalRevenue previous
        then
          let revenueGrowth :=
            ((ProfitAndLoss64.totalRevenue current
              - ProfitAndLoss64.totalRevenue previous)
             / abs (ProfitAndLoss64.totalRevenue previous)) * 100 in
          List.app ratios
            [ {| RatioResult64.name := "Revenue Growth";
                 RatioResult64.value := round1_64 revenueGrowth;
                 RatioResult64.previousValue := None;
                 RatioResult64.trend :=
                   if 2 <? revenueGrowth then improving
                   else if revenueGrowth <? -2 then declining
                   else stable;
                 RatioResult64.description :=
                   "How this month compares to last month" |} ]
        else ratios
    | None => ratios
    end in
  (* Cash Runway (if cash data available) *)
  match cashPosition with
  | Some cashPosition =>
      if 0 <? ProfitAndLoss64.totalExpenses current
      then
        let monthlyBurn :=
          ProfitAndLoss64.totalExpenses current
          - ProfitAndLoss64.totalRevenue current in
        let runwayMonths :=
          if 0 <? monthlyBurn
          then CashPosition64.currentBalance cashPosition / monthlyBurn
          else 99 in
        List.app ratios
          [ {| RatioResult64.name := "Cash Runway";
               RatioResult64.value := round1_64 (Math_min64 runwayMonths 99);
               RatioResult64.previousValue := None;
               RatioResult64.trend :=
                 if runwayMonths <? 3 then declining
                 else if runwayMonths <? 6 then stable
                 else improving;
               RatioResult64.description :=
                 "Months your cash will last at current spending" |} ]
      else ratios
  | None => ratios
  end.

(** *** [generateIssues] *)

(** [Array.prototype.sort(cmp)] by insertion: [cmp a b > 0] puts [a] after
    [b], any other result (NaN too, which the sort takes for [+0]) leaves it
    in front.  The result is a rearrangement of the list whatever the
    comparator; its order is the order of the program when the comparator
    is consistent. *)
Fixpoint insertBy64 {A} (cmp : A -> A -> float) (x : A) (l : list A) : list A :=
  match l with
  | [] => [x]
  | y :: l' => if 0 <? cmp x y then y :: insertBy64 cmp x l' else x :: l
  end.

Fixpoint sort64 {A} (cmp : A -> A -> float) (l : list A) : list A :=
  match l with
  | [] => []
  | x :: l' => insertBy64 cmp x (sort64 cmp l')
  end.

(** [order] of the comparator of [generateIssues]. *)
Definition order64 (s : IssueSeverity) : float :=
  match s with critical => 0 | warning => 1 | info => 2 end.

(** [order[a.severity] - order[b.severity] || b.currentValue - a.currentValue]. *)
Definition compareIssues64 (a b : Issue64.t) : float :=
  let d := order64 (Issue64.severity a) - order64 (Issue64.severity b) in
  if truthy64 d then d else Issue64.currentValue b - Issue64.currentValue a.

(** The two containers [generateIssues] fills side by side. *)
Record IssueState64 := mkIssueState64 {
  issues64 : list Issue64.t;
  rootCauses64 : JSet
}.

(** [issues.push(i); rootCauses.add(tag)]. *)
Definition raise64 (st : IssueState64) (i : Issue64.t) (tag : string)
  : IssueState64 :=
  {| issues64 := List.app (issues64 st) [i];
     rootCauses64 := Set_add (rootCauses64 st) tag |}.

Section Issues64.

(** [String(x)] as a template literal renders a number. *)
Variable numToString : float -> string.
(** [s.toLowerCase()] and [s.replace(/\s+/g, "-")]. *)
Variable toLowerCase : string -> string.
Variable dashWhitespace : string -> string.
(** [new Date().toISOString()] at the n-th reading of the clock within one
    call. *)
Variable clock : nat -> string.

Definition cashRunwayIssue64 (cashRunway : RatioResult64.t)
  (firstDetectedAt : string) : Issue64.t :=
  {| Issue64.id := "iss-cash-runway";
     Issue64.severity := critical;
     Issue64.title := "Cash runway is getting short";
     Issue64.description :=
       "At current spending, your cash will last about "
       ++ numToString (RatioResult64.value cashRunway)
       ++ " months. Consider reducing expenses or increasing revenue.";
     Issue64.metric := "cash_runway";
     Issue64.currentValue := RatioResult64.value cashRunway;
     Issue64.threshold := Some 3;
     Issue64.firstDetectedAt := firstDetectedAt;
     Issue64.periodsActive := 1 |}.

Definition cashRunwayRule64 (ratios : list RatioResult64.t)
  (st : IssueState64) : IssueState64 :=
  match
    find (fun r => String.eqb (RatioResult64.name r) "Cash Runway") ratios
  with
  | Some cashRunway =>
      if RatioResult64.value cashRunway <? 3
      then
        raise64 st
          (cashRunwayIssue64 cashRunway (clock (List.length (issues64 st))))
          "cash"
      else st
  | None => st
  end.

Definition expenseRevenueIssue64
  (revenueVariance expenseVariance : VarianceResult64.t)
  (firstDetectedAt : string) : Issue64.t :=
  {| Issue64.id := "iss-expense-revenue";
     Issue64.severity :=
       if VarianceResult64.percentChange revenueVariance + 15
          <? VarianceResult64.percentChange expenseVariance
       then critical else warning;
     Issue64.title := "Expenses growing faster than revenue";
     Issue64.description :=
       "Your costs grew "
       ++ numToString (VarianceResult64.percentChange expenseVariance)
       ++ "% while revenue "
       ++ (if direction_eqb (VarianceResult64.direction revenueVariance) up
           then "only grew "
                ++ numToString (VarianceResult64.percentChange revenueVariance)
                ++ "%"
           else "declined "
                ++ numToString
                     (abs (VarianceResult64.percentChange revenueVariance))
                ++ "%")
       ++ ". This gap is squeezing your margins.";
     Issue64.metric := "expense_to_revenue_ratio";
     Issue64.currentValue := VarianceResult64.percentChange expenseVariance;
     Issue64.threshold :=
       Some (VarianceResult64.percentChange revenueVariance + 5);
     Issue64.firstDetectedAt := firstDetectedAt;
     Issue64.periodsActive := 1 |}.

Definition expenseRevenueRule64 (variances : list VarianceResult64.t)
  (st : IssueState64) : IssueState64 :=
  let revenueVariance :=
    find (fun v => String.eqb (VarianceResult64.metric v) "Revenue")
      variances in
  let expenseVariance :=
    find (fun v => String.eqb (VarianceResult64.metric v) "Total Expenses")
      variances in
  match revenueVariance, expenseVariance with
  | Some revenueVariance, Some expenseVariance =>
      if (VarianceResult64.percentChange revenueVariance + 5
          <? VarianceResult64.percentChange expenseVariance)
         && negb (Set_has (rootCauses64 st) "expense_revenue")
      then
        raise64 st
          (expenseRevenueIssue64 revenueVariance expenseVariance
             (clock (List.length (issues64 st))))
          "expense_revenue"
      else st
  | _, _ => st
  end.

Definition marginIssue64 (marginTrend : TrendResult64.t)
  (firstDetectedAt : string) : Issue64.t :=
  {| Issue64.id := "iss-margin-decline";
     Issue64.severity :=
       if 3 <=? TrendResult64.periods marginTrend then warning else info;
     Issue64.title :=
       "Profit margin declining for "
       ++ numToString (TrendResult64.periods marginTrend) ++ " months";
     Issue64.description :=
       "Your gross profit has been shrinking for "
       ++ numToString (TrendResult64.periods marginTrend)
       ++ " consecutive months, dropping a total of "
       ++ numToString (TrendResult64.magnitude marginTrend) ++ "%.";
     Issue64.metric := "gross_margin_trend";
     Issue64.currentValue := TrendResult64.magnitude marginTrend;
     Issue64.threshold := None;
     Issue64.firstDetectedAt := firstDetectedAt;
     Issue64.periodsActive := TrendResult64.periods marginTrend |}.

(** [trends.find(t => t.metric === "Gross Profit" && t.direction === "decreasing")]. *)
Definition findMarginTrend64 (trends : list TrendResult64.t)
  : option TrendResult64.t :=
  find
    (fun t =>
       String.eqb (TrendResult64.metric t) "Gross Profit"
       && trendDirection_eqb (TrendResult64.direction t) decreasing)
    trends.

Definition marginRule64 (trends : list TrendResult64.t) (st : IssueState64)
  : IssueState64 :=
  match findMarginTrend64 trends with
  | Some marginTrend =>
      if (2 <=? TrendResult64.periods marginTrend)
         && negb (Set_has (rootCauses64 st) "margin")
      then
        raise64 st
          (marginIssue64 marginTrend (clock (List.length (issues64 st))))
          "margin"
      else st
  | None => st
  end.

Definition anomalyIssue64 (anomaly : AnomalyResult64.t)
  (firstDetectedAt : string) : Issue64.t :=
  {| Issue64.id :=
       "iss-anomaly-"
       ++ dashWhitespace (toLowerCase (AnomalyResult64.metric anomaly));
     Issue64.severity :=
       if level_eqb (AnomalyResult64.severity anomaly) high
       then warning else info;
     Issue64.title := "Unusual spending on " ++ AnomalyResult64.metric anomaly;
     Issue64.description := AnomalyResult64.description anomaly;
     Issue64.metric := "anomaly_" ++ AnomalyResult64.metric anomaly;
     Issue64.currentValue := AnomalyResult64.value anomaly;
     Issue64.threshold := None;
     Issue64.firstDetectedAt := firstDetectedAt;
     Issue64.periodsActive := 1 |}.

(** One turn of the loop over [anomalies.slice(0, 2)]. *)
Definition anomalyRule64 (st : IssueState64) (anomaly : AnomalyResult64.t)
  : IssueState64 :=
  let rootKey := "anomaly-" ++ AnomalyResult64.metric anomaly in
  if negb (Set_has (rootCauses64 st) rootKey)
  then
    raise64 st (anomalyIssue64 anomaly (clock (List.length (issues64 st))))
      rootKey
  else st.

(** The state of [generateIssues] in front of its [return]. *)
Definition issueCascade64 (variances : list VarianceResult64.t)
  (ratios : list RatioResult64.t) (trends : list TrendResult64.t)
  (anomalies : list AnomalyResult64.t) : IssueState64 :=
  let st := {| issues64 := []; rootCauses64 := [] |} in
  let st := cashRunwayRule64 ratios st in
  let st := expenseRevenueRule64 variances st in
  let st := marginRule64 trends st in
  fold_left anomalyRule64 (firstn 2 anomalies) st.

Definition generateIssues64 (variances : list VarianceResult64.t)
  (ratios : list RatioResult64.t) (trends : list TrendResult64.t)
  (anomalies : list AnomalyResult64.t)
  (cashPosition : option CashPosition64.t) : list Issue64.t :=
  firstn 5
    (sort64 compareIssues64
       (issues64 (issueCascade64 variances ratios trends anomalies))).

End Issues64.

(** *** Vocabulary of the statements on binary64 *)

(** [x < y] as the program decides it. *)
Definition lt64 (x y : float) : Prop := (x <? y) = true.

(** The variance of a metric, the ratio of a name. *)
Definition varianceNamed64 (metric : string) (vs : list VarianceResult64.t)
  : option VarianceResult64.t :=
  find (fun v => String.eqb (VarianceResult64.metric v) metric) vs.

Definition ratioNamed64 (name : string) (rs : list RatioResult64.t)
  : option RatioResult64.t :=
  find (fun r => String.eqb (RatioResult64.name r) name) rs.

(** The three ratios that are always there. *)
Definition marginRatios64 (current : ProfitAndLoss64.t)
  (previous : option ProfitAndLoss64.t) : list RatioResult64.t :=
  [ {| RatioResult64.name := "Gross Margin";
       RatioResult64.value :=
         round1_64 (marginOf64 current (ProfitAndLoss64.grossProfit current));
       RatioResult64.previousValue :=
         roundedIfTruthy64 (prevMarginOf64 previous ProfitAndLoss64.grossProfit);
       RatioResult64.trend :=
         getTrend64 (marginOf64 current (ProfitAndLoss64.grossProfit current))
           (prevMarginOf64 previous ProfitAndLoss64.grossProfit);
       RatioResult64.description :=
         "How much you keep from each sale after direct costs" |};
    {| RatioResult64.name := "Profit Margin";
       RatioResult64.value :=
         round1_64 (marginOf64 current (ProfitAndLoss64.netIncome current));
       RatioResult64.previousValue :=
         roundedIfTruthy64 (prevMarginOf64 previous ProfitAndLoss64.netIncome);
       RatioResult64.trend :=
         getTrend64 (marginOf64 current (ProfitAndLoss64.netIncome current))
           (prevMarginOf64 previous ProfitAndLoss64.netIncome);
       RatioResult64.description :=
         "What's left after all expenses, as a share of revenue" |};
    {| RatioResult64.name := "Expense Ratio";
       RatioResult64.value :=
         round1_64 (marginOf64 current (ProfitAndLoss64.totalExpenses current));
       RatioResult64.previousValue :=
         roundedIfTruthy64
           (prevMarginOf64 previous ProfitAndLoss64.totalExpenses);
       RatioResult64.trend :=
         match prevMarginOf64 previous ProfitAndLoss64.totalExpenses with
         | Some prev =>
             if truthy64 prev
             then (if marginOf64 current (ProfitAndLoss64.totalExpenses current)
                      <? prev - 1 then improving
                   else if prev + 1
                           <? marginOf64 current
                                (ProfitAndLoss64.totalExpenses current)
                        then declining
                   else stable)
             else stable
         | None => stable
         end;
       RatioResult64.description :=
         "Your regular costs as a share of revenue" |} ].

(** The Revenue Growth ratio, when there is one. *)
Definition growthRatio64 (current : ProfitAndLoss64.t)
  (previous : option ProfitAndLoss64.t) : list RatioResult64.t :=
  match previous with
  | Some p =>
      if 0 <? ProfitAndLoss64.totalRevenue p
      then
        let revenueGrowth :=
          ((ProfitAndLoss64.totalRevenue current
            - ProfitAndLoss64.totalRevenue p)
           / abs (ProfitAndLoss64.totalRevenue p)) * 100 in
        [ {| RatioResult64.name := "Revenue Growth";
             RatioResult64.value := round1_64 revenueGrowth;
             RatioResult64.previousValue := None;
             RatioResult64.trend :=
               if 2 <? revenueGrowth then improving
               else if revenueGrowth <? -2 then declining
               else stable;
             RatioResult64.description :=
               "How this month compares to last month" |} ]
      else []
  | None => []
  end.

(** The Cash Runway ratio, when there is one. *)
Definition runwayRatio64 (current : ProfitAndLoss64.t)
  (cashPosition : option CashPosition64.t) : list RatioResult64.t :=
  match cashPosition with
  | Some cp =>
      if 0 <? ProfitAndLoss64.totalExpenses current
      then
        let monthlyBurn :=
          ProfitAndLoss64.totalExpenses current
          - ProfitAndLoss64.totalRevenue current in
        let runwayMonths :=
          if 0 <? monthlyBurn
          then CashPosition64.currentBalance cp / monthlyBurn
          else 99 in
        [ {| RatioResult64.name := "Cash Runway";
             RatioResult64.value := round1_64 (Math_min64 runwayMonths 99);
             RatioResult64.previousValue := None;
             RatioResult64.trend :=
               if runwayMonths <? 3 then declining
               else if runwayMonths <? 6 then stable
               else improving;
             RatioResult64.description :=
               "Months your cash will last at current spending" |} ]
      else []
  | None => []
  end.

Definition isCashRunway64 (i : Issue64.t) : bool :=
  String.eqb (Issue64.id i) "iss-cash-runway".

Definition isExpenseRevenue64 (i : Issue64.t) : bool :=
  String.eqb (Issue64.id i) "iss-expense-revenue".

(** A statement of the given totals. *)
Definition statement64 (revenue cogs gross expenses net : float)
  : ProfitAndLoss64.t :=
  {| ProfitAndLoss64.period :=
       PeriodData.mk "2026-01-01" "2026-01-31" "Jan 2026";
     ProfitAndLoss64.totalRevenue := revenue;
     ProfitAndLoss64.totalCogs := cogs;
     ProfitAndLoss64.grossProfit := gross;
     ProfitAndLoss64.totalExpenses := expenses;
     ProfitAndLoss64.netIncome := net;
     ProfitAndLoss64.expenseCategories := [] |}.

(** A statement with revenue only. *)
Definition revenue64 (revenue : float) : ProfitAndLoss64.t :=
  statement64 revenue 0 revenue 0 revenue.

(** A month with the given revenue and expenses, nothing else. *)
Definition month64 (revenue expenses : float) : ProfitAndLoss64.t :=
  statement64 revenue 0 revenue expenses (revenue - expenses).

Definition cash64 (balance : float) : CashPosition64.t :=
  CashPosition64.mk balance 0 "2026-01-31".

(** A stand-in for [String(x)] in the examples: a number rendered as a
    mark. *)
Definition mark64 (x : float) : string := "#".

(** An anomaly on the rent. *)
Definition rent_anomaly64 (value : float) (severity : Level)
  : AnomalyResult64.t :=
  {| AnomalyResult64.metric := "Rent";
     AnomalyResult64.value := value;
     AnomalyResult64.expectedRange_min := 850;
     AnomalyResult64.expectedRange_max := 1150;
     AnomalyResult64.severity := severity;
     AnomalyResult64.description := "Rent is higher than usual." |}.

End Binary64.

(** Two anomalies of one category and one of another, for the issue rules. *)
Definition rent_anomaly (value : number) (severity : Level) : AnomalyResult.t :=
  {| AnomalyResult.metric := "Rent";
     AnomalyResult.value := value;
     AnomalyResult.expectedRange_min := 850;
     AnomalyResult.expectedRange_max := 1150;
     AnomalyResult.severity := severity;
     AnomalyResult.description := "Rent is higher than usual." |}.

(** ** Vocabulary of the further properties *)

(** Every value of the series after [prev] rises above its predecessor by
    more than 3% of the predecessor's magnitude; stays within 3% of it. *)
Fixpoint risingFrom (prev : number) (rest : list number) : Prop :=
  match rest with
  | [] => True
  | v :: rest' => Qabs prev * 0.03 < v - prev /\ risingFrom v rest'
  end.

Fixpoint calmFrom (prev : number) (rest : list number) : Prop :=
  match rest with
  | [] => True
  | v :: rest' => Qabs (v - prev) <= Qabs prev * 0.03 /\ calmFrom v rest'
  end.

Definition rising (values : list number) : Prop :=
  match values with
  | [] => True
  | v0 :: rest => risingFrom v0 rest
  end.

Definition calm (values : list number) : Prop :=
  match values with
  | [] => True
  | v0 :: rest => calmFrom v0 rest
  end.

(** Anomalies in the order of [detectAnomalies]: high, medium, low. *)
Definition bySeverity (a b : AnomalyResult.t) : Prop :=
  severityRank (AnomalyResult.severity a) <= severityRank (AnomalyResult.severity b).

(** Two periods of one business: revenue up from 100,000 to 110,000,
    expenses up from 40,000 to 52,000, a category listed twice. *)
Definition march : ProfitAndLoss.t :=
  statement 100000 30000 70000 40000 30000
    [ ExpenseCategory.mk "Payroll" 30000; ExpenseCategory.mk "Rent" 8000;
      ExpenseCategory.mk "Travel" 2000 ].
Definition april : ProfitAndLoss.t :=
  statement 110000 33000 77000 52000 25000
    [ ExpenseCategory.mk "Payroll" 36000; ExpenseCategory.mk "Rent" 8000;
      ExpenseCategory.mk "Ads" 6000; ExpenseCategory.mk "Ads" 2000 ].

(** A cash position of 14,000, and one of 200,000. *)
Definition cash_14000 : CashPosition.t := CashPosition.mk 14000 0 "2026-04-30".
Definition cash_200000 : CashPosition.t := CashPosition.mk 200000 0 "2026-04-30".

(** A month that burns 5,000: expenses 20,000 on revenue 15,000. *)
Definition burning_month : ProfitAndLoss.t :=
  statement 15000 0 15000 20000 (-5000) [].

(** [Math.sqrt] where it is exact: on the quotients of perfect squares. *)
Definition sqrt_of_squares (x : number) : number :=
  let q := Qred x in
  inject_Z (Z.sqrt (Qnum q)) / inject_Z (Z.sqrt (Zpos (Qden q))).

(** Six months of rent around 1,000 (900 and 1,100 in turn, a standard
    deviation of 100), then a month of 1,700. *)
Definition rent_month (amount : number) : ProfitAndLoss.t :=
  statement 50000 0 50000 amount 0 [ExpenseCategory.mk "Rent" amount].
Definition rent_months : list ProfitAndLoss.t :=
  map rent_month [900; 1100; 900; 1100; 900; 1100; 1700].

(** A report with other rows. *)
Definition withRows (report : QBReport.t) (rows : list QBReportRow) : QBReport.t :=
  {| QBReport.StartPeriod := QBReport.StartPeriod report;
     QBReport.EndPeriod := QBReport.EndPeriod report;
     QBReport.Column := QBReport.Column report;
     QBReport.Row := Some rows |}.

(** The month columns of a report: those after the first with a title
    other than Total. *)
Definition monthColumnsOf (report : QBReport.t) : list QBColumn.t :=
  filter
    (fun col =>
       negb (String.eqb (QBColumn.ColTitle col) "")
       && negb (String.eqb (QBColumn.ColTitle col) "Total"))
    (tl (list_or (QBReport.Column report))).

(** A category that was parsed: its amount is not 0 and it has a name. *)
Definition wellFormedCategory (c : ExpenseCategory.t) : Prop :=
  ~ ExpenseCategory.amount c == 0 /\ ExpenseCategory.name c <> EmptyString.

(** A row of other expenses of 50. *)
Definition other_expenses_row : QBReportRow :=
  summaryRow "OtherExpenses" ["Total Other Expenses"; "50.00"; "50.00"]%string None.



(** A row with other sub rows. *)
Definition withSubRows (row : QBReportRow) (subRows : list QBReportRow)
  : QBReportRow :=
  mkQBReportRow (ColData row) (Some subRows) (group row) (Summary row).

(** A balance sheet with petty cash of 500 listed before the group of the
    bank accounts, which total 12,000. *)
Definition petty_cash : QBReportRow :=
  mkQBReportRow (Some ["Petty Cash"; "500.00"]%string) None None None.
Definition bank_accounts : QBReportRow :=
  summaryRow "BankAccounts" ["Total Bank Accounts"; "12000.00"]%string None.
Definition assets_grouped : QBReportRow :=
  summaryRow "Assets" ["Total Assets"; "40000.00"]%string
    (Some [petty_cash; bank_accounts]).
Definition balance_sheet_grouped : QBReport.t :=
  {| QBReport.StartPeriod := "2026-01-01";
     QBReport.EndPeriod := "2026-01-31";
     QBReport.Column := None;
     QBReport.Row := Some [assets_grouped] |}.

(** What [answerQuestion] makes of a completion. *)
Definition answerFrom (c : Completion) : string :=
  match c with
  | Text text => text
  | Failure _ => QUESTION_FALLBACK
  end.

Definition questionLogOf (c : Completion) : list string :=
  match c with
  | Text _ => []
  | Failure error => [("AI question error: " ++ error)%string]
  end.

(** The handler of the chat gets as far as asking: there is a session, a
    connection, cached data with a current statement, and the body holds a
    question that is a string and not empty. *)
Definition hasQuestion (input : ChatInput.t) : bool :=
  match ChatInput.session input, ChatInput.conn input, ChatInput.data input with
  | Some _, Some _, Some data =>
      match CachedFinancialData.currentPnl data, ChatInput.question input with
      | Some _, Returned (Some (String _ _)) => true
      | _, _ => false
      end
  | _, _, _ => false
  end.

(** A connection last synced at the given time, and cached data with a
    current statement only. *)
Definition connection_synced (t : number) : Connection.t :=
  Connection.mk "conn-1" "Acme" (Some t).
Definition cached_statement : CachedFinancialData.t :=
  {| CachedFinancialData.currentPnl := Some revenue_only;
     CachedFinancialData.previousPnl := None;
     CachedFinancialData.monthlyPnl := [];
     CachedFinancialData.cashPosition := None;
     CachedFinancialData.variances := [];
     CachedFinancialData.ratios := [];
     CachedFinancialData.trends := [];
     CachedFinancialData.anomalies := [];
     CachedFinancialData.issues := [];
     CachedFinancialData.insights := [] |}.

(** A service that answers every request with the same text. *)
Definition steady_service (n : nat) (r : Request.t) : Completion :=
  Text "Revenue is 100,000.".

(** What every insight of [generateInsightsFromMetrics] carries. *)
Definition stamped (i : AIInsight.t) : Prop :=
  AIInsight.promptVersion i = "v1.0"%string
  /\ AIInsight.isStale i = false
  /\ AIInsight.severity i = None.

(** The [action] of an insight by its [type]: an anomaly has one, a health
    signal has none. *)
Definition actionByType (i : AIInsight.t) : Prop :=
  match AIInsight.type i with
  | ins_anomaly => AIInsight.action i <> None
  | ins_health_signal => AIInsight.action i = None
  | _ => True
  end.

(** The summary [getVarianceSummary] falls back on. *)
Definition summary_of_several : string :=
  "Several financial metrics changed significantly this period".

(** The metrics of two periods, as the sync route hands them over, with
    nothing but the headline variances. *)
Definition metrics_of (current previous : ProfitAndLoss.t) : MetricsData.t :=
  {| MetricsData.variances := computeVariances current previous;
     MetricsData.ratios := [];
     MetricsData.trends := [];
     MetricsData.anomalies := [];
     MetricsData.issues := [];
     MetricsData.current := current;
     MetricsData.previous := Some previous |}.

(** * Properties *)

(** ** Numbers *)

Lemma Qlt_bool_iff (x y : Q) : Qlt_bool x y = true <-> x < y.
Proof.
  unfold Qlt_bool. rewrite negb_true_iff.
  split.
  - intro H. apply Qnot_le_lt. intro Hle.
    apply Qle_bool_iff in Hle. congruence.
  - intro H. destruct (Qle_bool y x) eqn:E; [|reflexivity].
    apply Qle_bool_iff in E. lra.
Qed.

Lemma Qlt_bool_false (x y : Q) : Qlt_bool x y = false <-> y <= x.
Proof.
  unfold Qlt_bool. rewrite negb_false_iff. apply Qle_bool_iff.
Qed.

Lemma Qle_bool_false (x y : Q) : Qle_bool x y = false <-> y < x.
Proof.
  split.
  - intro H. apply Qnot_le_lt. intro Hle.
    apply Qle_bool_iff in Hle. congruence.
  - intro H. destruct (Qle_bool x y) eqn:E; [|reflexivity].
    apply Qle_bool_iff in E. lra.
Qed.

Lemma Qeq_bool_false (x y : Q) : Qeq_bool x y = false <-> ~ x == y.
Proof.
  split.
  - apply Qeq_bool_neq.
  - intro H. destruct (Qeq_bool x y) eqn:E; [|reflexivity].
    apply Qeq_bool_iff in E. contradiction.
Qed.

#[global] Instance Qlt_bool_comp : Proper (Qeq ==> Qeq ==> eq) Qlt_bool.
Proof.
  intros x x' Hx y y' Hy. unfold Qlt_bool. now rewrite Hx, Hy.
Qed.

(** Turns every comparison of the program found in the context into the
    order on [Q] it decides. *)
Ltac reflect_cmp :=
  repeat match goal with
    | H : Qlt_bool _ _ = true |- _ => apply Qlt_bool_iff in H
    | H : Qlt_bool _ _ = false |- _ => apply Qlt_bool_false in H
    | H : Qle_bool _ _ = true |- _ => apply Qle_bool_iff in H
    | H : Qle_bool _ _ = false |- _ => apply Qle_bool_false in H
    | H : Qeq_bool _ _ = true |- _ => apply Qeq_bool_iff in H
    | H : Qeq_bool _ _ = false |- _ => apply Qeq_bool_false in H
    end.

(** ** [computeVariances] *)

(** Every variance of [computeVariances] is the row of one headline metric:
    its [percentChange] is the rounded raw percentage, its [significance] is
    decided on the raw percentage. *)
Lemma computeVariances_row current previous v :
  In v (computeVariances current previous) ->
  let raw :=
    rawPercentChange (VarianceResult.currentValue v)
      (VarianceResult.previousValue v) in
  VarianceResult.percentChange v = round1 raw
  /\ VarianceResult.absoluteChange v
     = VarianceResult.currentValue v - VarianceResult.previousValue v
  /\ VarianceResult.direction v = directionOf (VarianceResult.absoluteChange v)
  /\ VarianceResult.significance v
     = (if Math_abs raw >? 20 then high
        else if Math_abs raw >? 10 then medium else low).
Proof.
  unfold computeVariances. intro H.
  apply in_map_iff in H. destruct H as [[metric [cur prev]] [<- _]].
  cbn. repeat split.
Qed.

(** ** [computeRatios] *)

(** The result laid out: three ratios that are always there, then Revenue
    Growth and Cash Runway under their guards. *)
Lemma computeRatios_eq current previous cashPosition :
  computeRatios current previous cashPosition
  = [ {| RatioResult.name := "Gross Margin";
         RatioResult.value :=
           round1 (marginOf current (ProfitAndLoss.grossProfit current));
         RatioResult.previousValue :=
           roundedIfTruthy (prevMarginOf previous ProfitAndLoss.grossProfit);
         RatioResult.trend :=
           getTrend (marginOf current (ProfitAndLoss.grossProfit current))
             (prevMarginOf previous ProfitAndLoss.grossProfit);
         RatioResult.description :=
           "How much you keep from each sale after direct costs" |};
      {| RatioResult.name := "Profit Margin";
         RatioResult.value :=
           round1 (marginOf current (ProfitAndLoss.netIncome current));
         RatioResult.previousValue :=
           roundedIfTruthy (prevMarginOf previous ProfitAndLoss.netIncome);
         RatioResult.trend :=
           getTrend (marginOf current (ProfitAndLoss.netIncome current))
             (prevMarginOf previous ProfitAndLoss.netIncome);
         RatioResult.description :=
           "What's left after all expenses, as a share of revenue" |};
      {| RatioResult.name := "Expense Ratio";
         RatioResult.value :=
           round1 (marginOf current (ProfitAndLoss.totalExpenses current));
         RatioResult.previousValue :=
           roundedIfTruthy (prevMarginOf previous ProfitAndLoss.totalExpenses);
         RatioResult.trend :=
           match prevMarginOf previous ProfitAndLoss.totalExpenses with
           | Some prev =>
               if truthy prev
               then (if marginOf current (ProfitAndLoss.totalExpenses current)
                        <? prev - 1 then improving
                     else if marginOf current
                               (ProfitAndLoss.totalExpenses current)
                             >? prev + 1 then declining
                     else stable)
               else stable
           | None => stable
           end;
         RatioResult.description :=
           "Your regular costs as a share of revenue" |} ]
    ++ match previous with
       | Some p =>
           if ProfitAndLoss.totalRevenue p >? 0
           then
             let revenueGrowth :=
               ((ProfitAndLoss.totalRevenue current
                 - ProfitAndLoss.totalRevenue p)
                / Math_abs (ProfitAndLoss.totalRevenue p)) * 100 in
             [ {| RatioResult.name := "Revenue Growth";
                  RatioResult.value := round1 revenueGrowth;
                  RatioResult.previousValue := None;
                  RatioResult.trend :=
                    if revenueGrowth >? 2 then improving
                    else if revenueGrowth <? -2 then declining
                    else stable;
                  RatioResult.description :=
                    "How this month compares to last month" |} ]
           else []
       | None => []
       end
    ++ match cashPosition with
       | Some cp =>
           if ProfitAndLoss.totalExpenses current >? 0
           then
             let monthlyBurn :=
               ProfitAndLoss.totalExpenses current
               - ProfitAndLoss.totalRevenue current in
             let runwayMonths :=
               if monthlyBurn >? 0
               then CashPosition.currentBalance cp / monthlyBurn
               else 99 in
             [ {| RatioResult.name := "Cash Runway";
                  RatioResult.value := round1 (Math_min runwayMonths 99);
                  RatioResult.previousValue := None;
                  RatioResult.trend :=
                    if runwayMonths <? 3 then declining
                    else if runwayMonths <? 6 then stable
                    else improving;
                  RatioResult.description :=
                    "Months your cash will last at current spending" |} ]
           else []
       | None => []
       end.
Proof.
  unfold computeRatios.
  destruct previous as [p|];
    [destruct (Qlt_bool 0 (ProfitAndLoss.totalRevenue p)) eqn:Ep|];
    (destruct cashPosition as [cp|];
     [destruct (Qlt_bool 0 (ProfitAndLoss.totalExpenses current)) eqn:Ee|]);
    reflexivity.
Qed.

(** C10: with a previous period whose ratio comes out as exactly 0, the
    emitted Gross Margin, Profit Margin and Expense Ratio carry no
    [previousValue], and the trend of the Expense Ratio is stable whatever
    the current value. *)
Theorem computeRatios_zero_previous_ratio current p cashPosition :
  exists gm pm er rest,
    computeRatios current (Some p) cashPosition = gm :: pm :: er :: rest
    /\ RatioResult.name gm = "Gross Margin"%string
    /\ RatioResult.name pm = "Profit Margin"%string
    /\ RatioResult.name er = "Expense Ratio"%string
    /\ (forall x,
          prevMarginOf (Some p) ProfitAndLoss.grossProfit = Some x -> x == 0 ->
          RatioResult.previousValue gm = None)
    /\ (forall x,
          prevMarginOf (Some p) ProfitAndLoss.netIncome = Some x -> x == 0 ->
          RatioResult.previousValue pm = None)
    /\ (forall x,
          prevMarginOf (Some p) ProfitAndLoss.totalExpenses = Some x -> x == 0 ->
          RatioResult.previousValue er = None
          /\ RatioResult.trend er = stable).
Proof.
  rewrite computeRatios_eq. cbn [app].
  do 4 eexists. split; [reflexivity|].
  cbn [RatioResult.name RatioResult.previousValue RatioResult.trend].
  do 3 (split; [reflexivity|]).
  split; [|split];
    intros x Hx Hzero; rewrite Hx; unfold roundedIfTruthy, truthy;
    apply Qeq_bool_iff in Hzero; rewrite Hzero; cbn [negb]; auto.
Qed.

(** A previous period with revenue and no expenses: an expense ratio of 0. *)
Lemma computeRatios_zero_previous_ratio_witness :
  prevMarginOf (Some revenue_only) ProfitAndLoss.totalExpenses = Some (0 / 100000 * 100)
  /\ exists er,
       ratioNamed "Expense Ratio"
         (computeRatios revenue_120000 (Some revenue_only) None) = Some er
       /\ RatioResult.previousValue er = None
       /\ RatioResult.trend er = stable.
Proof.
  split; [reflexivity|].
  destruct (computeRatios_zero_previous_ratio revenue_120000 revenue_only None)
    as (gm & pm & er & rest & Heq & Hgm & Hpm & Her & _ & _ & Hexp).
  exists er. split.
  - rewrite Heq. unfold ratioNamed. cbn [find]. rewrite Hgm, Hpm, Her.
    reflexivity.
  - apply (Hexp (0 / 100000 * 100)); reflexivity.
Defined.

(** ** [Array.prototype.sort] *)

Section Sorting.

Context {A : Type}.
Variable cmp : A -> A -> number.
Variable R : A -> A -> Prop.

(** The comparator decides the order [R]: a positive result puts its first
    argument behind, any other result leaves it in front. *)
Hypothesis cmp_after : forall x y, (cmp x y >? 0) = true -> R y x.
Hypothesis cmp_before : forall x y, (cmp x y >? 0) = false -> R x y.
Hypothesis R_trans : forall x y z, R x y -> R y z -> R x z.

Lemma insertBy_perm x l : Permutation (x :: l) (insertBy cmp x l).
Proof.
  induction l as [|y l IH]; cbn.
  - apply Permutation_refl.
  - destruct (cmp x y >? 0).
    + etransitivity; [apply perm_swap|]. apply perm_skip, IH.
    + apply Permutation_refl.
Qed.

Lemma sort_perm l : Permutation l (sort cmp l).
Proof.
  induction l as [|x l IH]; cbn.
  - apply perm_nil.
  - etransitivity; [apply perm_skip, IH|]. apply insertBy_perm.
Qed.

Lemma insertBy_hd x y l :
  R y x -> HdRel R y l -> HdRel R y (insertBy cmp x l).
Proof.
  intros Hyx Hhd. destruct l as [|z l]; cbn.
  - constructor. exact Hyx.
  - inversion Hhd; subst.
    destruct (cmp x z >? 0); constructor; assumption.
Qed.

Lemma insertBy_sorted x l : Sorted R l -> Sorted R (insertBy cmp x l).
Proof.
  induction 1 as [|y l Hsorted IH Hhd]; cbn.
  - repeat constructor.
  - destruct (cmp x y >? 0) eqn:E.
    + constructor; [exact IH|].
      apply insertBy_hd; [apply cmp_after, E|exact Hhd].
    + constructor; [constructor; assumption|].
      constructor. apply cmp_before, E.
Qed.

Lemma sort_sorted l : StronglySorted R (sort cmp l).
Proof.
  apply Sorted_StronglySorted; [exact R_trans|].
  induction l as [|x l IH]; cbn.
  - constructor.
  - apply insertBy_sorted, IH.
Qed.

End Sorting.

Lemma StronglySorted_firstn {A} (R : A -> A -> Prop) n l :
  StronglySorted R l -> StronglySorted R (firstn n l).
Proof.
  intro H. revert n.
  induction H as [|x l Hs IH Hall]; intro n; destruct n; cbn;
    try constructor.
  - apply IH.
  - apply Forall_forall. intros y Hy.
    rewrite Forall_forall in Hall. apply Hall.
    rewrite <- (firstn_skipn n l). apply in_or_app. left. exact Hy.
Qed.

Lemma sort_length {A} (cmp : A -> A -> number) l :
  List.length (sort cmp l) = List.length l.
Proof.
  symmetry. apply Permutation_length, sort_perm.
Qed.

Lemma sort_in {A} (cmp : A -> A -> number) l x :
  In x (sort cmp l) <-> In x l.
Proof.
  split; apply Permutation_in;
    [apply Permutation_sym|]; apply sort_perm.
Qed.

(** ** [generateIssues] *)

Lemma issueBefore_trans a b c :
  issueBefore a b -> issueBefore b c -> issueBefore a c.
Proof.
  unfold issueBefore. intros [H1|[H1 H1']] [H2|[H2 H2']].
  - left. lra.
  - left. lra.
  - left. lra.
  - right. split; lra.
Qed.

Lemma compareIssues_after a b :
  (compareIssues a b >? 0) = true -> issueBefore b a.
Proof.
  unfold compareIssues, issueBefore, truthy.
  destruct (Qeq_bool _ 0) eqn:E; cbn [negb]; intro H; reflect_cmp.
  - right. split; lra.
  - left. lra.
Qed.

Lemma compareIssues_before a b :
  (compareIssues a b >? 0) = false -> issueBefore a b.
Proof.
  unfold compareIssues, issueBefore, truthy.
  destruct (Qeq_bool _ 0) eqn:E; cbn [negb]; intro H; reflect_cmp.
  - right. split; lra.
  - left. lra.
Qed.

Lemma substring_all (s : string) : substring 0 (String.length s) s = s.
Proof.
  induction s as [|c s IH]; cbn; [reflexivity|]. now rewrite IH.
Qed.

Lemma Set_has_false s k : Set_has s k = false <-> ~ In k s.
Proof.
  unfold Set_has. split.
  - intros H Hin.
    assert (existsb (String.eqb k) s = true).
    { apply existsb_exists. exists k. split; [exact Hin|apply String.eqb_refl]. }
    congruence.
  - intro Hnin. destruct (existsb (String.eqb k) s) eqn:E; [|reflexivity].
    apply existsb_exists in E. destruct E as (x & Hin & Heq).
    apply String.eqb_eq in Heq. subst x. contradiction.
Qed.

Lemma raise_consistent st i tag :
  consistent st -> rootCauseOf i = tag ->
  Set_has (rootCauses st) tag = false ->
  consistent (raise st i tag).
Proof.
  intros [Htags Hnodup] Htag Hhas. unfold consistent, raise, Set_add.
  cbn [issues rootCauses]. rewrite Hhas. split.
  - rewrite map_app, Htags, <- Htag. reflexivity.
  - apply Set_has_false in Hhas.
    apply NoDup_rev in Hnodup.
    rewrite <- (rev_involutive (rootCauses st ++ [tag])).
    apply NoDup_rev. rewrite rev_app_distr. cbn.
    constructor; [|exact Hnodup].
    intro Hin. apply Hhas. apply in_rev. exact Hin.
Qed.

Section GenerateIssues.

Variable numToString : number -> string.
Variable clock : nat -> string.

(** What a rule does to the state: nothing, or one [raise]. *)
Lemma cashRunwayRule_cases ratios st :
  cashRunwayRule numToString clock ratios st = st
  \/ exists r at_,
       ratioNamed "Cash Runway" ratios = Some r
       /\ RatioResult.value r < 3
       /\ cashRunwayRule numToString clock ratios st
          = raise st (cashRunwayIssue numToString r at_) "cash".
Proof.
  unfold cashRunwayRule, ratioNamed.
  destruct (find _ ratios) as [r|]; [|now left].
  destruct (RatioResult.value r <? 3) eqn:E; [|now left].
  right. exists r. eexists. reflect_cmp. repeat split. exact E.
Qed.

Lemma expenseRevenueRule_cases variances st :
  expenseRevenueRule numToString clock variances st = st
  \/ exists rv ev at_,
       Set_has (rootCauses st) "expense_revenue" = false
       /\ expenseRevenueRule numToString clock variances st
          = raise st (expenseRevenueIssue numToString rv ev at_)
              "expense_revenue".
Proof.
  unfold expenseRevenueRule.
  destruct (find _ variances) as [rv|]; [|now left].
  destruct (find _ variances) as [ev|]; [|now left].
  destruct (_ >? _); cbn [andb]; [|now left].
  destruct (Set_has _ _) eqn:E; cbn [negb]; [now left|].
  right. exists rv, ev. eexists. split; reflexivity.
Qed.

Lemma marginRule_cases trends st :
  marginRule numToString clock trends st = st
  \/ exists t at_,
       findMarginTrend trends = Some t
       /\ Set_has (rootCauses st) "margin" = false
       /\ marginRule numToString clock trends st
          = raise st (marginIssue numToString t at_) "margin".
Proof.
  unfold marginRule.
  destruct (findMarginTrend trends) as [t|]; [|now left].
  destruct (_ >=? _); cbn [andb]; [|now left].
  destruct (Set_has _ _) eqn:E; cbn [negb]; [now left|].
  right. exists t. eexists. repeat split.
Qed.

Lemma anomalyRule_cases st a :
  anomalyRule clock st a = st
  \/ exists at_,
       Set_has (rootCauses st) ("anomaly-" ++ AnomalyResult.metric a) = false
       /\ anomalyRule clock st a
          = raise st (anomalyIssue a at_)
              ("anomaly-" ++ AnomalyResult.metric a).
Proof.
  unfold anomalyRule.
  destruct (Set_has _ _) eqn:E; cbn [negb]; [now left|].
  right. eexists. split; reflexivity.
Qed.

Lemma rootCauseOf_anomalyIssue a at_ :
  rootCauseOf (anomalyIssue a at_)
  = ("anomaly-" ++ AnomalyResult.metric a)%string.
Proof.
  unfold rootCauseOf, anomalyIssue. cbn.
  rewrite Nat.sub_0_r, substring_all. reflexivity.
Qed.

Lemma anomalyRule_consistent st a :
  consistent st -> consistent (anomalyRule clock st a).
Proof.
  intro H. destruct (anomalyRule_cases st a) as [->|(at_ & Hhas & ->)];
    [exact H|].
  apply raise_consistent; [exact H|apply rootCauseOf_anomalyIssue|exact Hhas].
Qed.

Lemma anomalies_consistent l st :
  consistent st -> consistent (fold_left (anomalyRule clock) l st).
Proof.
  revert st. induction l as [|a l IH]; intros st H; cbn; [exact H|].
  apply IH, anomalyRule_consistent, H.
Qed.

Lemma issueCascade_consistent variances ratios trends anomalies :
  consistent (issueCascade numToString clock variances ratios trends anomalies).
Proof.
  unfold issueCascade. apply anomalies_consistent.
  set (st0 := {| issues := []; rootCauses := [] |}).
  assert (H0 : consistent st0) by (split; [reflexivity|constructor]).
  assert (H1 : consistent (cashRunwayRule numToString clock ratios st0)).
  { destruct (cashRunwayRule_cases ratios st0) as [->|(r & at_ & _ & _ & ->)];
      [exact H0|].
    apply raise_consistent; [exact H0|reflexivity|reflexivity]. }
  set (st1 := cashRunwayRule numToString clock ratios st0) in *.
  assert (H2 : consistent (expenseRevenueRule numToString clock variances st1)).
  { destruct (expenseRevenueRule_cases variances st1)
      as [->|(rv & ev & at_ & Hhas & ->)]; [exact H1|].
    apply raise_consistent; [exact H1|reflexivity|exact Hhas]. }
  set (st2 := expenseRevenueRule numToString clock variances st1) in *.
  destruct (marginRule_cases trends st2) as [->|(t & at_ & _ & Hhas & ->)];
    [exact H2|].
  apply raise_consistent; [exact H2|reflexivity|exact Hhas].
Qed.

Lemma raise_length st i tag :
  List.length (issues (raise st i tag)) = S (List.length (issues st)).
Proof.
  unfold raise. cbn. rewrite length_app. cbn. lia.
Qed.

Lemma anomalies_length l st :
  (List.length (issues (fold_left (anomalyRule clock) l st))
   <= List.length (issues st) + List.length l)%nat.
Proof.
  revert st. induction l as [|a l IH]; intro st; cbn; [lia|].
  specialize (IH (anomalyRule clock st a)).
  destruct (anomalyRule_cases st a) as [E|(at_ & _ & E)]; rewrite E in *.
  - lia.
  - rewrite raise_length in IH. lia.
Qed.

Lemma issueCascade_length variances ratios trends anomalies :
  (List.length
     (issues (issueCascade numToString clock variances ratios trends anomalies))
   <= 5)%nat.
Proof.
  unfold issueCascade.
  set (st0 := {| issues := []; rootCauses := [] |}).
  set (st1 := cashRunwayRule numToString clock ratios st0).
  set (st2 := expenseRevenueRule numToString clock variances st1).
  set (st3 := marginRule numToString clock trends st2).
  assert (H1 : (List.length (issues st1) <= 1)%nat).
  { subst st1. destruct (cashRunwayRule_cases ratios st0)
      as [->|(r & at_ & _ & _ & ->)]; [|rewrite raise_length]; cbn; lia. }
  assert (H2 : (List.length (issues st2) <= 2)%nat).
  { subst st2. destruct (expenseRevenueRule_cases variances st1)
      as [->|(rv & ev & at_ & _ & ->)]; [|rewrite raise_length]; lia. }
  assert (H3 : (List.length (issues st3) <= 3)%nat).
  { subst st3. destruct (marginRule_cases trends st2)
      as [->|(t & at_ & _ & _ & ->)]; [|rewrite raise_length]; lia. }
  pose proof (anomalies_length (firstn 2 anomalies) st3) as H4.
  pose proof (firstn_le_length 2 anomalies) as H5.
  lia.
Qed.

(** The returned list is a rearrangement of the issues raised: the cap of
    5 never cuts. *)
Lemma generateIssues_perm variances ratios trends anomalies cashPosition :
  Permutation
    (issues (issueCascade numToString clock variances ratios trends anomalies))
    (generateIssues numToString clock variances ratios trends anomalies
       cashPosition).
Proof.
  unfold generateIssues. rewrite firstn_all2.
  - apply sort_perm.
  - rewrite sort_length. apply issueCascade_length.
Qed.

(** C2: [generateIssues] returns at most 5 issues, no two of them raised
    under one root-cause tag, sorted by severity (critical, warning, info)
    and, within one severity, by descending [currentValue]. *)
Theorem generateIssues_capped_distinct_sorted
  variances ratios trends anomalies cashPosition :
  let st := issueCascade numToString clock variances ratios trends anomalies in
  let out :=
    generateIssues numToString clock variances ratios trends anomalies
      cashPosition in
  (List.length out <= 5)%nat
  /\ rootCauses st = map rootCauseOf (issues st)
  /\ Permutation (issues st) out
  /\ NoDup (map rootCauseOf out)
  /\ StronglySorted issueBefore out.
Proof.
  intros st out.
  pose proof (issueCascade_consistent variances ratios trends anomalies)
    as [Htags Hnodup].
  pose proof (generateIssues_perm variances ratios trends anomalies cashPosition)
    as Hperm.
  fold st in Htags, Hnodup, Hperm. fold out in Hperm.
  split; [|split; [exact Htags|split; [exact Hperm|split]]].
  - rewrite <- (Permutation_length Hperm). apply issueCascade_length.
  - apply (Permutation_NoDup (l := map rootCauseOf (issues st))).
    + apply Permutation_map, Hperm.
    + rewrite <- Htags. exact Hnodup.
  - apply StronglySorted_firstn.
    apply sort_sorted.
    + exact compareIssues_after.
    + exact compareIssues_before.
    + exact issueBefore_trans.
Qed.

End GenerateIssues.

(** Two anomalies under one root cause give one issue; with the cash-runway
    issue in front, by severity. *)
Example generateIssues_one_issue_per_root_cause :
  map rootCauseOf
    (generateIssues render midnight []
       [ {| RatioResult.name := "Cash Runway"; RatioResult.value := 2;
            RatioResult.previousValue := None; RatioResult.trend := declining;
            RatioResult.description := "" |} ]
       [] [rent_anomaly 1700 high; rent_anomaly 1800 medium] None)
  = ["cash"; "anomaly-Rent"]%string.
Proof.
  reflexivity.
Qed.

(** ** The rules of [generateIssues], one issue at a time *)

Lemma filter_perm {A} (f : A -> bool) l l' :
  Permutation l l' -> Permutation (filter f l) (filter f l').
Proof.
  induction 1 as [|x l l' _ IH|x y l|l l' l'' _ IH1 _ IH2]; cbn.
  - constructor.
  - destruct (f x); [apply perm_skip|]; exact IH.
  - destruct (f x), (f y); try apply Permutation_refl. apply perm_swap.
  - etransitivity; eassumption.
Qed.

Lemma filter_raise f st i tag :
  filter f (issues (raise st i tag))
  = filter f (issues st) ++ (if f i then [i] else []).
Proof.
  unfold raise. cbn [issues]. rewrite filter_app. cbn.
  destruct (f i); reflexivity.
Qed.

Section IssueRules.

Variable numToString : number -> string.
Variable clock : nat -> string.

(** A test that no issue of the anomaly rule passes is not affected by
    that rule. *)
Lemma anomalies_filter f l st :
  (forall a at_, f (anomalyIssue a at_) = false) ->
  filter f (issues (fold_left (anomalyRule clock) l st)) = filter f (issues st).
Proof.
  intro Hf. revert st. induction l as [|a l IH]; intro st; cbn; [reflexivity|].
  rewrite IH.
  destruct (anomalyRule_cases clock st a) as [->|(at_ & _ & ->)];
    [reflexivity|].
  rewrite filter_raise, Hf. apply app_nil_r.
Qed.

(** Ahead of the margin rule the tag [margin] has not been added. *)
Lemma margin_not_yet variances ratios :
  Set_has
    (rootCauses
       (expenseRevenueRule numToString clock variances
          (cashRunwayRule numToString clock ratios
             {| issues := []; rootCauses := [] |})))
    "margin" = false.
Proof.
  set (st0 := {| issues := []; rootCauses := [] |}).
  destruct (cashRunwayRule_cases numToString clock ratios st0)
    as [->|(r & at_ & _ & _ & ->)];
    match goal with
    | |- context [expenseRevenueRule _ _ _ ?st] =>
        destruct (expenseRevenueRule_cases numToString clock variances st)
          as [->|(rv & ev & at' & _ & ->)]
    end; reflexivity.
Qed.

(** With a decreasing Gross Profit trend found and sustained for 2 periods,
    the issues raised hold exactly one margin-decline issue. *)
Lemma issueCascade_margin variances ratios trends anomalies t :
  findMarginTrend trends = Some t ->
  2 <= TrendResult.periods t ->
  exists at_,
    filter isMarginDecline
      (issues (issueCascade numToString clock variances ratios trends anomalies))
    = [marginIssue numToString t at_].
Proof.
  intros Hfind Hperiods. unfold issueCascade.
  set (st0 := {| issues := []; rootCauses := [] |}).
  set (st1 := cashRunwayRule numToString clock ratios st0).
  set (st2 := expenseRevenueRule numToString clock variances st1).
  assert (H1 : filter isMarginDecline (issues st1) = []).
  { subst st1. destruct (cashRunwayRule_cases numToString clock ratios st0)
      as [->|(r & at_ & _ & _ & ->)]; [reflexivity|].
    rewrite filter_raise. reflexivity. }
  assert (H2 : filter isMarginDecline (issues st2) = []).
  { subst st2.
    destruct (expenseRevenueRule_cases numToString clock variances st1)
      as [->|(rv & ev & at_ & _ & ->)]; [exact H1|].
    rewrite filter_raise, H1. reflexivity. }
  rewrite anomalies_filter by reflexivity.
  unfold marginRule. rewrite Hfind.
  apply Qle_bool_iff in Hperiods. rewrite Hperiods.
  fold st0 st1 st2. subst st2 st1 st0. rewrite margin_not_yet. cbn [andb negb].
  rewrite filter_raise, H2. eexists. reflexivity.
Qed.

(** With no Cash Runway ratio below 3, no cash-runway issue is raised. *)
Lemma issueCascade_no_cash variances ratios trends anomalies :
  (forall r, ratioNamed "Cash Runway" ratios = Some r ->
             ~ RatioResult.value r < 3) ->
  filter isCashRunway
    (issues (issueCascade numToString clock variances ratios trends anomalies))
  = [].
Proof.
  intro Hnot. unfold issueCascade.
  set (st0 := {| issues := []; rootCauses := [] |}).
  set (st1 := cashRunwayRule numToString clock ratios st0).
  set (st2 := expenseRevenueRule numToString clock variances st1).
  assert (H1 : filter isCashRunway (issues st1) = []).
  { subst st1. destruct (cashRunwayRule_cases numToString clock ratios st0)
      as [->|(r & at_ & Hr & Hlt & _)]; [reflexivity|].
    exfalso. exact (Hnot r Hr Hlt). }
  assert (H2 : filter isCashRunway (issues st2) = []).
  { subst st2.
    destruct (expenseRevenueRule_cases numToString clock variances st1)
      as [->|(rv & ev & at_ & _ & ->)]; [exact H1|].
    rewrite filter_raise, H1. reflexivity. }
  rewrite anomalies_filter by reflexivity.
  destruct (marginRule_cases numToString clock trends st2)
    as [->|(t & at_ & _ & _ & ->)]; [exact H2|].
  rewrite filter_raise, H2. reflexivity.
Qed.

(** A test on issues gives the same on the returned list as on the issues
    raised, when at most one passes. *)
Lemma generateIssues_filter f variances ratios trends anomalies cashPosition l :
  filter f
    (issues (issueCascade numToString clock variances ratios trends anomalies))
  = l ->
  (List.length l <= 1)%nat ->
  filter f
    (generateIssues numToString clock variances ratios trends anomalies
       cashPosition) = l.
Proof.
  intros Hl Hlen.
  pose proof (filter_perm f
    (generateIssues_perm numToString clock variances ratios trends anomalies
       cashPosition)) as Hperm.
  rewrite Hl in Hperm.
  destruct l as [|x [|y l]]; cbn in Hlen; try lia.
  - apply Permutation_nil in Hperm. exact Hperm.
  - apply Permutation_length_1_inv in Hperm. exact Hperm.
Qed.

End IssueRules.

(** ** The Cash Runway boundary *)

(** C4: with a balance of 15,000, expenses of 20,000 and revenue of 15,000
    [computeRatios] emits a Cash Runway of 3.0 with trend stable, and
    [generateIssues] on those ratios raises no cash-runway issue. *)
Theorem cash_runway_boundary numToString clock current previous cp
  variances trends anomalies :
  ProfitAndLoss.totalExpenses current == 20000 ->
  ProfitAndLoss.totalRevenue current == 15000 ->
  CashPosition.currentBalance cp == 15000 ->
  let ratios := computeRatios current previous (Some cp) in
  (exists r,
     ratioNamed "Cash Runway" ratios = Some r
     /\ RatioResult.value r == 3
     /\ RatioResult.trend r = stable)
  /\ filter isCashRunway
       (generateIssues numToString clock variances ratios trends anomalies
          (Some cp)) = [].
Proof.
  intros He Hr Hb ratios.
  set (burn := ProfitAndLoss.totalExpenses current
               - ProfitAndLoss.totalRevenue current).
  set (run := CashPosition.currentBalance cp / burn).
  assert (E0 : (ProfitAndLoss.totalExpenses current >? 0) = true)
    by (rewrite He; reflexivity).
  assert (E1 : (burn >? 0) = true) by (unfold burn; rewrite He, Hr; reflexivity).
  assert (Hrun : run == 3) by (unfold run, burn; rewrite Hb, He, Hr; reflexivity).
  assert (E2 : (run <=? 99) = true) by (rewrite Hrun; reflexivity).
  assert (E3 : (run <? 3) = false) by (rewrite Hrun; reflexivity).
  assert (E4 : (run <? 6) = true) by (rewrite Hrun; reflexivity).
  assert (Hfound : exists r,
            ratioNamed "Cash Runway" ratios = Some r
            /\ RatioResult.value r == 3 /\ RatioResult.trend r = stable).
  { subst ratios. rewrite computeRatios_eq. unfold ratioNamed.
    cbv zeta. fold burn. fold run. rewrite E0, E1.
    eexists. split.
    - cbn [app find RatioResult.name String.eqb Ascii.eqb Bool.eqb].
      destruct previous as [p|];
        [destruct (ProfitAndLoss.totalRevenue p >? 0)|]; reflexivity.
    - cbn [RatioResult.value RatioResult.trend]. rewrite E3, E4.
      split; [|reflexivity].
      unfold Math_min. rewrite E2. unfold round1, Math_round.
      rewrite Hrun. reflexivity. }
  split; [exact Hfound|].
  apply generateIssues_filter; [|cbn; lia].
  apply issueCascade_no_cash.
  intros r Hr'. destruct Hfound as (r0 & Hr0 & Hval & _).
  rewrite Hr0 in Hr'. injection Hr' as <-. rewrite Hval. lra.
Qed.

(** The scenario itself, with the variances of the two periods and neither
    trends nor anomalies. *)
Lemma cash_runway_boundary_witness :
  (exists r,
     ratioNamed "Cash Runway"
       (computeRatios runway_statement (Some revenue_100000) (Some runway_cash))
     = Some r
     /\ RatioResult.value r == 3
     /\ RatioResult.trend r = stable)
  /\ filter isCashRunway
       (generateIssues render midnight
          (computeVariances runway_statement revenue_100000)
          (computeRatios runway_statement (Some revenue_100000)
             (Some runway_cash))
          [] [] (Some runway_cash)) = [].
Proof.
  apply (cash_runway_boundary render midnight runway_statement
           (Some revenue_100000) runway_cash
           (computeVariances runway_statement revenue_100000) [] []);
    reflexivity.
Defined.

(** ** [detectTrends] and the margin-decline issue *)

Lemma find_app {A} (f : A -> bool) l l' :
  find f (l ++ l')
  = match find f l with Some x => Some x | None => find f l' end.
Proof.
  induction l as [|x l IH]; cbn; [reflexivity|].
  destruct (f x); [reflexivity|exact IH].
Qed.

Section Trends.

Variable numToString : number -> string.

(** One metric gives no trend, or one trend under its label. *)
Lemma trendOf_cases periods metric label :
  trendOf numToString periods (metric, label) = []
  \/ exists t,
       trendOf numToString periods (metric, label) = [t]
       /\ TrendResult.metric t = label
       /\ TrendResult.periods t = length_n periods
       /\ TrendResult.direction t = detectDirection (map metric periods)
       /\ detectDirection (map metric periods) <> steady.
Proof.
  unfold trendOf.
  destruct (detectDirection (map metric periods)) eqn:E; cbn [negb trendDirection_eqb];
    [right|right|left; reflexivity|right];
    eexists; (split; [reflexivity|]); cbn; repeat split; discriminate.
Qed.

Lemma detectTrends_eq periods :
  detectTrends numToString periods
  = if length_n periods <? 2 then []
    else trendOf numToString periods (ProfitAndLoss.totalRevenue, "Revenue"%string)
         ++ trendOf numToString periods
              (ProfitAndLoss.totalExpenses, "Expenses"%string)
         ++ trendOf numToString periods (ProfitAndLoss.netIncome, "Profit"%string)
         ++ trendOf numToString periods
              (ProfitAndLoss.grossProfit, "Gross Profit"%string).
Proof.
  unfold detectTrends, trend_metrics. cbn [flat_map].
  rewrite app_nil_r. reflexivity.
Qed.

(** A trend under another label is not the one the margin rule looks
    for. *)
Lemma findMarginTrend_other periods metric label :
  String.eqb label "Gross Profit" = false ->
  findMarginTrend (trendOf numToString periods (metric, label)) = None
  /\ forall t, In t (trendOf numToString periods (metric, label)) ->
               TrendResult.metric t <> "Gross Profit"%string.
Proof.
  intro Hlabel.
  destruct (trendOf_cases periods metric label)
    as [->|(t & -> & Hm & _)]; [split; [reflexivity|intros t []]|].
  split.
  - unfold findMarginTrend. cbn [find]. rewrite Hm, Hlabel. reflexivity.
  - intros t' [<-|[]]. rewrite Hm. intro Heq. rewrite Heq in Hlabel.
    discriminate.
Qed.

(** A decreasing Gross Profit trend reported by [detectTrends] spans at
    least 2 periods and is the trend the margin rule finds. *)
Lemma detectTrends_margin periods t :
  In t (detectTrends numToString periods) ->
  TrendResult.metric t = "Gross Profit"%string ->
  TrendResult.direction t = decreasing ->
  2 <= TrendResult.periods t
  /\ TrendResult.periods t = length_n periods
  /\ findMarginTrend (detectTrends numToString periods) = Some t.
Proof.
  rewrite detectTrends_eq.
  destruct (length_n periods <? 2) eqn:Elen; [intros []|].
  intros Hin Hmetric Hdir. reflect_cmp.
  destruct (findMarginTrend_other periods ProfitAndLoss.totalRevenue
              "Revenue" eq_refl) as [F1 N1].
  destruct (findMarginTrend_other periods ProfitAndLoss.totalExpenses
              "Expenses" eq_refl) as [F2 N2].
  destruct (findMarginTrend_other periods ProfitAndLoss.netIncome
              "Profit" eq_refl) as [F3 N3].
  unfold findMarginTrend in *. rewrite !find_app, F1, F2, F3.
  apply in_app_or in Hin. destruct Hin as [Hin|Hin];
    [exfalso; exact (N1 t Hin Hmetric)|].
  apply in_app_or in Hin. destruct Hin as [Hin|Hin];
    [exfalso; exact (N2 t Hin Hmetric)|].
  apply in_app_or in Hin. destruct Hin as [Hin|Hin];
    [exfalso; exact (N3 t Hin Hmetric)|].
  destruct (trendOf_cases periods ProfitAndLoss.grossProfit "Gross Profit")
    as [E|(t' & E & Hm & Hp & _)]; rewrite E in *; [destruct Hin|].
  destruct Hin as [<-|[]].
  split; [rewrite Hp; exact Elen|]. split; [exact Hp|].
  cbn [find]. rewrite Hm, Hdir. reflexivity.
Qed.

(** Steps that all fall by more than 3% are all counted as down. *)
Lemma countSteps_falling rest prev ups downs :
  fallingFrom prev rest ->
  countSteps prev rest ups downs = (ups, (downs + List.length rest)%nat).
Proof.
  revert prev downs. induction rest as [|v rest IH]; intros prev downs H; cbn.
  - f_equal. lia.
  - destruct H as [Hstep Hrest].
    pose proof (Qabs_nonneg prev) as Habs.
    assert (E1 : (v - prev >? Math_abs prev * 0.03) = false)
      by (apply Qlt_bool_false; unfold Math_abs; lra).
    assert (E2 : (v - prev <? - (Math_abs prev * 0.03)) = true)
      by (apply Qlt_bool_iff; exact Hstep).
    rewrite E1, E2, (IH v (S downs) Hrest). f_equal. lia.
Qed.

(** Five values that fall step by step are a decreasing series. *)
Lemma detectDirection_falling values :
  List.length values = 5%nat -> falling values ->
  detectDirection values = decreasing.
Proof.
  intros Hlen Hfall.
  destruct values as [|v0 rest]; [discriminate|].
  unfold detectDirection, length_n. cbn [falling] in Hfall.
  rewrite (countSteps_falling rest v0 0 0 Hfall).
  injection Hlen as Hlen. cbn [List.length]. rewrite Hlen. reflexivity.
Qed.

End Trends.

(** C6: a decreasing Gross Profit trend reported by [detectTrends] spans at
    least 2 periods, and [generateIssues] on those trends returns exactly one
    margin-decline issue, raised under the root cause [margin], with severity
    warning when the trend spans at least 3 periods and info otherwise; five
    statements whose gross profit falls each month by more than 3% of the
    month before give a decreasing Gross Profit trend over 5 periods and a
    margin-decline issue of severity warning. *)
Theorem margin_decline_issue numToString clock variances ratios anomalies
  cashPosition periods :
  let out :=
    generateIssues numToString clock variances ratios
      (detectTrends numToString periods) anomalies cashPosition in
  (forall t,
     In t (detectTrends numToString periods) ->
     TrendResult.metric t = "Gross Profit"%string ->
     TrendResult.direction t = decreasing ->
     2 <= TrendResult.periods t
     /\ exists i,
          filter isMarginDecline out = [i]
          /\ rootCauseOf i = "margin"%string
          /\ Issue.severity i
             = (if TrendResult.periods t >=? 3 then warning else info))
  /\ (List.length periods = 5%nat ->
      falling (map ProfitAndLoss.grossProfit periods) ->
      exists t i,
        In t (detectTrends numToString periods)
        /\ TrendResult.metric t = "Gross Profit"%string
        /\ TrendResult.direction t = decreasing
        /\ TrendResult.periods t == 5
        /\ filter isMarginDecline out = [i]
        /\ Issue.severity i = warning).
Proof.
  intro out.
  assert (General : forall t,
     In t (detectTrends numToString periods) ->
     TrendResult.metric t = "Gross Profit"%string ->
     TrendResult.direction t = decreasing ->
     2 <= TrendResult.periods t
     /\ exists i,
          filter isMarginDecline out = [i]
          /\ rootCauseOf i = "margin"%string
          /\ Issue.severity i
             = (if TrendResult.periods t >=? 3 then warning else info)).
  { intros t Hin Hmetric Hdir.
    destruct (detectTrends_margin numToString periods t Hin Hmetric Hdir)
      as (Htwo & _ & Hfind).
    split; [exact Htwo|].
    destruct (@issueCascade_margin numToString clock variances ratios
                (detectTrends numToString periods) anomalies t Hfind Htwo)
      as (at_ & Hfilter).
    exists (marginIssue numToString t at_). split.
    - subst out. apply generateIssues_filter; [exact Hfilter|cbn; lia].
    - split; reflexivity. }
  split; [exact General|].
  intros Hlen Hfall.
  assert (Hdir : detectDirection (map ProfitAndLoss.grossProfit periods)
                 = decreasing).
  { apply detectDirection_falling; [rewrite length_map; exact Hlen|exact Hfall]. }
  assert (Hn : length_n periods = 5) by (unfold length_n; rewrite Hlen; reflexivity).
  destruct (trendOf_cases numToString periods ProfitAndLoss.grossProfit
              "Gross Profit") as [E|(t & E & Hm & Hp & Hd & _)].
  - exfalso. unfold trendOf in E. rewrite Hdir in E. discriminate.
  - assert (Hin : In t (detectTrends numToString periods)).
    { rewrite detectTrends_eq, Hn. cbn [Qlt_bool Qle_bool negb].
      change (2 <=? 5) with true. cbn [negb].
      rewrite E. do 3 (apply in_or_app; right). left. reflexivity. }
    rewrite Hdir in Hd.
    destruct (General t Hin Hm Hd) as (_ & i & Hfilter & _ & Hsev).
    exists t, i. repeat split; try assumption.
    + rewrite Hp, Hn. reflexivity.
    + rewrite Hsev, Hp, Hn. reflexivity.
Qed.

(** Five months of gross profit, each 10% below the month before. *)
Lemma margin_decline_issue_witness :
  exists t i,
    In t (detectTrends render falling_months)
    /\ TrendResult.metric t = "Gross Profit"%string
    /\ TrendResult.direction t = decreasing
    /\ TrendResult.periods t == 5
    /\ filter isMarginDecline
         (generateIssues render midnight [] []
            (detectTrends render falling_months) [] None) = [i]
    /\ Issue.severity i = warning.
Proof.
  apply (margin_decline_issue render midnight [] [] [] None falling_months).
  - reflexivity.
  - cbn. repeat split; reflexivity.
Defined.

(** ** [computeExpenseVariances] *)

Lemma Map_set_keys m k v k' :
  In k' (Map_keys (Map_set m k v)) <-> In k' (Map_keys m) \/ k' = k.
Proof.
  unfold Map_keys. induction m as [|[k0 v0] m IH]; cbn.
  - intuition.
  - destruct (String.eqb k0 k) eqn:E; cbn.
    + apply String.eqb_eq in E. subst k0. intuition.
    + rewrite IH. intuition.
Qed.

Lemma Map_new_keys entries k :
  In k (Map_keys (Map_new entries)) <-> In k (map fst entries).
Proof.
  unfold Map_new.
  assert (H : forall m,
            In k (Map_keys (fold_left (fun m e => Map_set m (fst e) (snd e))
                              entries m))
            <-> In k (Map_keys m) \/ In k (map fst entries)).
  { induction entries as [|e entries IH]; intro m; cbn.
    - intuition.
    - rewrite IH, Map_set_keys. intuition. }
  rewrite H. cbn. intuition.
Qed.

Lemma Map_get_absent m k : ~ In k (Map_keys m) -> Map_get m k = None.
Proof.
  unfold Map_keys. induction m as [|[k0 v0] m IH]; cbn; [reflexivity|].
  intro H. destruct (String.eqb k0 k) eqn:E.
  - apply String.eqb_eq in E. subst k0. exfalso. apply H. now left.
  - apply IH. intro Hin. apply H. now right.
Qed.

Lemma Set_new_in ks k : In k (Set_new ks) -> In k ks.
Proof.
  unfold Set_new.
  assert (H : forall s, In k (fold_left Set_add ks s) -> In k s \/ In k ks).
  { induction ks as [|k0 ks IH]; intros s Hin; cbn in *; [now left|].
    apply IH in Hin. destruct Hin as [Hin|Hin]; [|now right; right].
    unfold Set_add in Hin. destruct (Set_has s k0); [now left|].
    apply in_app_or in Hin. destruct Hin as [Hin|[<-|[]]]; [now left|].
    right. now left. }
  intro Hin. apply H in Hin. destruct Hin as [[]|Hin]. exact Hin.
Qed.

Lemma categoryAmounts_keys p k :
  In k (Map_keys (categoryAmounts p)) <-> In k (categoryNames p).
Proof.
  unfold categoryAmounts, categoryNames. rewrite Map_new_keys, map_map.
  reflexivity.
Qed.

Lemma byDollarChange_trans a b c :
  byDollarChange a b -> byDollarChange b c -> byDollarChange a c.
Proof.
  unfold byDollarChange. intros. lra.
Qed.

(** C7: [computeExpenseVariances] returns no entry whose [percentChange] is
    below 5 in magnitude, sorted by descending absolute dollar change; every
    entry is the variance of one category name of either period, and a name
    missing from a period counts there with amount 0. *)
Theorem computeExpenseVariances_filtered_sorted current previous :
  let out := computeExpenseVariances current previous in
  let row := expenseVarianceOf (categoryAmounts current) (categoryAmounts previous) in
  (forall v, In v out -> ~ Qabs (VarianceResult.percentChange v) < 5)
  /\ StronglySorted byDollarChange out
  /\ (forall v, In v out ->
        exists name,
          (In name (categoryNames current) \/ In name (categoryNames previous))
          /\ v = row name)
  /\ (forall name,
        VarianceResult.metric (row name) = name
        /\ VarianceResult.absoluteChange (row name)
           = VarianceResult.currentValue (row name)
             - VarianceResult.previousValue (row name)
        /\ (~ In name (categoryNames current) ->
            VarianceResult.currentValue (row name) = 0)
        /\ (~ In name (categoryNames previous) ->
            VarianceResult.previousValue (row name) = 0)).
Proof.
  intros out row. unfold out, computeExpenseVariances. fold row.
  split; [|split; [|split]].
  - intros v Hin. apply sort_in in Hin. apply filter_In in Hin.
    destruct Hin as [_ Hkeep]. unfold Math_abs in Hkeep. reflect_cmp. lra.
  - apply sort_sorted.
    + intros x y H. unfold compareDollarChange, byDollarChange, Math_abs in *.
      reflect_cmp. lra.
    + intros x y H. unfold compareDollarChange, byDollarChange, Math_abs in *.
      reflect_cmp. lra.
    + exact byDollarChange_trans.
  - intros v Hin. apply sort_in in Hin. apply filter_In in Hin.
    destruct Hin as [Hin _]. apply in_map_iff in Hin.
    destruct Hin as (name & <- & Hname). exists name. split; [|reflexivity].
    apply Set_new_in in Hname. apply in_app_or in Hname.
    destruct Hname as [H|H]; apply categoryAmounts_keys in H; auto.
  - intro name. unfold row, expenseVarianceOf.
    cbn [VarianceResult.metric VarianceResult.absoluteChange
         VarianceResult.currentValue VarianceResult.previousValue].
    split; [reflexivity|]. split; [reflexivity|].
    split; intro Hmissing; rewrite Map_get_absent;
      try reflexivity; rewrite categoryAmounts_keys; exact Hmissing.
Qed.

(** Rent halves, Travel disappears, Software is new, Payroll moves by 2%:
    Rent and Travel are returned, in this order, Travel with a current value
    of 0. *)
Lemma computeExpenseVariances_filtered_sorted_witness :
  map VarianceResult.metric
    (computeExpenseVariances expenses_current expenses_previous)
  = ["Rent"; "Travel"]%string
  /\ ~ In "Travel"%string (categoryNames expenses_current)
  /\ VarianceResult.currentValue
       (expenseVarianceOf (categoryAmounts expenses_current)
          (categoryAmounts expenses_previous) "Travel") = 0.
Proof.
  split; [reflexivity|].
  assert (Hmissing : ~ In "Travel"%string (categoryNames expenses_current)).
  { cbn. intros [H|[H|[H|[]]]]; discriminate. }
  split; [exact Hmissing|].
  destruct (computeExpenseVariances_filtered_sorted expenses_current
              expenses_previous) as (_ & _ & _ & Hrow).
  destruct (Hrow "Travel"%string) as (_ & _ & Hcur & _).
  exact (Hcur Hmissing).
Defined.

(** ** The detectors on too little history *)

Section Detectors.

Variable numToString : number -> string.
Variable toLocaleString : number -> string.
Variable Math_sqrt : number -> number.

Lemma anomalyOf_in historical category a :
  In a (anomalyOf toLocaleString Math_sqrt historical category) ->
  AnomalyResult.metric a = ExpenseCategory.name category
  /\ (2 <= List.length (historicalValues historical category))%nat.
Proof.
  unfold anomalyOf.
  destruct (length_n (historicalValues historical category) <? 2) eqn:E;
    [intros []|].
  destruct (_ || _); [|intros []].
  intros [<-|[]]. split; [reflexivity|].
  reflect_cmp. unfold length_n in E.
  change 2 with (inject_Z 2) in E. rewrite <- Zle_Qle in E. lia.
Qed.

(** C8: [detectTrends] on fewer than 2 periods and [detectAnomalies] on
    fewer than 3 return the empty list; in [detectAnomalies] a category
    with fewer than 2 historical observations yields nothing, so that
    every anomaly reported is of a category of the latest period with at
    least 2 observations in the periods before. *)
Theorem detectors_need_history :
  (forall periods,
     (List.length periods < 2)%nat -> detectTrends numToString periods = [])
  /\ (forall periods,
        (List.length periods < 3)%nat ->
        detectAnomalies toLocaleString Math_sqrt periods = [])
  /\ (forall historical category,
        (List.length (historicalValues historical category) < 2)%nat ->
        anomalyOf toLocaleString Math_sqrt historical category = [])
  /\ (forall periods a,
        In a (detectAnomalies toLocaleString Math_sqrt periods) ->
        exists latest earlier category,
          rev periods = latest :: earlier
          /\ In category (ProfitAndLoss.expenseCategories latest)
          /\ AnomalyResult.metric a = ExpenseCategory.name category
          /\ (2 <= List.length
                     (historicalValues (removelast periods) category))%nat).
Proof.
  split; [|split; [|split]].
  - intros periods H. unfold detectTrends.
    destruct periods as [|p [|q l]]; cbn in H; try lia; reflexivity.
  - intros periods H. unfold detectAnomalies.
    destruct periods as [|p [|q [|r l]]]; cbn in H; try lia; reflexivity.
  - intros historical category H. unfold anomalyOf.
    destruct (historicalValues historical category) as [|x [|y l]];
      cbn in H; try lia; reflexivity.
  - intros periods a. unfold detectAnomalies.
    destruct (length_n periods <? 3); [intros []|].
    destruct (rev periods) as [|latest earlier]; [intros []|].
    intro Hin. apply sort_in in Hin. apply in_flat_map in Hin.
    destruct Hin as (category & Hcat & Hin).
    apply anomalyOf_in in Hin. destruct Hin as [Hmetric Hlen].
    exists latest, earlier, category. auto.
Qed.

End Detectors.

(** One period for the trends, two for the anomalies, one observation for
    a category. *)
Lemma detectors_need_history_witness :
  detectTrends render [revenue_100000] = []
  /\ detectAnomalies render (fun x => x) [expenses_previous; expenses_current] = []
  /\ anomalyOf render (fun x => x) [expenses_previous]
       (ExpenseCategory.mk "Rent" 1000) = [].
Proof.
  destruct (detectors_need_history render render (fun x => x))
    as (Htrends & Hanomalies & Hcategory & _).
  split; [apply Htrends; cbn; lia|].
  split; [apply Hanomalies; cbn; lia|].
  apply Hcategory. cbn. lia.
Defined.

(** ** The QuickBooks parser *)

Lemma byAmount_trans a b c : byAmount a b -> byAmount b c -> byAmount a c.
Proof.
  unfold byAmount. intros. lra.
Qed.

Section ParserFacts.

Variable parseFloat : string -> number.
Variable formatPeriodLabel : string -> string -> string.

(** Whatever the totals, the statement built from them has its categories
    in descending absolute amount. *)
Lemma statementOf_sorted period t :
  StronglySorted byAmount
    (ProfitAndLoss.expenseCategories (statementOf period t)).
Proof.
  cbn. apply sort_sorted.
  - intros x y H. unfold compareAmounts, byAmount, Math_abs in *.
    reflect_cmp. lra.
  - intros x y H. unfold compareAmounts, byAmount, Math_abs in *.
    reflect_cmp. lra.
  - exact byAmount_trans.
Qed.

(** The gross profit of a statement is the difference of revenue and cost
    of goods when the rows left it at 0 and the revenue is positive;
    otherwise it is what the rows left. *)
Lemma statementOf_grossProfit period t :
  let p := statementOf period t in
  (t_grossProfit t == 0 -> 0 < t_totalRevenue t ->
   ProfitAndLoss.grossProfit p
   = ProfitAndLoss.totalRevenue p - ProfitAndLoss.totalCogs p)
  /\ (~ (t_grossProfit t == 0 /\ 0 < t_totalRevenue t) ->
      ProfitAndLoss.grossProfit p = t_grossProfit t).
Proof.
  cbn. unfold deriveGrossProfit. split.
  - intros Hz Hpos. apply Qeq_bool_iff in Hz. apply Qlt_bool_iff in Hpos.
    rewrite Hz, Hpos. reflexivity.
  - intro Hnot.
    destruct (t_grossProfit t =? 0) eqn:Ez; [|reflexivity].
    destruct (t_totalRevenue t >? 0) eqn:Ep; [|reflexivity].
    reflect_cmp. exfalso. apply Hnot. split; assumption.
Qed.

(** Both parsers return the expense categories of every statement in
    descending absolute amount. *)
Lemma parsers_sorted report :
  StronglySorted byAmount
    (ProfitAndLoss.expenseCategories
       (parseProfitAndLoss parseFloat formatPeriodLabel report))
  /\ Forall
       (fun p => StronglySorted byAmount (ProfitAndLoss.expenseCategories p))
       (parseMonthlyPnL parseFloat report).
Proof.
  split.
  - apply statementOf_sorted.
  - unfold parseMonthlyPnL. apply Forall_forall. intros p Hin.
    apply in_map_iff in Hin. destruct Hin as ([colIdx col] & <- & _).
    apply statementOf_sorted.
Qed.

(** A row of another group leaves the gross profit as it is. *)
Lemma pnlRow_grossProfit t row :
  str_or (group row) "" <> "GrossProfit"%string ->
  t_grossProfit (pnlRow parseFloat t row) = t_grossProfit t.
Proof.
  intro Hgroup. unfold pnlRow.
  repeat match goal with
    | |- context [if ?b then _ else _] =>
        let E := fresh "E" in
        destruct b eqn:E; cbn [t_grossProfit]; try reflexivity
    end.
  apply String.eqb_eq in E1. contradiction.
Qed.

Lemma monthlyRow_grossProfit dataIdx t row :
  str_or (group row) "" <> "GrossProfit"%string ->
  t_grossProfit (monthlyRow parseFloat dataIdx t row) = t_grossProfit t.
Proof.
  intro Hgroup. unfold monthlyRow.
  repeat match goal with
    | |- context [if ?b then _ else _] =>
        let E := fresh "E" in
        destruct b eqn:E; cbn [t_grossProfit]; try reflexivity
    end.
  apply String.eqb_eq in E1. contradiction.
Qed.

Lemma rows_grossProfit (step : Totals -> QBReportRow -> Totals) rows t :
  (forall t row,
     str_or (group row) "" <> "GrossProfit"%string ->
     t_grossProfit (step t row) = t_grossProfit t) ->
  ~ In "GrossProfit"%string (map (fun row => str_or (group row) "") rows) ->
  t_grossProfit (fold_left step rows t) = t_grossProfit t.
Proof.
  intro Hstep. revert t. induction rows as [|row rows IH]; intros t Hnone; cbn.
  - reflexivity.
  - rewrite IH.
    + apply Hstep. intro Heq. apply Hnone. left. exact Heq.
    + intro Hin. apply Hnone. right. exact Hin.
Qed.

(** What holds of the gross profit of a report without a GrossProfit row:
    with a positive revenue it is the difference of revenue and cost of
    goods, otherwise it is 0. *)
Lemma parseProfitAndLoss_grossProfit report :
  ~ In "GrossProfit"%string (groupNames report) ->
  let p := parseProfitAndLoss parseFloat formatPeriodLabel report in
  (0 < ProfitAndLoss.totalRevenue p ->
   ProfitAndLoss.grossProfit p
   = ProfitAndLoss.totalRevenue p - ProfitAndLoss.totalCogs p)
  /\ (ProfitAndLoss.totalRevenue p <= 0 -> ProfitAndLoss.grossProfit p = 0).
Proof.
  intros Hnone p. unfold p, parseProfitAndLoss.
  set (t := fold_left (pnlRow parseFloat) (list_or (QBReport.Row report))
              zeroTotals).
  assert (Hgp : t_grossProfit t = 0).
  { unfold t. rewrite rows_grossProfit; [reflexivity| |exact Hnone].
    intros t' row. apply pnlRow_grossProfit. }
  cbn. unfold deriveGrossProfit. rewrite Hgp.
  change (0 =? 0) with true. cbn [andb].
  split; intro H.
  - apply Qlt_bool_iff in H. rewrite H. reflexivity.
  - apply Qlt_bool_false in H. rewrite H. reflexivity.
Qed.

Lemma parseMonthlyPnL_grossProfit report p :
  ~ In "GrossProfit"%string (groupNames report) ->
  In p (parseMonthlyPnL parseFloat report) ->
  (0 < ProfitAndLoss.totalRevenue p ->
   ProfitAndLoss.grossProfit p
   = ProfitAndLoss.totalRevenue p - ProfitAndLoss.totalCogs p)
  /\ (ProfitAndLoss.totalRevenue p <= 0 -> ProfitAndLoss.grossProfit p = 0).
Proof.
  intros Hnone Hin. unfold parseMonthlyPnL in Hin.
  apply in_map_iff in Hin. destruct Hin as ([colIdx col] & <- & _).
  set (t := fold_left (monthlyRow parseFloat (colIdx + 1))
              (list_or (QBReport.Row report)) zeroTotals).
  assert (Hgp : t_grossProfit t = 0).
  { unfold t. rewrite rows_grossProfit; [reflexivity| |exact Hnone].
    intros t' row. apply monthlyRow_grossProfit. }
  cbn. unfold deriveGrossProfit. rewrite Hgp.
  change (0 =? 0) with true. cbn [andb].
  split; intro H.
  - apply Qlt_bool_iff in H. rewrite H. reflexivity.
  - apply Qlt_bool_false in H. rewrite H. reflexivity.
Qed.

End ParserFacts.

(** C9 at a report without sales: there is no GrossProfit row, the revenue
    is 0 and the cost of goods 500, and both parsers return a gross profit of
    0, not the difference -500; the categories are sorted all the same. *)
Theorem parsers_grossProfit_without_sales :
  ~ In "GrossProfit"%string (groupNames report_without_sales)
  /\ (let p := parseProfitAndLoss parseDecimal plainLabel report_without_sales in
      ProfitAndLoss.totalRevenue p == 0
      /\ ProfitAndLoss.totalCogs p == 500
      /\ ProfitAndLoss.grossProfit p == 0
      /\ ~ ProfitAndLoss.grossProfit p
           == ProfitAndLoss.totalRevenue p - ProfitAndLoss.totalCogs p)
  /\ (exists p,
        parseMonthlyPnL parseDecimal report_without_sales = [p]
        /\ ProfitAndLoss.totalRevenue p == 0
        /\ ProfitAndLoss.totalCogs p == 500
        /\ ProfitAndLoss.grossProfit p == 0
        /\ ~ ProfitAndLoss.grossProfit p
             == ProfitAndLoss.totalRevenue p - ProfitAndLoss.totalCogs p).
Proof.
  split; [|split].
  - cbn. intros [H|[H|[H|[H|[]]]]]; discriminate.
  - cbv zeta. repeat split; try reflexivity. vm_compute. discriminate.
  - eexists. split; [reflexivity|].
    repeat split; try reflexivity. vm_compute. discriminate.
Qed.

(** ** The explanation layer *)

Lemma bind_run {A B} (m : Async A) (k : A -> Async B) w a w' :
  m w = (Returned a, w') -> bind m k w = k a w'.
Proof.
  unfold bind. intros ->. reflexivity.
Qed.

Section ExplanationFacts.

Variable numToString : number -> string.
Variable toLocaleString : number -> string.
Variable AI_MODEL : option string.
Variable SYSTEM_PROMPT : string.
Variable now : nat -> number.
Variable toISOString : number -> string.

(** [callAI] never throws: it returns the trimmed text, or no action with
    a line on the console. *)
Lemma callAI_run service prompt w :
  let c := service (requests w) (requestFor AI_MODEL SYSTEM_PROMPT prompt) in
  callAI service AI_MODEL SYSTEM_PROMPT prompt w
  = (Returned {| Explanation.action := actionFrom c |},
     mkWorld (S (requests w)) (clockReads w) (console w ++ logOf c)).
Proof.
  unfold callAI, tryCatch, bind, generateText, console_error, ret, requestFor.
  cbv zeta. destruct (service _ _); cbn; rewrite ?app_nil_r; reflexivity.
Qed.

Lemma varianceInsight_none service data insights w :
  significantVariances data = [] ->
  varianceInsight numToString toLocaleString service AI_MODEL SYSTEM_PROMPT
    now toISOString data insights w
  = (Returned insights, w).
Proof.
  unfold varianceInsight. intros ->. reflexivity.
Qed.

Lemma varianceInsight_some service data insights w v l :
  significantVariances data = v :: l ->
  let c :=
    service (requests w)
      (requestFor AI_MODEL SYSTEM_PROMPT
         (buildVariancePrompt numToString toLocaleString (v :: l)
            (MetricsData.current data) (MetricsData.previous data))) in
  varianceInsight numToString toLocaleString service AI_MODEL SYSTEM_PROMPT
    now toISOString data insights w
  = (Returned
       (insights ++
        [varianceInsightOf numToString toLocaleString (v :: l)
           {| Explanation.action := actionFrom c |}
           (now (clockReads w)) (toISOString (now (S (clockReads w))))]),
     afterRequest w c).
Proof.
  unfold varianceInsight. intros ->. cbv zeta. cbn [List.length Nat.ltb Nat.leb].
  erewrite bind_run by apply callAI_run. reflexivity.
Qed.

Lemma trendInsight_run service data insights trend w :
  let c :=
    service (requests w)
      (requestFor AI_MODEL SYSTEM_PROMPT
         (buildTrendPrompt numToString trend (MetricsData.ratios data))) in
  trendInsight numToString service AI_MODEL SYSTEM_PROMPT now toISOString
    data insights trend w
  = (Returned
       (insights ++
        [trendInsightOf numToString trend
           {| Explanation.action := actionFrom c |}
           (now (clockReads w)) (toISOString (now (S (clockReads w))))]),
     afterRequest w c).
Proof.
  unfold trendInsight. cbv zeta.
  erewrite bind_run by apply callAI_run. reflexivity.
Qed.

Lemma anomalyInsight_run insights anomaly w :
  anomalyInsight numToString now toISOString insights anomaly w
  = (Returned
       (insights ++
        [anomalyInsightOf numToString anomaly
           (now (clockReads w)) (toISOString (now (S (clockReads w))))]),
     afterClock w).
Proof.
  reflexivity.
Qed.

Lemma healthInsight_none data insights w :
  decliningRatios data = [] ->
  healthInsight numToString now toISOString data insights w
  = (Returned insights, w).
Proof.
  unfold healthInsight. intros ->. reflexivity.
Qed.

Lemma healthInsight_some data insights w r l :
  decliningRatios data = r :: l ->
  healthInsight numToString now toISOString data insights w
  = (Returned
       (insights ++
        [healthInsightOf numToString (r :: l)
           (now (clockReads w)) (toISOString (now (S (clockReads w))))]),
     afterClock w).
Proof.
  unfold healthInsight. intros ->. reflexivity.
Qed.

End ExplanationFacts.

(** Runs a sequence of blocks of [generateInsightsFromMetrics] from a given
    world. *)
Ltac run_block :=
  first
    [ apply trendInsight_run
    | apply anomalyInsight_run
    | apply varianceInsight_none; assumption
    | eapply varianceInsight_some; eassumption
    | apply healthInsight_none; assumption
    | eapply healthInsight_some; eassumption ].

Ltac run_async :=
  cbv beta;
  lazymatch goal with
  | |- bind _ _ _ = _ => eapply eq_trans; [apply bind_run; run_async|run_async]
  | |- forOf (_ :: _) _ _ _ = _ => cbn [forOf]; run_async
  | |- forOf [] _ _ _ = _ => reflexivity
  | |- ret _ _ = _ => reflexivity
  | |- _ => run_block
  end.

(** C1: whatever the text-generation service answers to each request,
    [generateInsightsFromMetrics] returns (no exception leaves it); the list
    holds one insight per category to emit, in order; the insight of the
    k-th request carries the trimmed text as its [action] when that request
    succeeded and no [action] when it failed; and apart from the [action]
    fields the list is the one returned under any other behaviour of the
    service. *)
Theorem insights_survive_failures numToString toLocaleString AI_MODEL
  SYSTEM_PROMPT now toISOString service data w :
  exists insights w',
    generateInsightsFromMetrics numToString toLocaleString service AI_MODEL
      SYSTEM_PROMPT now toISOString data w = (Returned insights, w')
    /\ map AIInsight.type insights = categories data
    /\ (forall k prompt,
          nth_error (prompts numToString toLocaleString data) k = Some prompt ->
          exists insight,
            nth_error insights k = Some insight
            /\ AIInsight.action insight
               = actionFrom
                   (service (k + requests w)%nat
                      (requestFor AI_MODEL SYSTEM_PROMPT prompt)))
    /\ (forall service',
          exists insights' w'',
            generateInsightsFromMetrics numToString toLocaleString service'
              AI_MODEL SYSTEM_PROMPT now toISOString data w
            = (Returned insights', w'')
            /\ map withoutAction insights' = map withoutAction insights).
Proof.
  unfold generateInsightsFromMetrics, prompts, categories.
  destruct (significantVariances data) as [|v vs] eqn:Esv;
    destruct (MetricsData.trends data) as [|t1 [|t2 ts]] eqn:Et;
    destruct (MetricsData.anomalies data) as [|a1 [|a2 as_]] eqn:Ea;
    destruct (decliningRatios data) as [|r rs] eqn:Ed;
    cbn [firstn List.length Nat.ltb Nat.leb map app];
    (do 2 eexists; split; [run_async|]);
    (split; [reflexivity|]);
    (split;
     [ intros k prompt Hk;
       repeat (destruct k as [|k]; cbn [nth_error] in Hk;
               [injection Hk as <-; eexists; split; reflexivity|]);
       try discriminate Hk;
       destruct k; discriminate Hk
     | intro service'; do 2 eexists; split; [run_async|reflexivity] ]).
Qed.

(** Scenario 5: the request for the variance insight is answered, the one
    for the trend insight fails; both insights are returned, the second
    without [action]. *)
Lemma insights_survive_failures_witness :
  exists v t w',
    generateInsightsFromMetrics render render scenario5_service None
      "You are the Business Health Interpreter" epoch render scenario5_data
      world0 = (Returned [v; t], w')
    /\ AIInsight.type v = ins_variance
    /\ AIInsight.action v = Some "Review your pricing."%string
    /\ AIInsight.type t = ins_trend
    /\ AIInsight.action t = None.
Proof.
  destruct (insights_survive_failures render render None
              "You are the Business Health Interpreter" epoch render
              scenario5_service scenario5_data world0)
    as (insights & w' & Hrun & Htypes & Hactions & _).
  assert (Hc : categories scenario5_data = [ins_variance; ins_trend])
    by (vm_compute; reflexivity).
  rewrite Hc in Htypes.
  destruct insights as [|v [|t [|x insights]]]; try discriminate Htypes.
  injection Htypes as Hv Ht.
  exists v, t, w'. split; [exact Hrun|].
  destruct (Hactions 0%nat _ eq_refl) as (i0 & Hi0 & Ha0).
  destruct (Hactions 1%nat _ eq_refl) as (i1 & Hi1 & Ha1).
  injection Hi0 as <-. injection Hi1 as <-.
  repeat split; assumption.
Defined.


(** ** The scenarios in binary64

    At the inputs used above, the floating-point arithmetic of JavaScript
    takes the same branches as the rational model. *)
Module Binary64Facts.
Import PrimFloat Binary64.
Local Open Scope float_scope.

(** Revenue 120,000 against 100,000: the raw percentage is 20 exactly, which
    is not above 20 and is above 10. *)
Example binary64_revenue_120000 :
  rawPercentChange64 120000 100000 = 20
  /\ (20 <? abs (rawPercentChange64 120000 100000)) = false
  /\ (10 <? abs (rawPercentChange64 120000 100000)) = true.
Proof.
  repeat split; reflexivity.
Qed.

(** Revenue 120,040 against 100,000: the raw percentage is above 20, and ten
    times it rounds to 200, so that the returned [percentChange] is 20. *)
Example binary64_revenue_120040 :
  (20 <? abs (rawPercentChange64 120040 100000)) = true
  /\ roundsTo (rawPercentChange64 120040 100000 * 10) 200 = true
  /\ 200 / 10 = 20.
Proof.
  repeat split; reflexivity.
Qed.

(** A balance of 15,000 over a burn of 5,000: a runway of 3 exactly, not
    below 3, below 6. *)
Example binary64_runway :
  runwayMonths64 15000 20000 15000 = 3
  /\ (runwayMonths64 15000 20000 15000 <? 3) = false
  /\ (runwayMonths64 15000 20000 15000 <? 6) = true
  /\ roundsTo (runwayMonths64 15000 20000 15000 * 10) 30 = true.
Proof.
  repeat split; reflexivity.
Qed.

End Binary64Facts.


(** * Further properties *)

(** ** Rounding *)

Lemma Math_round_le (x : number) (z : Z) :
  x <= inject_Z z -> Math_round x <= inject_Z z.
Proof.
  intro H. unfold Math_round. rewrite <- Zle_Qle.
  assert (Hlt : inject_Z (Qfloor (x + (1 # 2))) < inject_Z (z + 1)).
  { eapply Qle_lt_trans; [apply Qfloor_le|].
    rewrite inject_Z_plus. change (inject_Z 1) with 1. lra. }
  rewrite <- Zlt_Qlt in Hlt. lia.
Qed.

Lemma Math_round_ge (x : number) (z : Z) :
  inject_Z z <= x -> inject_Z z <= Math_round x.
Proof.
  intro H. unfold Math_round. rewrite <- Zle_Qle.
  assert (Hle : (Qfloor (inject_Z z) <= Qfloor (x + (1 # 2)))%Z).
  { apply Qfloor_resp_le. lra. }
  rewrite Qfloor_Z in Hle. exact Hle.
Qed.

Lemma round1_zero : round1 0 == 0.
Proof.
  reflexivity.
Qed.

Lemma round1_nonneg (x : number) : 0 <= x -> 0 <= round1 x.
Proof.
  intro H. unfold round1.
  assert (H0 : inject_Z 0 <= Math_round (x * 10)).
  { apply Math_round_ge. change (inject_Z 0) with 0. lra. }
  change (inject_Z 0) with 0 in H0.
  apply Qle_shift_div_l; lra.
Qed.

(** ** More on [computeVariances] *)

(** X1: the direction of a headline variance follows the sign of the
    absolute change, whatever the rounding of the percentage: up exactly for
    a positive change, down exactly for a negative one, flat exactly for
    none. *)
Theorem computeVariances_direction current previous v :
  In v (computeVariances current previous) ->
  VarianceResult.absoluteChange v
  = VarianceResult.currentValue v - VarianceResult.previousValue v
  /\ (VarianceResult.direction v = up <-> 0 < VarianceResult.absoluteChange v)
  /\ (VarianceResult.direction v = down <-> VarianceResult.absoluteChange v < 0)
  /\ (VarianceResult.direction v = flat <-> VarianceResult.absoluteChange v == 0).
Proof.
  intro Hin.
  destruct (computeVariances_row _ _ _ Hin) as (_ & Habs & Hdir & _).
  split; [exact Habs|]. rewrite Hdir. unfold directionOf.
  destruct (Qlt_bool 0 (VarianceResult.absoluteChange v)) eqn:Eup;
    [|destruct (Qlt_bool (VarianceResult.absoluteChange v) 0) eqn:Edown];
    reflect_cmp; repeat split; intros; try discriminate; try lra;
    try reflexivity.
Qed.

(** Revenue up from 100,000 to 110,000. *)
Lemma computeVariances_direction_witness :
  exists v,
    varianceNamed "Revenue" (computeVariances april march) = Some v
    /\ VarianceResult.absoluteChange v == 10000
    /\ VarianceResult.direction v = up.
Proof.
  eexists. split; [reflexivity|].
  match goal with
  | |- VarianceResult.absoluteChange ?v == _ /\ _ =>
      destruct (computeVariances_direction april march v) as (Habs & Hup & _ & _);
        [left; reflexivity|]
  end.
  split; [reflexivity|]. apply Hup. reflexivity.
Defined.

Lemma in_filter_keys {A} (f : string * A -> bool) (l : list (string * A)) k x :
  NoDup (map fst l) -> In (k, x) l ->
  (In k (map fst (filter f l)) <-> f (k, x) = true).
Proof.
  intros Hnodup Hin. split.
  - intro H. apply in_map_iff in H. destruct H as ([k' x'] & Hk & Hf).
    cbn in Hk. subst k'. apply filter_In in Hf. destruct Hf as [Hin' Hf].
    assert (x' = x); [|subst; exact Hf].
    clear Hf. induction l as [|[k0 x0] l IH]; [destruct Hin|].
    cbn in Hnodup. inversion Hnodup as [|? ? Hnotin Hrest]; subst.
    destruct Hin as [Heq|Hin], Hin' as [Heq'|Hin'].
    + congruence.
    + injection Heq as -> ->. exfalso. apply Hnotin.
      apply in_map_iff. exists (k, x'). split; [reflexivity|exact Hin'].
    + injection Heq' as -> ->. exfalso. apply Hnotin.
      apply in_map_iff. exists (k, x). split; [reflexivity|exact Hin].
    + apply IH; assumption.
  - intro Hf. apply in_map_iff. exists (k, x). split; [reflexivity|].
    apply filter_In. split; assumption.
Qed.

Lemma NoDup_map_filter {A B} (g : A -> B) (f : A -> bool) l :
  NoDup (map g l) -> NoDup (map g (filter f l)).
Proof.
  induction l as [|x l IH]; cbn; intro H; [constructor|].
  inversion H as [|? ? Hnotin Hrest]; subst.
  destruct (f x); cbn; [constructor|]; auto.
  intro Hin. apply Hnotin. apply in_map_iff in Hin.
  destruct Hin as (y & Hy & Hin). apply filter_In in Hin.
  apply in_map_iff. exists y. tauto.
Qed.

Lemma computeVariances_metrics current previous :
  map VarianceResult.metric (computeVariances current previous)
  = map fst
      (filter
         (fun m : string * (number * number) =>
            let '(_, (cur, prev)) := m in (prev <>? 0) || (cur <>? 0))
         (headline_metrics current previous)).
Proof.
  unfold computeVariances. rewrite map_map.
  apply map_ext. intros [metric [cur prev]]. reflexivity.
Qed.

Lemma headline_metrics_NoDup current previous :
  NoDup (map fst (headline_metrics current previous)).
Proof.
  cbn. repeat constructor; cbn; intuition discriminate.
Qed.

(** X2: [computeVariances] leaves a headline metric out exactly when its
    current and its previous value are both 0; it returns at most five
    variances, no metric twice. *)
Theorem computeVariances_skips_zero_pairs current previous :
  (List.length (computeVariances current previous) <= 5)%nat
  /\ NoDup (map VarianceResult.metric (computeVariances current previous))
  /\ (forall metric cur prev,
        In (metric, (cur, prev)) (headline_metrics current previous) ->
        (In metric
           (map VarianceResult.metric (computeVariances current previous))
         <-> ~ (cur == 0 /\ prev == 0))).
Proof.
  split; [|split].
  - unfold computeVariances. rewrite length_map.
    etransitivity; [apply filter_length_le|]. cbn. lia.
  - rewrite computeVariances_metrics. apply NoDup_map_filter.
    apply headline_metrics_NoDup.
  - intros metric cur prev Hin. rewrite computeVariances_metrics.
    rewrite (in_filter_keys _ _ _ _ (headline_metrics_NoDup current previous) Hin).
    destruct (Qeq_bool prev 0) eqn:Ep, (Qeq_bool cur 0) eqn:Ec; cbn;
      reflect_cmp; split; intros; try discriminate; try reflexivity; tauto.
Qed.

(** April against March: no period has a cost of goods of 0, all five
    metrics are returned. *)
Lemma computeVariances_skips_zero_pairs_witness :
  In "Cost of Goods Sold"%string
    (map VarianceResult.metric (computeVariances april march))
  /\ ~ In "Cost of Goods Sold"%string
        (map VarianceResult.metric
           (computeVariances revenue_120000 revenue_100000)).
Proof.
  destruct (computeVariances_skips_zero_pairs april march) as (_ & _ & H1).
  destruct (computeVariances_skips_zero_pairs revenue_120000 revenue_100000)
    as (_ & _ & H2).
  split.
  - apply (H1 "Cost of Goods Sold"%string 33000 30000).
    + cbn. tauto.
    + intros [H _]. discriminate H.
  - intro Hin.
    apply (H2 "Cost of Goods Sold"%string 0 0) in Hin.
    + apply Hin. split; reflexivity.
    + cbn. tauto.
Defined.

(** X3: a headline metric that rises from a previous value of 0 is reported
    with a [percentChange] of 0 and significance low, whatever the current
    value. *)
Theorem computeVariances_from_zero current previous v :
  In v (computeVariances current previous) ->
  VarianceResult.previousValue v == 0 ->
  VarianceResult.percentChange v == 0
  /\ VarianceResult.significance v = low
  /\ ~ VarianceResult.currentValue v == 0.
Proof.
  intros Hin Hzero.
  destruct (computeVariances_row _ _ _ Hin) as (Hpc & _ & _ & Hsig).
  assert (Hraw : rawPercentChange (VarianceResult.currentValue v)
                   (VarianceResult.previousValue v) = 0).
  { unfold rawPercentChange. apply Qeq_bool_iff in Hzero. rewrite Hzero.
    reflexivity. }
  rewrite Hraw in Hpc, Hsig. split; [rewrite Hpc; reflexivity|].
  split; [rewrite Hsig; reflexivity|].
  unfold computeVariances in Hin. apply in_map_iff in Hin.
  destruct Hin as ([metric [cur prev]] & <- & Hkeep).
  apply filter_In in Hkeep. destruct Hkeep as [_ Hkeep].
  cbn in *. apply Qeq_bool_iff in Hzero. rewrite Hzero in Hkeep.
  cbn in Hkeep. apply negb_true_iff in Hkeep. apply Qeq_bool_false in Hkeep.
  exact Hkeep.
Qed.

(** A first month of sales after a month without any. *)
Lemma computeVariances_from_zero_witness :
  exists v,
    varianceNamed "Revenue"
      (computeVariances revenue_100000 (statement 0 0 0 500 (-500) []))
    = Some v
    /\ VarianceResult.currentValue v == 100000
    /\ VarianceResult.percentChange v == 0
    /\ VarianceResult.significance v = low.
Proof.
  eexists. split; [reflexivity|]. split; [reflexivity|].
  match goal with
  | |- VarianceResult.percentChange ?v == _ /\ _ =>
      destruct (computeVariances_from_zero revenue_100000
                  (statement 0 0 0 500 (-500) []) v) as (Hpc & Hsig & _);
        [left; reflexivity|reflexivity|]
  end.
  split; assumption.
Defined.

(** ** More on [computeExpenseVariances] *)

Lemma Set_add_NoDup s k : NoDup s -> NoDup (Set_add s k).
Proof.
  intro H. unfold Set_add. destruct (Set_has s k) eqn:E; [exact H|].
  apply Set_has_false in E.
  apply NoDup_rev in H. rewrite <- (rev_involutive (s ++ [k])).
  apply NoDup_rev. rewrite rev_app_distr. cbn. constructor; [|exact H].
  intro Hin. apply E. apply in_rev. exact Hin.
Qed.

Lemma Set_new_NoDup ks : NoDup (Set_new ks).
Proof.
  unfold Set_new.
  assert (H : forall s, NoDup s -> NoDup (fold_left Set_add ks s)).
  { induction ks as [|k ks IH]; intros s Hs; cbn; [exact Hs|].
    apply IH, Set_add_NoDup, Hs. }
  apply H. constructor.
Qed.

Lemma NoDup_rows {A} (row : string -> A) (metric : A -> string)
  (keep : A -> bool) names :
  (forall name, metric (row name) = name) ->
  NoDup names -> NoDup (map metric (filter keep (map row names))).
Proof.
  intros Hmetric Hnodup. apply NoDup_map_filter.
  rewrite map_map. rewrite (map_ext _ (fun x => x)) by exact Hmetric.
  rewrite map_id. exact Hnodup.
Qed.

(** X4: [computeExpenseVariances] returns every category name at most once,
    also when a period lists a name twice, and never a category whose
    previous amount is 0: a category that is new in the current period is
    not reported, however large. *)
Theorem computeExpenseVariances_drops_new_categories current previous :
  let out := computeExpenseVariances current previous in
  NoDup (map VarianceResult.metric out)
  /\ (forall v, In v out -> ~ VarianceResult.previousValue v == 0)
  /\ (forall name,
        ~ In name (categoryNames previous) ->
        ~ In name (map VarianceResult.metric out)).
Proof.
  intro out.
  assert (Hprev : forall v, In v out -> ~ VarianceResult.previousValue v == 0).
  { intros v Hin Hzero. unfold out, computeExpenseVariances in Hin.
    apply sort_in in Hin. apply filter_In in Hin. destruct Hin as [Hin Hkeep].
    apply in_map_iff in Hin. destruct Hin as (name & <- & _).
    unfold expenseVarianceOf in *.
    cbn [VarianceResult.percentChange VarianceResult.previousValue] in *.
    unfold rawPercentChange in Hkeep. apply Qeq_bool_iff in Hzero.
    rewrite Hzero in Hkeep. cbn in Hkeep. discriminate Hkeep. }
  split; [|split; [exact Hprev|]].
  - unfold out, computeExpenseVariances.
    eapply Permutation_NoDup.
    + apply Permutation_map, sort_perm.
    + apply NoDup_rows; [reflexivity|apply Set_new_NoDup].
  - intros name Hmissing Hin. apply in_map_iff in Hin.
    destruct Hin as (v & Hmetric & Hin). apply (Hprev v Hin).
    unfold out, computeExpenseVariances in Hin.
    apply sort_in in Hin. apply filter_In in Hin. destruct Hin as [Hin _].
    apply in_map_iff in Hin. destruct Hin as (name' & <- & _).
    cbn in Hmetric. subst name'.
    unfold expenseVarianceOf. cbn [VarianceResult.previousValue].
    rewrite Map_get_absent; [reflexivity|].
    rewrite categoryAmounts_keys. exact Hmissing.
Qed.

(** April lists Ads twice and March not at all: Ads is not reported;
    Payroll and Travel are, each once. *)
Lemma computeExpenseVariances_drops_new_categories_witness :
  map VarianceResult.metric (computeExpenseVariances april march)
  = ["Payroll"; "Travel"]%string
  /\ ~ In "Ads"%string
        (map VarianceResult.metric (computeExpenseVariances april march)).
Proof.
  split; [reflexivity|].
  destruct (computeExpenseVariances_drops_new_categories april march)
    as (_ & _ & Hnew).
  apply Hnew. cbn. intros [H|[H|[H|[]]]]; discriminate.
Defined.

(** ** More on [computeRatios] *)

(** X5: [computeRatios] returns between three and five ratios, no name
    twice, Gross Margin, Profit Margin and Expense Ratio in front. *)
Theorem computeRatios_layout current previous cashPosition :
  let ratios := computeRatios current previous cashPosition in
  (3 <= List.length ratios <= 5)%nat
  /\ NoDup (map RatioResult.name ratios)
  /\ firstn 3 (map RatioResult.name ratios)
     = ["Gross Margin"; "Profit Margin"; "Expense Ratio"]%string.
Proof.
  cbv zeta. rewrite computeRatios_eq.
  destruct previous as [p|];
    [destruct (ProfitAndLoss.totalRevenue p >? 0)|];
    (destruct cashPosition as [cp|];
     [destruct (ProfitAndLoss.totalExpenses current >? 0)|]);
    cbn; (split; [lia|]); (split; [|reflexivity]);
    repeat constructor; cbn; intuition discriminate.
Qed.

(** The Cash Runway ratio found by name. *)
Lemma ratioNamed_cash_runway current previous cashPosition :
  ratioNamed "Cash Runway" (computeRatios current previous cashPosition)
  = match cashPosition with
    | Some cp =>
        if ProfitAndLoss.totalExpenses current >? 0
        then
          let monthlyBurn :=
            ProfitAndLoss.totalExpenses current
            - ProfitAndLoss.totalRevenue current in
          let runwayMonths :=
            if monthlyBurn >? 0
            then CashPosition.currentBalance cp / monthlyBurn
            else 99 in
          Some
            {| RatioResult.name := "Cash Runway";
               RatioResult.value := round1 (Math_min runwayMonths 99);
               RatioResult.previousValue := None;
               RatioResult.trend :=
                 if runwayMonths <? 3 then declining
                 else if runwayMonths <? 6 then stable
                 else improving;
               RatioResult.description :=
                 "Months your cash will last at current spending" |}
        else None
    | None => None
    end.
Proof.
  rewrite computeRatios_eq. unfold ratioNamed.
  destruct previous as [p|];
    [destruct (ProfitAndLoss.totalRevenue p >? 0)|];
    (destruct cashPosition as [cp|];
     [destruct (ProfitAndLoss.totalExpenses current >? 0)|]);
    reflexivity.
Qed.

Lemma round1_min_99 run : round1 (Math_min run 99) <= 99.
Proof.
  unfold round1. apply Qle_shift_div_r; [reflexivity|].
  change (99 * 10) with (inject_Z 990). apply Math_round_le.
  change (inject_Z 990) with (99 * 10). unfold Math_min.
  destruct (run <=? 99) eqn:E; reflect_cmp; lra.
Qed.

(** X6: a Cash Runway ratio is emitted exactly when a cash position is
    supplied and the expenses of the period are positive; its value never
    exceeds 99, and when the expenses do not exceed the revenue it is 99
    with trend improving. *)
Theorem computeRatios_cash_runway current previous cashPosition :
  let ratios := computeRatios current previous cashPosition in
  ((exists r, ratioNamed "Cash Runway" ratios = Some r)
   <-> (exists cp, cashPosition = Some cp)
       /\ 0 < ProfitAndLoss.totalExpenses current)
  /\ (forall r,
        ratioNamed "Cash Runway" ratios = Some r ->
        RatioResult.value r <= 99
        /\ (ProfitAndLoss.totalExpenses current
            <= ProfitAndLoss.totalRevenue current ->
            RatioResult.value r == 99 /\ RatioResult.trend r = improving)).
Proof.
  cbv zeta. rewrite ratioNamed_cash_runway.
  destruct cashPosition as [cp|].
  - destruct (ProfitAndLoss.totalExpenses current >? 0) eqn:Ee; reflect_cmp.
    + split.
      * split; [intros _; split; [eexists; reflexivity|exact Ee]|].
        intros _. eexists. reflexivity.
      * intros r Hr. injection Hr as <-.
        cbn [RatioResult.value RatioResult.trend].
        split; [apply round1_min_99|]. intro Hnoburn.
        assert (E : (ProfitAndLoss.totalExpenses current
                     - ProfitAndLoss.totalRevenue current >? 0) = false)
          by (apply Qlt_bool_false; lra).
        rewrite E. split; reflexivity.
    + split; [|intros r Hr; discriminate Hr].
      split; [intros [r Hr]; discriminate Hr|].
      intros [_ Hpos]. lra.
  - split; [|intros r Hr; discriminate Hr].
    split; [intros [r Hr]; discriminate Hr|].
    intros [[cp Hcp] _]. discriminate Hcp.
Qed.

(** A month that burns 5,000 with 200,000 at the bank has 40 months left;
    a month with a profit has 99. *)
Lemma computeRatios_cash_runway_witness :
  (exists r,
     ratioNamed "Cash Runway" (computeRatios burning_month None (Some cash_200000))
     = Some r
     /\ RatioResult.value r == 40)
  /\ (exists r,
        ratioNamed "Cash Runway" (computeRatios april None (Some cash_14000))
        = Some r
        /\ RatioResult.value r == 99
        /\ RatioResult.trend r = improving).
Proof.
  split.
  - eexists. split; reflexivity.
  - destruct (computeRatios_cash_runway april None (Some cash_14000))
      as [[_ Hemit] Hvalue].
    destruct Hemit as [r Hr].
    { split; [eexists; reflexivity|reflexivity]. }
    exists r. split; [exact Hr|].
    apply (Hvalue r Hr). cbn. discriminate.
Defined.

(** X7: a previous period without positive revenue counts as no previous
    period at all, and with no previous period the three margins come
    without [previousValue] and with trend stable, and Revenue Growth is
    left out. *)
Theorem computeRatios_without_previous current p cashPosition :
  ProfitAndLoss.totalRevenue p <= 0 ->
  computeRatios current (Some p) cashPosition
  = computeRatios current None cashPosition
  /\ ratioNamed "Revenue Growth" (computeRatios current None cashPosition) = None
  /\ (forall r,
        In r (computeRatios current None cashPosition) ->
        RatioResult.previousValue r = None
        /\ (RatioResult.name r <> "Cash Runway"%string ->
            RatioResult.trend r = stable)).
Proof.
  intro Hrev. apply Qlt_bool_false in Hrev.
  rewrite !computeRatios_eq. unfold prevMarginOf. rewrite Hrev.
  split; [reflexivity|]. unfold ratioNamed.
  destruct cashPosition as [cp|];
    [destruct (ProfitAndLoss.totalExpenses current >? 0)|];
    (split; [reflexivity|]);
    intros r Hin; cbn in Hin;
    repeat (destruct Hin as [<-|Hin]); try contradiction;
    cbn; split; try reflexivity; intro Hname; try reflexivity;
    exfalso; apply Hname; reflexivity.
Qed.

(** A previous month with refunds above sales. *)
Lemma computeRatios_without_previous_witness :
  computeRatios april (Some revenue_negative) None = computeRatios april None None
  /\ map RatioResult.trend (computeRatios april (Some revenue_negative) None)
     = [stable; stable; stable].
Proof.
  destruct (computeRatios_without_previous april revenue_negative None)
    as (Heq & _ & _).
  { cbn. discriminate. }
  split; [exact Heq|reflexivity].
Defined.

(** ** More on [detectDirection] and [detectTrends] *)

Lemma countSteps_rising rest prev ups downs :
  risingFrom prev rest ->
  countSteps prev rest ups downs = ((ups + List.length rest)%nat, downs).
Proof.
  revert prev ups. induction rest as [|v rest IH]; intros prev ups H; cbn.
  - f_equal. lia.
  - destruct H as [Hstep Hrest].
    assert (E1 : (v - prev >? Math_abs prev * 0.03) = true)
      by (apply Qlt_bool_iff; exact Hstep).
    rewrite E1, (IH v (S ups) Hrest). f_equal. lia.
Qed.

Lemma countSteps_calm rest prev ups downs :
  calmFrom prev rest -> countSteps prev rest ups downs = (ups, downs).
Proof.
  revert prev. induction rest as [|v rest IH]; intros prev H; cbn.
  - reflexivity.
  - destruct H as [Hstep Hrest].
    assert (Hup : v - prev <= Qabs (v - prev)) by apply Qle_Qabs.
    assert (Hdown : - (v - prev) <= Qabs (v - prev)).
    { rewrite <- Qabs_opp. apply Qle_Qabs. }
    assert (E1 : (v - prev >? Math_abs prev * 0.03) = false)
      by (apply Qlt_bool_false; unfold Math_abs; lra).
    assert (E2 : (v - prev <? - (Math_abs prev * 0.03)) = false)
      by (apply Qlt_bool_false; unfold Math_abs; lra).
    rewrite E1, E2. apply IH, Hrest.
Qed.

Lemma of_nat_S n : of_nat (S n) == of_nat n + 1.
Proof.
  unfold of_nat. rewrite Nat2Z.inj_succ, <- Z.add_1_r, inject_Z_plus.
  reflexivity.
Qed.

Lemma of_nat_nonneg n : 0 <= of_nat n.
Proof.
  unfold of_nat. change 0 with (inject_Z 0). rewrite <- Zle_Qle. lia.
Qed.

Lemma detectDirection_calm values :
  (2 <= List.length values)%nat ->
  calm values -> detectDirection values = steady.
Proof.
  intros Hlen H. destruct values as [|v0 [|v1 rest]]; cbn in Hlen; try lia.
  set (tail := v1 :: rest) in *.
  assert (Htotal : length_n (v0 :: tail) - 1 == of_nat (List.length tail)).
  { unfold length_n. change (inject_Z (Z.of_nat (List.length (v0 :: tail))))
      with (of_nat (S (List.length tail))). rewrite of_nat_S. lra. }
  assert (Hpos : 1 <= of_nat (List.length tail)).
  { subst tail. cbn [List.length]. rewrite of_nat_S.
    pose proof (of_nat_nonneg (List.length rest)). lra. }
  unfold detectDirection. cbn [calm] in H.
  rewrite (countSteps_calm tail v0 0 0 H).
  assert (E0 : (of_nat 0 >=? (length_n (v0 :: tail) - 1) * 0.7) = false).
  { apply Qle_bool_false. rewrite Htotal. change (of_nat 0) with 0. lra. }
  rewrite E0. reflexivity.
Qed.

(** X9: a series of at least two values is increasing when every step
    rises by more than 3% of the value before, decreasing when every step
    falls by more than 3%, and stable when every step stays within 3%. *)
Theorem detectDirection_uniform_steps values :
  (2 <= List.length values)%nat ->
  (rising values -> detectDirection values = increasing)
  /\ (falling values -> detectDirection values = decreasing)
  /\ (calm values -> detectDirection values = steady).
Proof.
  intro Hlen. destruct values as [|v0 [|v1 rest]]; cbn in Hlen; try lia.
  set (tail := v1 :: rest).
  assert (Htotal : length_n (v0 :: tail) - 1 == of_nat (List.length tail)).
  { unfold length_n. change (inject_Z (Z.of_nat (List.length (v0 :: tail))))
      with (of_nat (S (List.length tail))). rewrite of_nat_S. lra. }
  assert (Hpos : 1 <= of_nat (List.length tail)).
  { subst tail. cbn [List.length]. rewrite of_nat_S.
    pose proof (of_nat_nonneg (List.length rest)). lra. }
  unfold detectDirection. cbn [rising falling calm].
  split; [|split]; intro H.
  - rewrite (countSteps_rising tail v0 0 0 H). cbn [Nat.add].
    assert (E : (of_nat (List.length tail) >=? (length_n (v0 :: tail) - 1) * 0.7)
                = true) by (apply Qle_bool_iff; rewrite Htotal; lra).
    rewrite E. reflexivity.
  - rewrite (countSteps_falling tail v0 0 0 H). cbn [Nat.add].
    assert (E0 : (of_nat 0 >=? (length_n (v0 :: tail) - 1) * 0.7) = false).
    { apply Qle_bool_false. rewrite Htotal. change (of_nat 0) with 0. lra. }
    assert (E : (of_nat (List.length tail) >=? (length_n (v0 :: tail) - 1) * 0.7)
                = true) by (apply Qle_bool_iff; rewrite Htotal; lra).
    rewrite E0, E. reflexivity.
  - rewrite (countSteps_calm tail v0 0 0 H).
    assert (E0 : (of_nat 0 >=? (length_n (v0 :: tail) - 1) * 0.7) = false).
    { apply Qle_bool_false. rewrite Htotal. change (of_nat 0) with 0. lra. }
    rewrite E0. reflexivity.
Qed.

(** Three rising values, three falling ones, three that hardly move. *)
Lemma detectDirection_uniform_steps_witness :
  detectDirection [100; 110; 121] = increasing
  /\ detectDirection [100; 90; 81] = decreasing
  /\ detectDirection [100; 101; 100] = steady.
Proof.
  destruct (detectDirection_uniform_steps [100; 110; 121]) as (H1 & _ & _);
    [cbn; lia|].
  destruct (detectDirection_uniform_steps [100; 90; 81]) as (_ & H2 & _);
    [cbn; lia|].
  destruct (detectDirection_uniform_steps [100; 101; 100]) as (_ & _ & H3);
    [cbn; lia|].
  split; [apply H1|split; [apply H2|apply H3]];
    cbn; repeat split; first [reflexivity|discriminate].
Defined.

Section MoreTrends.

Variable numToString : number -> string.

Lemma trendOf_magnitude periods metric label t :
  In t (trendOf numToString periods (metric, label)) ->
  0 <= TrendResult.magnitude t.
Proof.
  unfold trendOf.
  destruct (negb (trendDirection_eqb (detectDirection (map metric periods)) steady));
    [|intros []].
  intros [<-|[]]. cbn [TrendResult.magnitude]. apply round1_nonneg.
  destruct (hd 0 (map metric periods) <>? 0).
  - unfold Math_abs. apply Qabs_nonneg.
  - lra.
Qed.

Lemma trendOf_in periods metric label t :
  In t (trendOf numToString periods (metric, label)) ->
  TrendResult.metric t = label
  /\ TrendResult.periods t = length_n periods
  /\ TrendResult.direction t = detectDirection (map metric periods)
  /\ TrendResult.direction t <> steady.
Proof.
  destruct (trendOf_cases numToString periods metric label)
    as [->|(t' & -> & Hm & Hp & Hd & Hns)]; [intros []|].
  intros [<-|[]]. rewrite Hd. auto.
Qed.

(** X10: [detectTrends] reports at most one trend per metric, hence at most
    four, none of them stable; each spans all the periods given, at least
    two, and its magnitude is not negative, also for a decreasing trend. *)
Theorem detectTrends_shape periods :
  let out := detectTrends numToString periods in
  (List.length out <= 4)%nat
  /\ NoDup (map TrendResult.metric out)
  /\ (forall t,
        In t out ->
        TrendResult.direction t <> steady
        /\ TrendResult.periods t = length_n periods
        /\ 2 <= TrendResult.periods t
        /\ 0 <= TrendResult.magnitude t
        /\ In (TrendResult.metric t)
             ["Revenue"; "Expenses"; "Profit"; "Gross Profit"]%string).
Proof.
  cbv zeta. rewrite detectTrends_eq.
  destruct (length_n periods <? 2) eqn:Elen;
    [split; [cbn; lia|split; [constructor|intros t []]]|].
  reflect_cmp.
  split; [|split].
  - destruct (trendOf_cases numToString periods ProfitAndLoss.totalRevenue "Revenue")
      as [->|(t1 & -> & _)];
    destruct (trendOf_cases numToString periods ProfitAndLoss.totalExpenses "Expenses")
      as [->|(t2 & -> & _)];
    destruct (trendOf_cases numToString periods ProfitAndLoss.netIncome "Profit")
      as [->|(t3 & -> & _)];
    destruct (trendOf_cases numToString periods ProfitAndLoss.grossProfit
                "Gross Profit") as [->|(t4 & -> & _)];
    cbn; lia.
  - destruct (trendOf_cases numToString periods ProfitAndLoss.totalRevenue "Revenue")
      as [->|(t1 & -> & Hm1 & _)];
    destruct (trendOf_cases numToString periods ProfitAndLoss.totalExpenses "Expenses")
      as [->|(t2 & -> & Hm2 & _)];
    destruct (trendOf_cases numToString periods ProfitAndLoss.netIncome "Profit")
      as [->|(t3 & -> & Hm3 & _)];
    destruct (trendOf_cases numToString periods ProfitAndLoss.grossProfit
                "Gross Profit") as [->|(t4 & -> & Hm4 & _)];
    cbn [map app]; rewrite ?Hm1, ?Hm2, ?Hm3, ?Hm4;
    repeat constructor; cbn; intuition discriminate.
  - intros t Hin.
    assert (H : exists metric label,
              In t (trendOf numToString periods (metric, label))
              /\ In label ["Revenue"; "Expenses"; "Profit"; "Gross Profit"]%string).
    { repeat (apply in_app_or in Hin; destruct Hin as [Hin|Hin]);
        do 2 eexists; (split; [exact Hin|cbn; tauto]). }
    destruct H as (metric & label & Hin' & Hlabel).
    destruct (trendOf_in _ _ _ _ Hin') as (Hm & Hp & _ & Hns).
    repeat split.
    + exact Hns.
    + exact Hp.
    + rewrite Hp. exact Elen.
    + eapply trendOf_magnitude, Hin'.
    + rewrite Hm. exact Hlabel.
Qed.

(** X11: a metric whose every step stays within 3% of the value before
    gives no trend, whatever the other metrics do. *)
Theorem detectTrends_calm_metric periods metric label t :
  In (metric, label) trend_metrics ->
  calm (map metric periods) ->
  In t (detectTrends numToString periods) ->
  TrendResult.metric t <> label.
Proof.
  intros Hmetric Hcalm Hin Hlabel.
  rewrite detectTrends_eq in Hin.
  destruct (length_n periods <? 2) eqn:Elen; [destruct Hin|].
  assert (Hlen : (2 <= List.length (map metric periods))%nat).
  { rewrite length_map. reflect_cmp. unfold length_n in Elen.
    change 2 with (inject_Z 2) in Elen. rewrite <- Zle_Qle in Elen. lia. }
  pose proof (detectDirection_calm (map metric periods) Hlen Hcalm)
    as Hsteady.
  assert (Hcase : forall metric' label',
            In (metric', label') (trend_metrics) ->
            In t (trendOf numToString periods (metric', label')) -> False).
  { intros metric' label' Hin'' Hin'.
    destruct (trendOf_in _ _ _ _ Hin') as (Hm & _ & Hd & Hns).
    assert (label' = label) by congruence. subst label'.
    assert (metric' = metric).
    { cbn in Hmetric, Hin''.
      destruct Hmetric as [H1|[H1|[H1|[H1|[]]]]];
        destruct Hin'' as [H2|[H2|[H2|[H2|[]]]]]; congruence. }
    subst metric'. apply Hns. rewrite Hd. exact Hsteady. }
  repeat (apply in_app_or in Hin; destruct Hin as [Hin|Hin]);
    (eapply Hcase; [|exact Hin]); cbn; tauto.
Qed.

End MoreTrends.

(** The falling months: the gross profit is the one trend. *)
Lemma detectTrends_shape_witness :
  exists t,
    detectTrends render falling_months = [t]
    /\ TrendResult.direction t <> steady
    /\ TrendResult.periods t = 5
    /\ 0 <= TrendResult.magnitude t.
Proof.
  destruct (detectTrends_shape render falling_months) as (_ & _ & H).
  eexists. split; [reflexivity|].
  destruct (H _ (or_introl eq_refl)) as (Hd & Hp & _ & Hm & _).
  split; [exact Hd|]. split; [exact Hp|exact Hm].
Defined.

(** Gross profit falls by 10% a month while revenue stays where it is. *)
Lemma detectTrends_calm_metric_witness :
  map TrendResult.metric (detectTrends render falling_months)
  = ["Gross Profit"]%string
  /\ ~ In "Revenue"%string
        (map TrendResult.metric (detectTrends render falling_months)).
Proof.
  split; [reflexivity|]. intro Hin.
  apply in_map_iff in Hin. destruct Hin as (t & Hmetric & Hin).
  apply (@detectTrends_calm_metric render falling_months
           ProfitAndLoss.totalRevenue "Revenue" t).
  - left. reflexivity.
  - cbn. repeat split; discriminate.
  - exact Hin.
  - exact Hmetric.
Defined.

(** ** More on [detectAnomalies] *)

Lemma bySeverity_trans a b c : bySeverity a b -> bySeverity b c -> bySeverity a c.
Proof.
  unfold bySeverity. intros. lra.
Qed.

Section MoreAnomalies.

Variable toLocaleString : number -> string.
Variable Math_sqrt : number -> number.

Lemma Math_max_zero x : 0 <= Math_max 0 x.
Proof.
  unfold Math_max. destruct (0 <=? x) eqn:E; reflect_cmp; lra.
Qed.

Lemma anomalyOf_range historical category a :
  In a (anomalyOf toLocaleString Math_sqrt historical category) ->
  AnomalyResult.value a = ExpenseCategory.amount category
  /\ 0 <= AnomalyResult.expectedRange_min a.
Proof.
  unfold anomalyOf.
  destruct (length_n (historicalValues historical category) <? 2);
    [intros []|].
  destruct (_ || _); [|intros []].
  intros [<-|[]]. cbn [AnomalyResult.value AnomalyResult.expectedRange_min].
  split; [reflexivity|].
  change 0 with (inject_Z 0). apply Math_round_ge.
  change (inject_Z 0) with 0. apply Math_max_zero.
Qed.

(** X12: [detectAnomalies] returns the anomalies of high severity first,
    then medium, then low; each has the amount of a category of the latest
    period as its value, and the lower end of its expected range is never
    negative. *)
Theorem detectAnomalies_sorted_ranges periods :
  let out := detectAnomalies toLocaleString Math_sqrt periods in
  StronglySorted bySeverity out
  /\ (forall a,
        In a out ->
        0 <= AnomalyResult.expectedRange_min a
        /\ exists latest earlier category,
             rev periods = latest :: earlier
             /\ In category (ProfitAndLoss.expenseCategories latest)
             /\ AnomalyResult.metric a = ExpenseCategory.name category
             /\ AnomalyResult.value a = ExpenseCategory.amount category).
Proof.
  cbv zeta. unfold detectAnomalies.
  destruct (length_n periods <? 3);
    [split; [constructor|intros a []]|].
  destruct (rev periods) as [|latest earlier];
    [split; [constructor|intros a []]|].
  split.
  - apply sort_sorted.
    + intros x y H. unfold bySeverity. reflect_cmp. lra.
    + intros x y H. unfold bySeverity. reflect_cmp. lra.
    + exact bySeverity_trans.
  - intros a Hin. apply sort_in in Hin. apply in_flat_map in Hin.
    destruct Hin as (category & Hcat & Hin).
    destruct (anomalyOf_range _ _ _ Hin) as [Hvalue Hmin].
    destruct (anomalyOf_in _ _ _ _ _ Hin) as [Hmetric _].
    split; [exact Hmin|].
    exists latest, earlier, category. auto.
Qed.

End MoreAnomalies.

(** Scenario 4: rent of 1,700 after six months around 1,000. *)
Lemma detectAnomalies_sorted_ranges_witness :
  exists a,
    detectAnomalies render sqrt_of_squares rent_months = [a]
    /\ AnomalyResult.value a == 1700
    /\ AnomalyResult.expectedRange_min a == 850
    /\ AnomalyResult.expectedRange_max a == 1150
    /\ AnomalyResult.severity a = high
    /\ 0 <= AnomalyResult.expectedRange_min a.
Proof.
  eexists. split; [vm_compute; reflexivity|].
  do 4 (split; [reflexivity|]).
  match goal with
  | |- 0 <= AnomalyResult.expectedRange_min ?a =>
      destruct (detectAnomalies_sorted_ranges render sqrt_of_squares rent_months)
        as [_ Hall];
      apply (Hall a)
  end.
  vm_compute. left. reflexivity.
Defined.

(** ** The banner of issues *)

Lemma sort_sorted_id {A} (cmp : A -> A -> number) (R : A -> A -> Prop) l :
  (forall x y, R x y -> (cmp x y >? 0) = false) ->
  StronglySorted R l -> sort cmp l = l.
Proof.
  intros Hcmp Hsorted.
  induction Hsorted as [|x l _ IH Hall]; cbn; [reflexivity|].
  rewrite IH. destruct l as [|y l]; [reflexivity|].
  cbn. inversion Hall as [|? ? Hxy _]; subst.
  rewrite (Hcmp x y Hxy). reflexivity.
Qed.

Lemma compareForBanner_after a b :
  (compareForBanner a b >? 0) = true -> issueBefore b a.
Proof.
  unfold compareForBanner, issueBefore.
  destruct (Qeq_bool _ 0) eqn:E; cbn [negb]; intro H; reflect_cmp.
  - right. split; lra.
  - left. lra.
Qed.

Lemma compareForBanner_before a b :
  (compareForBanner a b >? 0) = false -> issueBefore a b.
Proof.
  unfold compareForBanner, issueBefore.
  destruct (Qeq_bool _ 0) eqn:E; cbn [negb]; intro H; reflect_cmp.
  - right. split; lra.
  - left. lra.
Qed.

Lemma compareForBanner_sorted a b :
  issueBefore a b -> (compareForBanner a b >? 0) = false.
Proof.
  intro H. destruct (compareForBanner a b >? 0) eqn:E; [|reflexivity].
  exfalso. revert H E. unfold compareForBanner, issueBefore.
  destruct (Qeq_bool _ 0) eqn:E0; cbn [negb]; intros H E; reflect_cmp;
    destruct H as [H|[H H']]; lra.
Qed.

(** X15: the banner shows at most three issues, the most severe first and
    within one severity the larger value first; given the issues of
    [generateIssues] it shows the first three of them as they are. *)
Theorem displayIssues_of_generateIssues numToString clock variances ratios
  trends anomalies cashPosition :
  (forall issues,
     (List.length (displayIssues issues) <= 3)%nat
     /\ StronglySorted issueBefore (displayIssues issues)
     /\ incl (displayIssues issues) issues)
  /\ displayIssues
       (generateIssues numToString clock variances ratios trends anomalies
          cashPosition)
     = firstn 3
         (generateIssues numToString clock variances ratios trends anomalies
            cashPosition).
Proof.
  split.
  - intro l. unfold displayIssues. split; [|split].
    + rewrite length_firstn. lia.
    + apply StronglySorted_firstn.
      apply sort_sorted.
      * exact compareForBanner_after.
      * exact compareForBanner_before.
      * exact issueBefore_trans.
    + intros i Hin. apply (sort_in compareForBanner).
      rewrite <- (firstn_skipn 3 (sort compareForBanner l)).
      apply in_or_app. left. exact Hin.
  - unfold displayIssues. f_equal.
    apply sort_sorted_id with (R := issueBefore).
    + exact compareForBanner_sorted.
    + unfold generateIssues. apply StronglySorted_firstn.
      apply sort_sorted.
      * exact compareIssues_after.
      * exact compareIssues_before.
      * exact issueBefore_trans.
Qed.

(** ** More on the parser *)

Section MoreParser.

Variable parseFloat : string -> number.
Variable formatPeriodLabel : string -> string -> string.

Lemma str_or_Unknown s : str_or s "Unknown" <> EmptyString.
Proof.
  destruct s as [[|c s]|]; cbn; discriminate.
Qed.

Lemma expenseRows_wellFormed enough dataIdx keep rows acc :
  (forall amount name, keep amount name = true -> ~ amount == 0) ->
  Forall wellFormedCategory acc ->
  Forall wellFormedCategory
    (expenseRows parseFloat enough dataIdx keep rows acc).
Proof.
  intros Hkeep. unfold expenseRows. revert acc.
  induction rows as [|row rows IH]; intros acc Hacc; cbn; [exact Hacc|].
  apply IH. destruct (ColData row) as [colData|]; [|exact Hacc].
  destruct (enough (List.length colData)); [|exact Hacc].
  destruct (keep _ _) eqn:E; [|exact Hacc].
  apply Forall_app. split; [exact Hacc|]. constructor; [|constructor].
  split; cbn; [eapply Hkeep, E|apply str_or_Unknown].
Qed.

Lemma keep_pnl amount name :
  (amount <>? 0) && negb (String.eqb name "") = true -> ~ amount == 0.
Proof.
  intro H. apply andb_true_iff in H. destruct H as [H _].
  apply negb_true_iff in H. apply Qeq_bool_false. exact H.
Qed.

Lemma keep_monthly (amount : number) (name : string) :
  (amount <>? 0) = true -> ~ amount == 0.
Proof.
  intro H. apply negb_true_iff in H. apply Qeq_bool_false. exact H.
Qed.

Lemma pnlRow_wellFormed t row :
  Forall wellFormedCategory (t_expenseCategories t) ->
  Forall wellFormedCategory (t_expenseCategories (pnlRow parseFloat t row)).
Proof.
  intro H. unfold pnlRow.
  repeat match goal with
    | |- context [if ?b then _ else _] =>
        destruct b; cbn [t_expenseCategories]; try exact H
    end.
  destruct (Rows row); [|exact H].
  apply expenseRows_wellFormed; [exact keep_pnl|exact H].
Qed.

Lemma monthlyRow_wellFormed dataIdx t row :
  Forall wellFormedCategory (t_expenseCategories t) ->
  Forall wellFormedCategory
    (t_expenseCategories (monthlyRow parseFloat dataIdx t row)).
Proof.
  intro H. unfold monthlyRow.
  repeat match goal with
    | |- context [if ?b then _ else _] =>
        destruct b; cbn [t_expenseCategories]; try exact H
    end.
  destruct (Rows row); [|exact H].
  apply expenseRows_wellFormed; [exact keep_monthly|exact H].
Qed.

Lemma rows_wellFormed (step : Totals -> QBReportRow -> Totals) rows t :
  (forall t row,
     Forall wellFormedCategory (t_expenseCategories t) ->
     Forall wellFormedCategory (t_expenseCategories (step t row))) ->
  Forall wellFormedCategory (t_expenseCategories t) ->
  Forall wellFormedCategory (t_expenseCategories (fold_left step rows t)).
Proof.
  intro Hstep. revert t. induction rows as [|row rows IH]; intros t H; cbn;
    [exact H|]. apply IH, Hstep, H.
Qed.

Lemma statementOf_wellFormed period t :
  Forall wellFormedCategory (t_expenseCategories t) ->
  Forall wellFormedCategory
    (ProfitAndLoss.expenseCategories (statementOf period t)).
Proof.
  intro H. cbn. apply Forall_forall. intros c Hin.
  apply sort_in in Hin. rewrite Forall_forall in H. apply H, Hin.
Qed.

(** X16: every expense category the parsers return has an amount other
    than 0 and a name that is not empty, in [parseProfitAndLoss] and in
    every statement of [parseMonthlyPnL]: rows with an amount of 0 are left
    out, and a row without a name is called Unknown. *)
Theorem parsers_categories_wellFormed report :
  Forall wellFormedCategory
    (ProfitAndLoss.expenseCategories
       (parseProfitAndLoss parseFloat formatPeriodLabel report))
  /\ Forall
       (fun p => Forall wellFormedCategory (ProfitAndLoss.expenseCategories p))
       (parseMonthlyPnL parseFloat report).
Proof.
  split.
  - unfold parseProfitAndLoss. apply statementOf_wellFormed.
    apply rows_wellFormed; [apply pnlRow_wellFormed|constructor].
  - unfold parseMonthlyPnL. apply Forall_forall. intros p Hin.
    apply in_map_iff in Hin. destruct Hin as ([colIdx col] & <- & _).
    apply statementOf_wellFormed.
    apply rows_wellFormed; [apply monthlyRow_wellFormed|constructor].
Qed.

Lemma map_combine_seq {A B} (f : nat * A -> B) (g : A -> B) l :
  (forall i x, f (i, x) = g x) ->
  forall start, map f (combine (seq start (List.length l)) l) = map g l.
Proof.
  intro Hfg. induction l as [|x l IH]; intro start; cbn; [reflexivity|].
  rewrite Hfg, IH. reflexivity.
Qed.

(** X17: [parseMonthlyPnL] returns one statement per month column, in the
    order of the columns, each with the title of its column as start, end
    and label of its period; the first column, columns without a title and
    the Total column give no statement. *)
Theorem parseMonthlyPnL_periods report :
  map ProfitAndLoss.period (parseMonthlyPnL parseFloat report)
  = map
      (fun col =>
         PeriodData.mk (QBColumn.ColTitle col) (QBColumn.ColTitle col)
           (QBColumn.ColTitle col))
      (monthColumnsOf report)
  /\ List.length (parseMonthlyPnL parseFloat report)
     = List.length (monthColumnsOf report).
Proof.
  assert (H : map ProfitAndLoss.period (parseMonthlyPnL parseFloat report)
              = map
                  (fun col =>
                     PeriodData.mk (QBColumn.ColTitle col) (QBColumn.ColTitle col)
                       (QBColumn.ColTitle col))
                  (monthColumnsOf report)).
  { unfold parseMonthlyPnL. rewrite map_map. fold (monthColumnsOf report).
    apply map_combine_seq. intros i col. reflexivity. }
  split; [exact H|].
  rewrite <- (length_map ProfitAndLoss.period), H, length_map. reflexivity.
Qed.

(** X18: a row of other expenses at the end of a report adds its summary
    to the total expenses of [parseProfitAndLoss] and changes nothing
    else; [parseMonthlyPnL] does not read such rows at all. *)
Theorem parsers_other_expenses report rows row :
  str_or (group row) "" = "OtherExpenses"%string ->
  let before := parseProfitAndLoss parseFloat formatPeriodLabel (withRows report rows) in
  let after :=
    parseProfitAndLoss parseFloat formatPeriodLabel
      (withRows report (rows ++ [row])) in
  ProfitAndLoss.totalExpenses after
  = ProfitAndLoss.totalExpenses before
    + parseFloat (str_or (cell (Summary row) 1) "0")
  /\ ProfitAndLoss.totalRevenue after = ProfitAndLoss.totalRevenue before
  /\ ProfitAndLoss.totalCogs after = ProfitAndLoss.totalCogs before
  /\ ProfitAndLoss.grossProfit after = ProfitAndLoss.grossProfit before
  /\ ProfitAndLoss.netIncome after = ProfitAndLoss.netIncome before
  /\ ProfitAndLoss.expenseCategories after
     = ProfitAndLoss.expenseCategories before
  /\ parseMonthlyPnL parseFloat (withRows report (rows ++ [row]))
     = parseMonthlyPnL parseFloat (withRows report rows).
Proof.
  intros Hgroup before after. subst before after.
  unfold parseProfitAndLoss, parseMonthlyPnL, withRows.
  cbn [QBReport.Row QBReport.Column QBReport.StartPeriod QBReport.EndPeriod
       list_or].
  rewrite fold_left_app. cbn [fold_left].
  assert (Hpnl : forall t,
            pnlRow parseFloat t row
            = mkTotals (t_totalRevenue t) (t_totalCogs t) (t_grossProfit t)
                (t_totalExpenses t + parseFloat (str_or (cell (Summary row) 1) "0"))
                (t_netIncome t) (t_expenseCategories t)).
  { intro t. unfold pnlRow. rewrite Hgroup. reflexivity. }
  assert (Hmonthly : forall dataIdx t, monthlyRow parseFloat dataIdx t row = t).
  { intros dataIdx t. unfold monthlyRow. rewrite Hgroup. reflexivity. }
  rewrite Hpnl. repeat split.
  apply map_ext. intros [colIdx col].
  rewrite fold_left_app. cbn [fold_left]. rewrite Hmonthly. reflexivity.
Qed.

End MoreParser.

(** The report without sales, with and without other expenses of 50. *)
Lemma parsers_other_expenses_witness :
  ProfitAndLoss.totalExpenses
    (parseProfitAndLoss parseDecimal plainLabel
       (withRows report_without_sales
          (list_or (QBReport.Row report_without_sales) ++ [other_expenses_row])))
  == 250
  /\ map ProfitAndLoss.totalExpenses
       (parseMonthlyPnL parseDecimal
          (withRows report_without_sales
             (list_or (QBReport.Row report_without_sales) ++ [other_expenses_row])))
     = map ProfitAndLoss.totalExpenses
         (parseMonthlyPnL parseDecimal report_without_sales).
Proof.
  destruct (parsers_other_expenses parseDecimal plainLabel report_without_sales
              (list_or (QBReport.Row report_without_sales)) other_expenses_row
              eq_refl) as (Htotal & _ & _ & _ & _ & _ & Hmonthly).
  split.
  - rewrite Htotal. reflexivity.
  - rewrite Hmonthly. reflexivity.
Defined.

(** ** [parseCashPosition] *)

Section MoreCashPosition.

Variable parseFloat : string -> number.

Lemma cashRow_other b row :
  isAssetGroup (str_or (group row) "") = false ->
  cashRow parseFloat b row = b.
Proof.
  unfold cashRow. intros ->. reflexivity.
Qed.

Lemma cashRows_filter rows b :
  fold_left (cashRow parseFloat)
    (filter (fun row => isAssetGroup (str_or (group row) "")) rows) b
  = fold_left (cashRow parseFloat) rows b.
Proof.
  revert b. induction rows as [|row rows IH]; intro b; cbn; [reflexivity|].
  destruct (isAssetGroup (str_or (group row) "")) eqn:E; cbn.
  - apply IH.
  - rewrite (cashRow_other b row E). apply IH.
Qed.

(** X19: [parseCashPosition] reads only the rows of the groups Assets,
    BankAccounts and Bank: the balance is the one of the report with every
    other row left out, and 0 when there is no such row.  The previous
    balance is always 0 and the date is the end of the period of the
    report. *)
Theorem parseCashPosition_asset_rows_only report :
  let assetRows :=
    filter (fun row => isAssetGroup (str_or (group row) ""))
      (list_or (QBReport.Row report)) in
  parseCashPosition parseFloat report
  = parseCashPosition parseFloat (withRows report assetRows)
  /\ (assetRows = [] ->
      CashPosition.currentBalance (parseCashPosition parseFloat report) = 0)
  /\ CashPosition.previousBalance (parseCashPosition parseFloat report) = 0
  /\ CashPosition.asOfDate (parseCashPosition parseFloat report)
     = QBReport.EndPeriod report.
Proof.
  cbv zeta. unfold parseCashPosition, withRows.
  cbn [QBReport.Row QBReport.EndPeriod list_or CashPosition.currentBalance
       CashPosition.previousBalance CashPosition.asOfDate].
  rewrite cashRows_filter. repeat split.
  intro H. rewrite <- cashRows_filter, H. reflexivity.
Qed.



Lemma cashSubRow_bank b b' bank :
  isBankGroup (group bank) = true ->
  cashSubRow parseFloat b bank = cashSubRow parseFloat b' bank.
Proof.
  unfold cashSubRow. intros ->. reflexivity.
Qed.

(** X21: a group of bank accounts among the sub rows of an asset row sets
    the balance to its total, it does not add to it: the rows before the
    asset row and the sub rows before the group do not count. *)
Theorem parseCashPosition_bank_group_resets report earlier row later before
  bank after :
  isAssetGroup (str_or (group row) "") = true ->
  Rows row = Some (before ++ bank :: after) ->
  isBankGroup (group bank) = true ->
  parseCashPosition parseFloat (withRows report (earlier ++ row :: later))
  = parseCashPosition parseFloat
      (withRows report (withSubRows row (bank :: after) :: later)).
Proof.
  intros Hasset Hsub Hbank. unfold parseCashPosition, withRows.
  cbn [QBReport.Row QBReport.EndPeriod list_or]. f_equal.
  rewrite fold_left_app. cbn [fold_left]. f_equal.
  unfold cashRow, withSubRows. cbn [group Rows Summary].
  rewrite Hasset, Hsub, fold_left_app. cbn [fold_left].
  rewrite (cashSubRow_bank _ 0 bank Hbank). reflexivity.
Qed.

End MoreCashPosition.


(** Petty cash of 500 before bank accounts of 12,000: a balance of 12,000. *)
Lemma parseCashPosition_bank_group_resets_witness :
  CashPosition.currentBalance
    (parseCashPosition parseDecimal balance_sheet_grouped)
  == 12000.
Proof.
  change balance_sheet_grouped
    with (withRows balance_sheet_grouped ([] ++ assets_grouped :: [])).
  rewrite (parseCashPosition_bank_group_resets parseDecimal
             balance_sheet_grouped [] assets_grouped [] [petty_cash]
             bank_accounts [] eq_refl eq_refl eq_refl).
  reflexivity.
Defined.

(** ** [answerQuestion] and the chat *)

Section MoreQuestions.

Variable numToString : number -> string.
Variable toLocaleString : number -> string.
Variable service : nat -> Request.t -> Completion.
Variable AI_MODEL : option string.
Variable SYSTEM_PROMPT : string.

Lemma answerQuestion_run question context w :
  let c :=
    service (requests w)
      (questionRequest numToString toLocaleString AI_MODEL SYSTEM_PROMPT
         question context) in
  answerQuestion numToString toLocaleString service AI_MODEL SYSTEM_PROMPT
    question context w
  = (Returned (answerFrom c),
     mkWorld (S (requests w)) (clockReads w) (console w ++ questionLogOf c)).
Proof.
  unfold answerQuestion, tryCatch, bind, generateText, console_error, ret.
  cbv zeta. destruct (service _ _); cbn; rewrite ?app_nil_r; reflexivity.
Qed.

(** X22: [answerQuestion] never throws and makes exactly one request, for
    at most 500 tokens at temperature 0.3; it returns the text of the
    service as it is, not trimmed, and when the request fails the fixed
    answer, with one line on the console. *)
Theorem answerQuestion_answers question context w :
  exists answer w',
    answerQuestion numToString toLocaleString service AI_MODEL SYSTEM_PROMPT
      question context w = (Returned answer, w')
    /\ requests w' = S (requests w)
    /\ clockReads w' = clockReads w
    /\ (exists request,
          Request.maxOutputTokens request == 500
          /\ Request.temperature request == 3 / 10
          /\ Request.system request = SYSTEM_PROMPT
          /\ match service (requests w) request with
             | Text text => answer = text /\ console w' = console w
             | Failure error =>
                 answer = QUESTION_FALLBACK
                 /\ console w'
                    = console w ++ [("AI question error: " ++ error)%string]
             end).
Proof.
  do 2 eexists. split; [apply answerQuestion_run|].
  cbn [requests clockReads console]. split; [reflexivity|].
  split; [reflexivity|].
  exists (questionRequest numToString toLocaleString AI_MODEL SYSTEM_PROMPT
            question context).
  split; [reflexivity|]. split; [reflexivity|]. split; [reflexivity|].
  destruct (service _ _); cbn; rewrite ?app_nil_r; split; reflexivity.
Qed.

End MoreQuestions.

Section MoreChat.

Variable numToString : number -> string.
Variable toLocaleString : number -> string.
Variable service : nat -> Request.t -> Completion.
Variable AI_MODEL : option string.
Variable SYSTEM_PROMPT : string.
Variable now : nat -> number.
Variable toISOString : number -> string.
Variable toLocaleDateString : number -> string.

Lemma isStaleAt_run lastSynced w :
  isStaleAt now lastSynced w
  = (Returned
       ((lastSynced >? 0) && (now (clockReads w) - lastSynced >? STALE_AFTER)),
     if lastSynced >? 0
     then mkWorld (requests w) (S (clockReads w)) (console w)
     else w).
Proof.
  unfold isStaleAt. destruct (lastSynced >? 0); reflexivity.
Qed.

Lemma chatAnswer_run conn data currentPnl c q w :
  exists response w',
    chatAnswer numToString toLocaleString service AI_MODEL SYSTEM_PROMPT now
      toISOString toLocaleDateString conn data currentPnl
      (Returned (Some (String c q))) w
    = (Returned response, w')
    /\ requests w' = S (requests w)
    /\ ChatResponse.status response = 200%nat
    /\ ChatResponse.error response = None
    /\ ChatResponse.isStale response
       = Some
           match Connection.lastSyncedAt conn with
           | Some t => (t >? 0) && (now (clockReads w) - t >? STALE_AFTER)
           | None => false
           end
    /\ clockReads w'
       = match Connection.lastSyncedAt conn with
         | Some t => if t >? 0 then S (clockReads w) else clockReads w
         | None => clockReads w
         end.
Proof.
  unfold chatAnswer.
  do 2 eexists. split.
  { eapply eq_trans; [apply bind_run, answerQuestion_run|].
    eapply eq_trans; [apply bind_run, isStaleAt_run|]. reflexivity. }
  destruct (Connection.lastSyncedAt conn) as [t|]; cbn.
  - destruct (t >? 0); cbn; repeat split; reflexivity.
  - repeat split; reflexivity.
Qed.

(** X23: the handler of the chat always responds, whatever it finds and
    whatever the service does: it asks the service once when there is a
    session, a connection, a cached statement and a question that is a
    string and not empty, and then answers with status 200; otherwise it
    asks nothing.  Without a session the status is 401; a body that cannot
    be read gives status 200 with an answer, not an error. *)
Theorem chatPOST_responds input w :
  exists response w',
    chatPOST numToString toLocaleString service AI_MODEL SYSTEM_PROMPT now
      toISOString toLocaleDateString input w
    = (Returned response, w')
    /\ requests w'
       = (if hasQuestion input then S (requests w) else requests w)
    /\ (hasQuestion input = true -> ChatResponse.status response = 200%nat)
    /\ (ChatResponse.status response = 401%nat
        <-> ChatInput.session input = None)
    /\ (forall error,
          hasQuestion
            (ChatInput.mk (ChatInput.session input) (ChatInput.conn input)
               (ChatInput.data input) (Returned (Some "?"%string))) = true ->
          ChatInput.question input = Thrown error ->
          ChatResponse.status response = 200%nat
          /\ ChatResponse.error response = None
          /\ ChatResponse.answer response <> None
          /\ console w' = console w ++ [("Chat error: " ++ error)%string]).
Proof.
  unfold chatPOST, hasQuestion.
  destruct input as [session conn data question]. cbn.
  destruct session as [user|];
    [|do 2 eexists; split; [reflexivity|]; cbn;
      repeat split; try reflexivity; try discriminate].
  destruct conn as [conn|];
    [|do 2 eexists; split; [reflexivity|]; cbn;
      repeat split; try reflexivity; try discriminate].
  destruct data as [data|];
    [|do 2 eexists; split; [reflexivity|]; cbn;
      repeat split; try reflexivity; try discriminate].
  destruct (CachedFinancialData.currentPnl data) as [currentPnl|];
    [|do 2 eexists; split; [reflexivity|]; cbn;
      repeat split; try reflexivity; try discriminate].
  destruct question as [[[|c q]|]|error].
  - do 2 eexists. split; [reflexivity|]. cbn.
    repeat split; try reflexivity; try discriminate.
  - destruct (chatAnswer_run conn data currentPnl c q w)
      as (response & w' & Hrun & Hreq & Hstatus & _).
    exists response, w'. unfold tryCatch. rewrite Hrun.
    split; [reflexivity|]. split; [exact Hreq|]. split; [intros _; exact Hstatus|].
    split; [rewrite Hstatus; split; discriminate|].
    intros error _ H. discriminate H.
  - do 2 eexists. split; [reflexivity|]. cbn.
    repeat split; try reflexivity; try discriminate.
  - do 2 eexists. split; [reflexivity|]. cbn.
    split; [reflexivity|]. split; [discriminate|].
    split; [split; discriminate|].
    intros error' _ H. injection H as <-.
    repeat split; try reflexivity; discriminate.
Qed.

(** X24: an answer is marked stale exactly when the connection was synced,
    at a time after the epoch, and more than 172,800,000 milliseconds (48
    hours) lie between that time and the clock; at exactly 48 hours it is
    not.  The clock is read only for a connection that was synced. *)
Theorem chatPOST_staleness user conn data currentPnl question w :
  CachedFinancialData.currentPnl data = Some currentPnl ->
  question <> EmptyString ->
  exists response w',
    chatPOST numToString toLocaleString service AI_MODEL SYSTEM_PROMPT now
      toISOString toLocaleDateString
      (ChatInput.mk (Some user) (Some conn) (Some data)
         (Returned (Some question))) w
    = (Returned response, w')
    /\ (ChatResponse.isStale response = Some true
        \/ ChatResponse.isStale response = Some false)
    /\ (ChatResponse.isStale response = Some true
        <-> exists t,
              Connection.lastSyncedAt conn = Some t
              /\ 0 < t
              /\ 172800000 < now (clockReads w) - t)
    /\ (Connection.lastSyncedAt conn = None -> clockReads w' = clockReads w).
Proof.
  intros Hpnl Hq. destruct question as [|c q]; [contradiction|].
  destruct (chatAnswer_run conn data currentPnl c q w)
    as (response & w' & Hrun & _ & _ & _ & Hstale & Hclock).
  exists response, w'. unfold chatPOST.
  cbn [ChatInput.session ChatInput.conn ChatInput.data ChatInput.question].
  rewrite Hpnl. unfold tryCatch. rewrite Hrun. split; [reflexivity|].
  rewrite Hstale, Hclock.
  destruct (Connection.lastSyncedAt conn) as [t|].
  - split; [destruct (_ && _); auto|]. split; [|discriminate].
    split.
    + intro H. injection H as H. apply andb_true_iff in H.
      destruct H as [H1 H2]. reflect_cmp. exists t.
      split; [reflexivity|]. split; [exact H1|].
      unfold STALE_AFTER in H2. lra.
    + intros (t' & Ht & H1 & H2). injection Ht as <-. f_equal.
      apply andb_true_iff. split; apply Qlt_bool_iff; [exact H1|].
      unfold STALE_AFTER. lra.
  - split; [auto|]. split; [|reflexivity].
    split; [discriminate|]. intros (t & Ht & _). discriminate Ht.
Qed.

End MoreChat.

(** A connection synced exactly 48 hours before the clock is read: the
    answer is not marked stale. *)
Lemma chatPOST_staleness_witness :
  exists response w',
    chatPOST render render steady_service None "" epoch render render
      (ChatInput.mk (Some "user-1"%string)
         (Some (connection_synced (epoch 0 - 172800000)))
         (Some cached_statement) (Returned (Some "What is my revenue?"%string)))
      world0
    = (Returned response, w')
    /\ ChatResponse.isStale response = Some false.
Proof.
  destruct (@chatPOST_staleness render render steady_service None "" epoch
              render render "user-1"%string
              (connection_synced (epoch 0 - 172800000))
              cached_statement revenue_only
              "What is my revenue?"%string world0 eq_refl)
    as (response & w' & Hrun & [Hstale|Hstale] & Hiff & _).
  - discriminate.
  - exfalso. apply Hiff in Hstale. destruct Hstale as (t & Ht & _ & Hlate).
    injection Ht as <-. revert Hlate. vm_compute. intro H. discriminate H.
  - exists response, w'. split; [exact Hrun|exact Hstale].
Defined.

(** ** The accounts of [generateInsightsFromMetrics] *)

Ltac insight_cases data :=
  unfold generateInsightsFromMetrics, prompts, categories;
  destruct (significantVariances data) as [|? ?] eqn:?;
  destruct (MetricsData.trends data) as [|? [|? ?]] eqn:?;
  destruct (MetricsData.anomalies data) as [|? [|? ?]] eqn:?;
  destruct (decliningRatios data) as [|? ?] eqn:?;
  cbn [firstn List.length Nat.ltb Nat.leb map app];
  (do 2 eexists; split; [run_async|]).

Lemma generateInsightsFromMetrics_bounds numToString toLocaleString service
  AI_MODEL SYSTEM_PROMPT now toISOString data w :
  exists insights w',
    generateInsightsFromMetrics numToString toLocaleString service AI_MODEL
      SYSTEM_PROMPT now toISOString data w = (Returned insights, w')
    /\ (List.length insights <= 6)%nat
    /\ (requests w <= requests w' <= requests w + 3)%nat.
Proof.
  insight_cases data; cbn; lia.
Qed.

Lemma generateInsightsFromMetrics_stamped numToString toLocaleString service
  AI_MODEL SYSTEM_PROMPT now toISOString data w :
  exists insights w',
    generateInsightsFromMetrics numToString toLocaleString service AI_MODEL
      SYSTEM_PROMPT now toISOString data w = (Returned insights, w')
    /\ Forall stamped insights.
Proof.
  insight_cases data; repeat constructor.
Qed.

(** X25: one invocation of [generateInsightsFromMetrics] makes one request
    per prompt, at most three, and reads the clock twice per insight; there
    are at most six insights, each with prompt version v1.0, not stale and
    without severity. *)
Theorem generateInsightsFromMetrics_accounts numToString toLocaleString
  service AI_MODEL SYSTEM_PROMPT now toISOString data w :
  exists insights w',
    generateInsightsFromMetrics numToString toLocaleString service AI_MODEL
      SYSTEM_PROMPT now toISOString data w = (Returned insights, w')
    /\ requests w'
       = (requests w + List.length (prompts numToString toLocaleString data))%nat
    /\ (List.length (prompts numToString toLocaleString data) <= 3)%nat
    /\ clockReads w' = (clockReads w + 2 * List.length insights)%nat
    /\ (List.length insights <= 6)%nat
    /\ Forall stamped insights.
Proof.
  insight_cases data;
    (split; [cbn; lia|]); (split; [cbn; lia|]); (split; [cbn; lia|]);
    (split; [cbn; lia|]);
    repeat constructor.
Qed.

(** X26: in the list of [generateInsightsFromMetrics] an insight on an
    anomaly always has an action, which no request decides, and the insight
    on the health signals never has one; the service decides the action of
    the other insights only. *)
Theorem generateInsightsFromMetrics_actions numToString toLocaleString
  service AI_MODEL SYSTEM_PROMPT now toISOString data w :
  exists insights w',
    generateInsightsFromMetrics numToString toLocaleString service AI_MODEL
      SYSTEM_PROMPT now toISOString data w = (Returned insights, w')
    /\ Forall actionByType insights
    /\ (forall service',
          exists insights' w'',
            generateInsightsFromMetrics numToString toLocaleString service'
              AI_MODEL SYSTEM_PROMPT now toISOString data w
            = (Returned insights', w'')
            /\ filter
                 (fun i =>
                    match AIInsight.type i with
                    | ins_anomaly | ins_health_signal => true
                    | _ => false
                    end) insights'
               = filter
                   (fun i =>
                      match AIInsight.type i with
                      | ins_anomaly | ins_health_signal => true
                      | _ => false
                      end) insights).
Proof.
  insight_cases data;
    (split;
     [ repeat constructor; cbn; discriminate
     | intro service'; do 2 eexists; split; [run_async|reflexivity] ]).
Qed.

(** ** The sync route *)

Section MoreSync.

Variable parseFloat : string -> number.
Variable formatPeriodLabel : string -> string -> string.
Variable numToString : number -> string.
Variable toLocaleString : number -> string.
Variable Math_sqrt : number -> number.
Variable service : nat -> Request.t -> Completion.
Variable AI_MODEL : option string.
Variable SYSTEM_PROMPT : string.
Variable now : nat -> number.
Variable toISOString : number -> string.

(** X27: the [catch] block around [generateInsightsFromMetrics] in the sync
    route is never entered: whatever the service does, the insights cached
    are those of [generateInsightsFromMetrics], nothing is warned, and no
    insight of the fallback is made. *)
Theorem syncInsights_never_falls_back data w :
  syncInsights numToString toLocaleString service AI_MODEL SYSTEM_PROMPT now
    toISOString data w
  = generateInsightsFromMetrics numToString toLocaleString service AI_MODEL
      SYSTEM_PROMPT now toISOString data w
  /\ exists insights w',
       syncInsights numToString toLocaleString service AI_MODEL SYSTEM_PROMPT
         now toISOString data w = (Returned insights, w')
       /\ Forall
            (fun i => AIInsight.promptVersion i <> "v1.0-fallback"%string)
            insights.
Proof.
  destruct (generateInsightsFromMetrics_stamped numToString toLocaleString
              service AI_MODEL SYSTEM_PROMPT now toISOString data w)
    as (insights & w' & Hrun & Hstamped).
  assert (H : syncInsights numToString toLocaleString service AI_MODEL
                SYSTEM_PROMPT now toISOString data w
              = (Returned insights, w')).
  { unfold syncInsights, tryCatch. rewrite Hrun. reflexivity. }
  split; [rewrite H, Hrun; reflexivity|].
  exists insights, w'. split; [exact H|].
  eapply Forall_impl; [|exact Hstamped].
  intros i (Hv & _). rewrite Hv. discriminate.
Qed.

Lemma syncInsights_bounds data w :
  exists insights w',
    syncInsights numToString toLocaleString service AI_MODEL SYSTEM_PROMPT now
      toISOString data w = (Returned insights, w')
    /\ (List.length insights <= 6)%nat
    /\ (requests w <= requests w' <= requests w + 3)%nat.
Proof.
  destruct (generateInsightsFromMetrics_bounds numToString toLocaleString
              service AI_MODEL SYSTEM_PROMPT now toISOString data w)
    as (insights & w' & Hrun & H).
  exists insights, w'. split; [|exact H].
  unfold syncInsights, tryCatch. rewrite Hrun. reflexivity.
Qed.

Lemma parseMonthlyPnL_length report :
  List.length (parseMonthlyPnL parseFloat report)
  = List.length (monthColumnsOf report).
Proof.
  unfold parseMonthlyPnL. fold (monthColumnsOf report).
  rewrite length_map, length_combine, length_seq. apply Nat.min_id.
Qed.

(** X28: from the four reports the sync route always gets to a bundle to
    cache, whatever the service does, with at most three requests: both
    statements are there, so that the chat finds its data; there are at most
    five issues, which the banner shows from the first on, and at most six
    insights; the previous balance is 1.05 times the current one when the
    monthly report has two month columns or more, and 0 otherwise. *)
Theorem syncCompute_bundle currentPnlReport previousPnlReport monthlyPnlReport
  balanceSheet w :
  exists bundle w',
    syncCompute parseFloat formatPeriodLabel numToString toLocaleString
      Math_sqrt service AI_MODEL SYSTEM_PROMPT now toISOString
      currentPnlReport previousPnlReport monthlyPnlReport balanceSheet w
    = (Returned bundle, w')
    /\ (requests w <= requests w' <= requests w + 3)%nat
    /\ CachedFinancialData.currentPnl bundle <> None
    /\ CachedFinancialData.previousPnl bundle <> None
    /\ (List.length (CachedFinancialData.issues bundle) <= 5)%nat
    /\ displayIssues (CachedFinancialData.issues bundle)
       = firstn 3 (CachedFinancialData.issues bundle)
    /\ (List.length (CachedFinancialData.insights bundle) <= 6)%nat
    /\ (exists cash,
          CachedFinancialData.cashPosition bundle = Some cash
          /\ CashPosition.currentBalance cash
             = CashPosition.currentBalance
                 (parseCashPosition parseFloat balanceSheet)
          /\ CashPosition.previousBalance cash
             == (if (2 <=? List.length (monthColumnsOf monthlyPnlReport))%nat
                 then CashPosition.currentBalance cash * (105 # 100)
                 else 0)).
Proof.
  unfold syncCompute. cbv zeta.
  unfold bind at 1. unfold generateIssuesNow at 1. cbv beta iota.
  match goal with
  | |- context [bind (syncInsights _ _ _ _ _ _ _ ?d) _ ?w1] =>
      destruct (syncInsights_bounds d w1)
        as (insights & w' & Hrun & Hlen & Hreq)
  end.
  do 2 eexists. split; [unfold bind; rewrite Hrun; reflexivity|].
  cbn [CachedFinancialData.currentPnl CachedFinancialData.previousPnl
       CachedFinancialData.issues CachedFinancialData.insights
       CachedFinancialData.cashPosition requests] in *.
  split; [exact Hreq|]. split; [discriminate|]. split; [discriminate|].
  split; [unfold generateIssues; rewrite length_firstn; lia|].
  split.
  { unfold displayIssues. f_equal.
    apply sort_sorted_id with (R := issueBefore);
      [exact compareForBanner_sorted|].
    unfold generateIssues. apply StronglySorted_firstn. apply sort_sorted.
    - exact compareIssues_after.
    - exact compareIssues_before.
    - exact issueBefore_trans. }
  split; [exact Hlen|].
  eexists. split; [reflexivity|].
  rewrite parseMonthlyPnL_length.
  destruct (2 <=? List.length (monthColumnsOf monthlyPnlReport))%nat;
    cbn [CashPosition.currentBalance CashPosition.previousBalance];
    split; reflexivity.
Qed.

End MoreSync.

(** ** The summary of the variance insight *)

Lemma significant_not_flat current previous v :
  In v (computeVariances current previous) ->
  VarianceResult.significance v <> low ->
  VarianceResult.direction v <> flat.
Proof.
  intros Hin Hsig.
  destruct (computeVariances_row current previous v Hin)
    as (_ & Ha & Hd & Hs).
  rewrite Hd, Ha. unfold directionOf.
  destruct (_ >? 0) eqn:Eup; [discriminate|].
  destruct (_ <? 0) eqn:Edown; [discriminate|].
  exfalso. apply Hsig. rewrite Hs. reflect_cmp.
  assert (Hzero : VarianceResult.currentValue v - VarianceResult.previousValue v
                  == 0) by lra.
  assert (Hraw : rawPercentChange (VarianceResult.currentValue v)
                   (VarianceResult.previousValue v) == 0).
  { unfold rawPercentChange. destruct (_ <>? 0); [|reflexivity].
    unfold Qdiv. rewrite Hzero. ring. }
  assert (E20 : (Math_abs
                   (rawPercentChange (VarianceResult.currentValue v)
                      (VarianceResult.previousValue v)) >? 20) = false).
  { apply Qlt_bool_false. unfold Math_abs. rewrite Hraw. discriminate. }
  assert (E10 : (Math_abs
                   (rawPercentChange (VarianceResult.currentValue v)
                      (VarianceResult.previousValue v)) >? 10) = false).
  { apply Qlt_bool_false. unfold Math_abs. rewrite Hraw. discriminate. }
  rewrite E20, E10. reflexivity.
Qed.

Section MoreSummaries.

Variable numToString : number -> string.

(** X29: of the variances of [computeVariances] the significant ones are
    never flat, so that the summary of the variance insight speaks of the
    profit whenever the net income is among them, else of the revenue
    whenever that is among them, and of several metrics only when neither
    is. *)
Theorem variance_summary_of_significant current previous data :
  MetricsData.variances data = computeVariances current previous ->
  let significant := significantVariances data in
  Forall (fun v => VarianceResult.direction v <> flat) significant
  /\ (getVarianceSummary numToString significant = summary_of_several
      <-> ~ In "Net Income"%string (map VarianceResult.metric significant)
          /\ ~ In "Revenue"%string (map VarianceResult.metric significant)).
Proof.
  intros Hv significant.
  assert (Hflat : Forall (fun v => VarianceResult.direction v <> flat)
                    significant).
  { apply Forall_forall. intros v Hin.
    unfold significant, significantVariances in Hin.
    apply filter_In in Hin. destruct Hin as [Hin Hf]. rewrite Hv in Hin.
    apply andb_true_iff in Hf. destruct Hf as [Hlow _].
    apply significant_not_flat with current previous; [exact Hin|].
    intro E. rewrite E in Hlow. discriminate Hlow. }
  split; [exact Hflat|]. rewrite Forall_forall in Hflat.
  unfold getVarianceSummary, summary_of_several.
  destruct (find (fun v => String.eqb (VarianceResult.metric v) "Net Income")
              significant) as [n|] eqn:En.
  - apply find_some in En. destruct En as [Hin Hm].
    apply String.eqb_eq in Hm. specialize (Hflat n Hin).
    split.
    + destruct (VarianceResult.direction n);
        [intro H; cbn in H; discriminate H
        |intro H; cbn in H; discriminate H
        |contradiction].
    + intros [Hn _]. exfalso. apply Hn. rewrite <- Hm.
      apply in_map. exact Hin.
  - destruct (find (fun v => String.eqb (VarianceResult.metric v) "Revenue")
                significant) as [r|] eqn:Er.
    + apply find_some in Er. destruct Er as [Hin Hm].
      apply String.eqb_eq in Hm. specialize (Hflat r Hin).
      split.
      * destruct (VarianceResult.direction r);
          [intro H; cbn in H; discriminate H
          |intro H; cbn in H; discriminate H
          |contradiction].
      * intros [_ Hr]. exfalso. apply Hr. rewrite <- Hm.
        apply in_map. exact Hin.
    + split; [|reflexivity]. intros _.
      split; intro Hin; apply in_map_iff in Hin;
        destruct Hin as (v & Hm & Hin).
      * pose proof (find_none _ _ En v Hin) as H. cbn in H.
        rewrite Hm in H. discriminate H.
      * pose proof (find_none _ _ Er v Hin) as H. cbn in H.
        rewrite Hm in H. discriminate H.
Qed.

End MoreSummaries.

(** Revenue and income up from 100,000 to 120,000: both are significant,
    and the summary speaks of the profit. *)
Lemma variance_summary_of_significant_witness :
  getVarianceSummary render
    (significantVariances (metrics_of revenue_120000 revenue_100000))
  <> summary_of_several.
Proof.
  destruct (@variance_summary_of_significant render revenue_120000
              revenue_100000 (metrics_of revenue_120000 revenue_100000)
              eq_refl)
    as [_ Hiff].
  intro H. apply Hiff in H. destruct H as [H _]. apply H.
  vm_compute. tauto.
Defined.

(** * Bands and thresholds on binary64

    The statements that follow the program to a boundary of a band or of a
    threshold are made on the binary64 embedding: a comparison is the
    comparison of the program, on the values its rounded operations give. *)

Section Binary64Engine.

Import PrimFloat Binary64.
Local Open Scope float_scope.
#[local] Set Warnings "-inexact-float".

(** ** [computeVariances] *)

(** Every variance of [computeVariances] is the row of one headline metric. *)
Lemma computeVariances64_row current previous v :
  In v (computeVariances64 current previous) ->
  let raw :=
    rawPercentChange64 (VarianceResult64.currentValue v)
      (VarianceResult64.previousValue v) in
  VarianceResult64.percentChange v = round1_64 raw
  /\ VarianceResult64.absoluteChange v
     = VarianceResult64.currentValue v - VarianceResult64.previousValue v
  /\ VarianceResult64.direction v
     = directionOf64 (VarianceResult64.absoluteChange v)
  /\ VarianceResult64.significance v
     = (if 20 <? abs raw then high
        else if 10 <? abs raw then medium else low).
Proof.
  unfold computeVariances64. intro H.
  apply in_map_iff in H. destruct H as [[metric [cur prev]] [<- _]].
  cbn. repeat split.
Qed.

(** C3, as amended: the significance of every headline variance is decided
    on the percentage as the program computes it, before it is rounded to
    one decimal for the returned [percentChange]: on
    [((cur - prev) / |prev|) * 100] with every operation rounded to binary64
    (0 when the previous value is 0).  It is high exactly when the absolute
    value of that number is above 20, medium exactly when it is above 10 and
    not above 20, low otherwise.  Revenue 120,000 against 100,000 gives the
    Revenue variance [percentChange] 20, direction up, significance
    medium. *)
Theorem computeVariances_significance current previous :
  (forall v, In v (computeVariances64 current previous) ->
     let raw :=
       rawPercentChange64 (VarianceResult64.currentValue v)
         (VarianceResult64.previousValue v) in
     VarianceResult64.percentChange v = round1_64 raw
     /\ (VarianceResult64.significance v = high <-> lt64 20 (abs raw))
     /\ (VarianceResult64.significance v = medium
         <-> ~ lt64 20 (abs raw) /\ lt64 10 (abs raw))
     /\ (VarianceResult64.significance v = low
         <-> ~ lt64 20 (abs raw) /\ ~ lt64 10 (abs raw)))
  /\ (ProfitAndLoss64.totalRevenue current = 120000 ->
      ProfitAndLoss64.totalRevenue previous = 100000 ->
      exists v,
        varianceNamed64 "Revenue" (computeVariances64 current previous) = Some v
        /\ VarianceResult64.percentChange v = 20
        /\ VarianceResult64.direction v = up
        /\ VarianceResult64.significance v = medium).
Proof.
  split.
  - intros v Hin raw.
    destruct (computeVariances64_row _ _ _ Hin) as (Hpc & _ & _ & Hsig).
    fold raw in Hpc, Hsig. split; [exact Hpc|].
    rewrite Hsig. unfold lt64.
    destruct (20 <? abs raw); [|destruct (10 <? abs raw)];
      repeat split; intros; try discriminate; try reflexivity;
      intuition discriminate.
  - intros Hc Hp.
    unfold computeVariances64, headline_metrics64, varianceNamed64.
    rewrite Hc, Hp. eexists. split; [reflexivity|].
    repeat split.
Qed.

(** The scenario itself, revenue 120,000 against 100,000; and 3.40 against
    4.25, where the program computes a change of exactly -20, which is
    medium. *)
Lemma computeVariances_significance_witness :
  (exists v,
     varianceNamed64 "Revenue"
       (computeVariances64 (revenue64 120000) (revenue64 100000)) = Some v
     /\ VarianceResult64.percentChange v = 20
     /\ VarianceResult64.significance v = medium
     /\ ~ lt64 20
           (abs (rawPercentChange64 (VarianceResult64.currentValue v)
                   (VarianceResult64.previousValue v))))
  /\ (exists v,
        varianceNamed64 "Revenue"
          (computeVariances64 (revenue64 3.40) (revenue64 4.25)) = Some v
        /\ rawPercentChange64 (VarianceResult64.currentValue v)
             (VarianceResult64.previousValue v) = -20
        /\ VarianceResult64.significance v = medium).
Proof.
  split.
  - destruct (computeVariances_significance (revenue64 120000)
                (revenue64 100000)) as [Hall Hscenario].
    destruct (Hscenario eq_refl eq_refl) as (v & Hfind & Hpc & _ & Hsig).
    exists v. split; [exact Hfind|]. split; [exact Hpc|].
    split; [exact Hsig|].
    destruct (find_some _ _ Hfind) as [Hin _].
    destruct (Hall v Hin) as (_ & _ & Hmedium & _).
    apply Hmedium. exact Hsig.
  - destruct (computeVariances_significance (revenue64 3.40) (revenue64 4.25))
      as [Hall _].
    eexists. split; [reflexivity|]. split; [reflexivity|].
    match goal with
    | |- VarianceResult64.significance ?v = medium =>
        destruct (Hall v (or_introl eq_refl)) as (_ & _ & Hmedium & _);
        apply Hmedium
    end.
    split; [intro H; discriminate H|reflexivity].
Defined.

(** C3, as stated, fails on the returned field: 120,040 against 100,000 is
    a change of 20.04%, returned as [percentChange] 20 with significance
    high. *)
Lemma computeVariances_significance_counterexample :
  exists v,
    varianceNamed64 "Revenue"
      (computeVariances64 (revenue64 120040) (revenue64 100000)) = Some v
    /\ VarianceResult64.percentChange v = 20
    /\ VarianceResult64.significance v = high
    /\ ~ lt64 20 (abs (VarianceResult64.percentChange v)).
Proof.
  eexists. split; [reflexivity|].
  split; [reflexivity|]. split; [reflexivity|].
  intro H. discriminate H.
Qed.

(** ** [computeRatios] *)

(** The result laid out: three ratios that are always there, then Revenue
    Growth and Cash Runway under their guards. *)
Lemma computeRatios64_eq current previous cashPosition :
  computeRatios64 current previous cashPosition
  = marginRatios64 current previous
    ++ growthRatio64 current previous
    ++ runwayRatio64 current cashPosition.
Proof.
  unfold computeRatios64, marginRatios64, growthRatio64, runwayRatio64.
  destruct previous as [p|];
    [destruct (0 <? ProfitAndLoss64.totalRevenue p)|];
    (destruct cashPosition as [cp|];
     [destruct (0 <? ProfitAndLoss64.totalExpenses current)|]);
    reflexivity.
Qed.

Lemma ratioNamed64_growth current previous cashPosition :
  ratioNamed64 "Revenue Growth"
    (computeRatios64 current previous cashPosition)
  = hd_error (growthRatio64 current previous).
Proof.
  rewrite computeRatios64_eq. unfold ratioNamed64, marginRatios64.
  cbn [app find RatioResult64.name String.eqb Ascii.eqb Bool.eqb].
  unfold growthRatio64, runwayRatio64.
  destruct previous as [p|];
    [destruct (0 <? ProfitAndLoss64.totalRevenue p)|];
    (destruct cashPosition as [cp|];
     [destruct (0 <? ProfitAndLoss64.totalExpenses current)|]);
    reflexivity.
Qed.

Lemma ratioNamed64_runway current previous cashPosition :
  ratioNamed64 "Cash Runway"
    (computeRatios64 current previous cashPosition)
  = hd_error (runwayRatio64 current cashPosition).
Proof.
  rewrite computeRatios64_eq. unfold ratioNamed64, marginRatios64.
  cbn [app find RatioResult64.name String.eqb Ascii.eqb Bool.eqb].
  unfold growthRatio64, runwayRatio64.
  destruct previous as [p|];
    [destruct (0 <? ProfitAndLoss64.totalRevenue p)|];
    (destruct cashPosition as [cp|];
     [destruct (0 <? ProfitAndLoss64.totalExpenses current)|]);
    reflexivity.
Qed.

(** C5, as amended: Revenue Growth is emitted exactly when a previous
    period with positive revenue is supplied; its value is the growth
    [((current - previous) / |previous|) * 100], as the program computes it
    on binary64, rounded to one decimal, and its trend is improving when
    that growth exceeds 2, declining when it is below -2, stable
    otherwise. *)
Theorem computeRatios_revenue_growth current previous cashPosition :
  ((exists r,
      ratioNamed64 "Revenue Growth"
        (computeRatios64 current previous cashPosition) = Some r)
   <-> (exists p,
          previous = Some p /\ lt64 0 (ProfitAndLoss64.totalRevenue p)))
  /\ (forall r p,
        ratioNamed64 "Revenue Growth"
          (computeRatios64 current previous cashPosition) = Some r ->
        previous = Some p ->
        let growth :=
          ((ProfitAndLoss64.totalRevenue current
            - ProfitAndLoss64.totalRevenue p)
           / abs (ProfitAndLoss64.totalRevenue p)) * 100 in
        RatioResult64.name r = "Revenue Growth"%string
        /\ RatioResult64.value r = round1_64 growth
        /\ (RatioResult64.trend r = improving <-> lt64 2 growth)
        /\ (RatioResult64.trend r = declining
            <-> ~ lt64 2 growth /\ lt64 growth (-2))
        /\ (RatioResult64.trend r = stable
            <-> ~ lt64 2 growth /\ ~ lt64 growth (-2))).
Proof.
  rewrite ratioNamed64_growth. unfold growthRatio64, lt64.
  split; [split|].
  - intros (r & Hr). destruct previous as [p|]; [|discriminate Hr].
    destruct (0 <? ProfitAndLoss64.totalRevenue p) eqn:E;
      [|discriminate Hr].
    exists p. split; [reflexivity|exact E].
  - intros (p & -> & Hpos). rewrite Hpos. eexists. reflexivity.
  - intros r p Hr ->. cbv zeta in *.
    destruct (0 <? ProfitAndLoss64.totalRevenue p); [|discriminate Hr].
    injection Hr as <-. cbn [RatioResult64.name RatioResult64.value
                             RatioResult64.trend].
    split; [reflexivity|]. split; [reflexivity|].
    destruct (2 <? _); [|destruct (_ <? -2)];
      repeat split; intros; try discriminate; try reflexivity;
      intuition discriminate.
Qed.

(** Revenue 120,000 after 100,000: a growth of 20, improving; revenue 103
    after 80: the growth the program computes is just below 28.75, and the
    value is 28.7. *)
Lemma computeRatios_revenue_growth_witness :
  (exists r,
     ratioNamed64 "Revenue Growth"
       (computeRatios64 (revenue64 120000) (Some (revenue64 100000)) None)
     = Some r
     /\ RatioResult64.value r = 20
     /\ RatioResult64.trend r = improving)
  /\ (exists r,
        ratioNamed64 "Revenue Growth"
          (computeRatios64 (revenue64 103) (Some (revenue64 80)) None)
        = Some r
        /\ RatioResult64.value r = 28.7).
Proof.
  split.
  - destruct (computeRatios_revenue_growth (revenue64 120000)
                (Some (revenue64 100000)) None) as [[_ Hemit] Hbands].
    destruct Hemit as (r & Hr).
    { exists (revenue64 100000). split; reflexivity. }
    exists r. split; [exact Hr|].
    destruct (Hbands r (revenue64 100000) Hr eq_refl)
      as (_ & Hval & Himp & _).
    split; [rewrite Hval; reflexivity|apply Himp; reflexivity].
  - destruct (computeRatios_revenue_growth (revenue64 103)
                (Some (revenue64 80)) None) as [[_ Hemit] Hbands].
    destruct Hemit as (r & Hr).
    { exists (revenue64 80). split; reflexivity. }
    exists r. split; [exact Hr|].
    destruct (Hbands r (revenue64 80) Hr eq_refl) as (_ & Hval & _).
    rewrite Hval. reflexivity.
Defined.

(** C5, as stated, fails for a previous period whose revenue is nonzero but
    negative: no Revenue Growth ratio is emitted. *)
Lemma computeRatios_revenue_growth_counterexample :
  (ProfitAndLoss64.totalRevenue (revenue64 (-100)) =? 0) = false
  /\ ratioNamed64 "Revenue Growth"
       (computeRatios64 (revenue64 100000) (Some (revenue64 (-100))) None)
     = None.
Proof.
  split; reflexivity.
Qed.

(** X8: the Expense Ratio is judged upside down.  With a previous expense
    ratio that is truthy, its trend is improving exactly when the current
    ratio is below the previous one minus 1, and declining exactly when it
    is not and the current ratio is above the previous one plus 1, each sum
    as the program rounds it; a margin is improving exactly when it is more
    than 1 above the previous one. *)
Theorem computeRatios_expense_ratio_mirrored current p cashPosition prev :
  prevMarginOf64 (Some p) ProfitAndLoss64.totalExpenses = Some prev ->
  truthy64 prev = true ->
  let ratio := marginOf64 current (ProfitAndLoss64.totalExpenses current) in
  let margin := marginOf64 current (ProfitAndLoss64.grossProfit current) in
  (exists er,
     ratioNamed64 "Expense Ratio" (computeRatios64 current (Some p) cashPosition)
     = Some er
     /\ (RatioResult64.trend er = improving <-> lt64 ratio (prev - 1))
     /\ (RatioResult64.trend er = declining
         <-> ~ lt64 ratio (prev - 1) /\ lt64 (prev + 1) ratio)
     /\ (RatioResult64.trend er = stable
         <-> ~ lt64 ratio (prev - 1) /\ ~ lt64 (prev + 1) ratio))
  /\ (exists gm previousMargin,
        ratioNamed64 "Gross Margin"
          (computeRatios64 current (Some p) cashPosition) = Some gm
        /\ prevMarginOf64 (Some p) ProfitAndLoss64.grossProfit
           = Some previousMargin
        /\ (RatioResult64.trend gm = improving
            <-> lt64 1 (margin - previousMargin))).
Proof.
  intros Hprev Htruthy ratio margin.
  rewrite computeRatios64_eq. unfold ratioNamed64, marginRatios64.
  cbn [app find RatioResult64.name String.eqb Ascii.eqb Bool.eqb].
  split.
  - eexists. split; [reflexivity|].
    cbn [RatioResult64.trend]. rewrite Hprev, Htruthy.
    fold ratio. unfold lt64.
    destruct (ratio <? prev - 1); [|destruct (prev + 1 <? ratio)];
      repeat split; intros; try discriminate; try reflexivity;
      intuition discriminate.
  - unfold prevMarginOf64 in *.
    destruct (0 <? ProfitAndLoss64.totalRevenue p); [|discriminate Hprev].
    do 2 eexists. split; [reflexivity|]. split; [reflexivity|].
    cbn [RatioResult64.trend getTrend64]. fold margin. unfold lt64.
    destruct (1 <? _); [|destruct (_ <? -1)];
      split; intros; try discriminate; reflexivity.
Qed.

(** Expenses of 7,000 after 6,000 on a revenue of 100,000: the program
    computes a ratio just above 7, which is above 6 + 1, and the trend is
    declining. *)
Lemma computeRatios_expense_ratio_mirrored_witness :
  exists er,
    ratioNamed64 "Expense Ratio"
      (computeRatios64 (month64 100000 7000) (Some (month64 100000 6000)) None)
    = Some er
    /\ RatioResult64.trend er = declining
    /\ RatioResult64.value er = 7.
Proof.
  destruct (@computeRatios_expense_ratio_mirrored (month64 100000 7000)
              (month64 100000 6000) None 6 eq_refl eq_refl)
    as [(er & Her & _ & Hdeclining & _) _].
  exists er. split; [exact Her|]. split.
  - apply Hdeclining. split; [intro H; discriminate H|reflexivity].
  - injection Her as <-. reflexivity.
Defined.

(** ** [generateIssues] *)

Lemma insertBy64_perm {A} (cmp : A -> A -> float) x l :
  Permutation (x :: l) (insertBy64 cmp x l).
Proof.
  induction l as [|y l IH]; cbn.
  - apply Permutation_refl.
  - destruct (0 <? cmp x y).
    + etransitivity; [apply perm_swap|]. apply perm_skip, IH.
    + apply Permutation_refl.
Qed.

Lemma sort64_perm {A} (cmp : A -> A -> float) l :
  Permutation l (sort64 cmp l).
Proof.
  induction l as [|x l IH]; cbn.
  - apply perm_nil.
  - etransitivity; [apply perm_skip, IH|]. apply insertBy64_perm.
Qed.

Lemma filter_raise64 f st i tag :
  filter f (issues64 (raise64 st i tag))
  = filter f (issues64 st) ++ (if f i then [i] else []).
Proof.
  unfold raise64. cbn [issues64]. rewrite filter_app. cbn.
  destruct (f i); reflexivity.
Qed.

Lemma raise64_length st i tag :
  List.length (issues64 (raise64 st i tag)) = S (List.length (issues64 st)).
Proof.
  unfold raise64. cbn. rewrite length_app. cbn. lia.
Qed.

Section Issues64Facts.

Variable numToString : float -> string.
Variable toLowerCase : string -> string.
Variable dashWhitespace : string -> string.
Variable clock : nat -> string.

(** What a rule does to the state: nothing, or one [raise64]. *)
Lemma cashRunwayRule64_cases ratios st :
  cashRunwayRule64 numToString clock ratios st = st
  \/ exists r at_,
       ratioNamed64 "Cash Runway" ratios = Some r
       /\ lt64 (RatioResult64.value r) 3
       /\ cashRunwayRule64 numToString clock ratios st
          = raise64 st (cashRunwayIssue64 numToString r at_) "cash".
Proof.
  unfold cashRunwayRule64, ratioNamed64, lt64.
  destruct (find _ ratios) as [r|]; [|now left].
  destruct (RatioResult64.value r <? 3) eqn:E; [|now left].
  right. exists r. eexists. repeat split. exact E.
Qed.

Lemma expenseRevenueRule64_cases variances st :
  expenseRevenueRule64 numToString clock variances st = st
  \/ exists rv ev at_,
       expenseRevenueRule64 numToString clock variances st
       = raise64 st (expenseRevenueIssue64 numToString rv ev at_)
           "expense_revenue".
Proof.
  unfold expenseRevenueRule64.
  destruct (find _ variances) as [rv|]; [|now left].
  destruct (find _ variances) as [ev|]; [|now left].
  destruct (_ <? _); cbn [andb]; [|now left].
  destruct (Set_has _ _); cbn [negb]; [now left|].
  right. exists rv, ev. eexists. reflexivity.
Qed.

Lemma marginRule64_cases trends st :
  marginRule64 numToString clock trends st = st
  \/ exists t at_,
       marginRule64 numToString clock trends st
       = raise64 st (marginIssue64 numToString t at_) "margin".
Proof.
  unfold marginRule64.
  destruct (findMarginTrend64 trends) as [t|]; [|now left].
  destruct (_ <=? _); cbn [andb]; [|now left].
  destruct (Set_has _ _); cbn [negb]; [now left|].
  right. exists t. eexists. reflexivity.
Qed.

Lemma anomalyRule64_cases st a :
  anomalyRule64 toLowerCase dashWhitespace clock st a = st
  \/ exists at_,
       anomalyRule64 toLowerCase dashWhitespace clock st a
       = raise64 st (anomalyIssue64 toLowerCase dashWhitespace a at_)
           ("anomaly-" ++ AnomalyResult64.metric a).
Proof.
  unfold anomalyRule64.
  destruct (Set_has _ _); cbn [negb]; [now left|].
  right. eexists. reflexivity.
Qed.

Lemma anomalies64_length l st :
  (List.length
     (issues64 (fold_left (anomalyRule64 toLowerCase dashWhitespace clock) l st))
   <= List.length (issues64 st) + List.length l)%nat.
Proof.
  revert st. induction l as [|a l IH]; intro st; cbn; [lia|].
  specialize (IH (anomalyRule64 toLowerCase dashWhitespace clock st a)).
  destruct (anomalyRule64_cases st a) as [E|(at_ & E)]; rewrite E in *.
  - lia.
  - rewrite raise64_length in IH. lia.
Qed.

Lemma issueCascade64_length variances ratios trends anomalies :
  (List.length
     (issues64
        (issueCascade64 numToString toLowerCase dashWhitespace clock variances
           ratios trends anomalies))
   <= 5)%nat.
Proof.
  unfold issueCascade64.
  set (st0 := {| issues64 := []; rootCauses64 := [] |}).
  set (st1 := cashRunwayRule64 numToString clock ratios st0).
  set (st2 := expenseRevenueRule64 numToString clock variances st1).
  set (st3 := marginRule64 numToString clock trends st2).
  assert (H1 : (List.length (issues64 st1) <= 1)%nat).
  { subst st1. destruct (cashRunwayRule64_cases ratios st0)
      as [->|(r & at_ & _ & _ & ->)]; [|rewrite raise64_length]; cbn; lia. }
  assert (H2 : (List.length (issues64 st2) <= 2)%nat).
  { subst st2. destruct (expenseRevenueRule64_cases variances st1)
      as [->|(rv & ev & at_ & ->)]; [|rewrite raise64_length]; lia. }
  assert (H3 : (List.length (issues64 st3) <= 3)%nat).
  { subst st3. destruct (marginRule64_cases trends st2)
      as [->|(t & at_ & ->)]; [|rewrite raise64_length]; lia. }
  pose proof (anomalies64_length (firstn 2 anomalies) st3) as H4.
  pose proof (firstn_le_length 2 anomalies) as H5.
  lia.
Qed.

(** The returned list is a rearrangement of the issues raised: the cap of
    5 never cuts. *)
Lemma generateIssues64_perm variances ratios trends anomalies cashPosition :
  Permutation
    (issues64
       (issueCascade64 numToString toLowerCase dashWhitespace clock variances
          ratios trends anomalies))
    (generateIssues64 numToString toLowerCase dashWhitespace clock variances
       ratios trends anomalies cashPosition).
Proof.
  unfold generateIssues64. rewrite firstn_all2.
  - apply sort64_perm.
  - rewrite <- (Permutation_length (sort64_perm _ _)).
    apply issueCascade64_length.
Qed.

(** A test on issues gives the same on the returned list as on the issues
    raised, when at most one passes. *)
Lemma generateIssues64_filter f variances ratios trends anomalies cashPosition l :
  filter f
    (issues64
       (issueCascade64 numToString toLowerCase dashWhitespace clock variances
          ratios trends anomalies))
  = l ->
  (List.length l <= 1)%nat ->
  filter f
    (generateIssues64 numToString toLowerCase dashWhitespace clock variances
       ratios trends anomalies cashPosition) = l.
Proof.
  intros Hl Hlen.
  pose proof (filter_perm f
    (generateIssues64_perm variances ratios trends anomalies cashPosition))
    as Hperm.
  rewrite Hl in Hperm.
  destruct l as [|x [|y l]]; cbn in Hlen; try lia.
  - apply Permutation_nil in Hperm. exact Hperm.
  - apply Permutation_length_1_inv in Hperm. exact Hperm.
Qed.

(** A test that no issue of the anomaly rule passes is not affected by
    that rule. *)
Lemma anomalies64_filter f l st :
  (forall a at_, f (anomalyIssue64 toLowerCase dashWhitespace a at_) = false) ->
  filter f
    (issues64 (fold_left (anomalyRule64 toLowerCase dashWhitespace clock) l st))
  = filter f (issues64 st).
Proof.
  intro Hf. revert st. induction l as [|a l IH]; intro st; cbn; [reflexivity|].
  rewrite IH.
  destruct (anomalyRule64_cases st a) as [->|(at_ & ->)]; [reflexivity|].
  rewrite filter_raise64, Hf. apply app_nil_r.
Qed.

(** What the cash rule leaves among the issues raised. *)
Lemma issueCascade64_cash variances ratios trends anomalies :
  exists at_,
    filter isCashRunway64
      (issues64
         (issueCascade64 numToString toLowerCase dashWhitespace clock variances
            ratios trends anomalies))
    = match ratioNamed64 "Cash Runway" ratios with
      | Some r =>
          if RatioResult64.value r <? 3
          then [cashRunwayIssue64 numToString r at_]
          else []
      | None => []
      end.
Proof.
  unfold issueCascade64.
  set (st0 := {| issues64 := []; rootCauses64 := [] |}).
  set (st1 := cashRunwayRule64 numToString clock ratios st0).
  set (st2 := expenseRevenueRule64 numToString clock variances st1).
  exists (clock 0).
  assert (H1 : filter isCashRunway64 (issues64 st1)
               = match ratioNamed64 "Cash Runway" ratios with
                 | Some r =>
                     if RatioResult64.value r <? 3
                     then [cashRunwayIssue64 numToString r (clock 0)]
                     else []
                 | None => []
                 end).
  { subst st1. unfold cashRunwayRule64, ratioNamed64.
    destruct (find _ ratios) as [r|]; [|reflexivity].
    destruct (RatioResult64.value r <? 3); reflexivity. }
  assert (H2 : filter isCashRunway64 (issues64 st2)
               = filter isCashRunway64 (issues64 st1)).
  { subst st2. destruct (expenseRevenueRule64_cases variances st1)
      as [->|(rv & ev & at' & ->)]; [reflexivity|].
    rewrite filter_raise64. apply app_nil_r. }
  rewrite anomalies64_filter by reflexivity.
  destruct (marginRule64_cases trends st2) as [->|(t & at' & ->)];
    [rewrite H2; exact H1|].
  rewrite filter_raise64, H2, H1. apply app_nil_r.
Qed.

(** What the expense-revenue rule leaves among the issues raised. *)
Lemma issueCascade64_expense_revenue variances ratios trends anomalies :
  exists at_,
    filter isExpenseRevenue64
      (issues64
         (issueCascade64 numToString toLowerCase dashWhitespace clock variances
            ratios trends anomalies))
    = match varianceNamed64 "Revenue" variances,
            varianceNamed64 "Total Expenses" variances with
      | Some rv, Some ev =>
          if VarianceResult64.percentChange rv + 5
             <? VarianceResult64.percentChange ev
          then [expenseRevenueIssue64 numToString rv ev at_]
          else []
      | _, _ => []
      end.
Proof.
  unfold issueCascade64.
  set (st0 := {| issues64 := []; rootCauses64 := [] |}).
  set (st1 := cashRunwayRule64 numToString clock ratios st0).
  set (st2 := expenseRevenueRule64 numToString clock variances st1).
  assert (H1 : filter isExpenseRevenue64 (issues64 st1) = []
               /\ Set_has (rootCauses64 st1) "expense_revenue" = false).
  { subst st1. destruct (cashRunwayRule64_cases ratios st0)
      as [->|(r & at_ & _ & _ & ->)]; split; reflexivity. }
  destruct H1 as [H1 Hhas].
  exists (clock (List.length (issues64 st1))).
  rewrite anomalies64_filter by reflexivity.
  assert (H2 : filter isExpenseRevenue64 (issues64 st2)
               = match varianceNamed64 "Revenue" variances,
                       varianceNamed64 "Total Expenses" variances with
                 | Some rv, Some ev =>
                     if VarianceResult64.percentChange rv + 5
                        <? VarianceResult64.percentChange ev
                     then [expenseRevenueIssue64 numToString rv ev
                             (clock (List.length (issues64 st1)))]
                     else []
                 | _, _ => []
                 end).
  { subst st2. unfold expenseRevenueRule64, varianceNamed64.
    destruct (find _ variances) as [rv|]; [|exact H1].
    destruct (find _ variances) as [ev|]; [|exact H1].
    rewrite Hhas. cbn [negb]. rewrite andb_true_r.
    destruct (_ <? _); [|exact H1].
    rewrite filter_raise64, H1. reflexivity. }
  destruct (marginRule64_cases trends st2) as [->|(t & at' & ->)];
    [exact H2|].
  rewrite filter_raise64, H2. cbn [isExpenseRevenue64]. apply app_nil_r.
Qed.

(** X13: from [computeRatios] to [generateIssues], for a period that burns
    cash.  The cash-runway issue (critical, threshold 3) is raised exactly
    when the value of the Cash Runway ratio is below 3, that value being
    the quotient of balance and burn, capped at 99 and rounded to one
    decimal, each step on binary64; the trend of the ratio is declining
    exactly when the quotient itself is below 3.  So a runway just below 3
    months is declining and raises no issue. *)
Theorem cash_runway_issue_threshold current previous cp variances trends
  anomalies :
  let burn :=
    ProfitAndLoss64.totalExpenses current
    - ProfitAndLoss64.totalRevenue current in
  let run := CashPosition64.currentBalance cp / burn in
  let value := round1_64 (Math_min64 run 99) in
  let ratios := computeRatios64 current previous (Some cp) in
  let out :=
    generateIssues64 numToString toLowerCase dashWhitespace clock variances
      ratios trends anomalies (Some cp) in
  lt64 0 (ProfitAndLoss64.totalExpenses current) ->
  lt64 0 burn ->
  (lt64 value 3 ->
   exists i,
     filter isCashRunway64 out = [i]
     /\ Issue64.severity i = critical
     /\ Issue64.currentValue i = value
     /\ Issue64.threshold i = Some 3)
  /\ (~ lt64 value 3 -> filter isCashRunway64 out = [])
  /\ (exists r,
        ratioNamed64 "Cash Runway" ratios = Some r
        /\ RatioResult64.value r = value
        /\ (RatioResult64.trend r = declining <-> lt64 run 3)).
Proof.
  intros burn run value ratios out Hexp Hburn. unfold lt64 in *.
  assert (Hratio : ratioNamed64 "Cash Runway" ratios
            = Some
                {| RatioResult64.name := "Cash Runway";
                   RatioResult64.value := value;
                   RatioResult64.previousValue := None;
                   RatioResult64.trend :=
                     if run <? 3 then declining
                     else if run <? 6 then stable else improving;
                   RatioResult64.description :=
                     "Months your cash will last at current spending" |}).
  { subst ratios. rewrite ratioNamed64_runway. unfold runwayRatio64.
    rewrite Hexp. cbv zeta. fold burn. rewrite Hburn. reflexivity. }
  destruct (issueCascade64_cash variances ratios trends anomalies)
    as [at_ Hfilter].
  rewrite Hratio in Hfilter. cbn [RatioResult64.value] in Hfilter.
  split; [|split].
  - intro Hlow. rewrite Hlow in Hfilter. eexists. split.
    + subst out. apply generateIssues64_filter; [exact Hfilter|cbn; lia].
    + repeat split.
  - intro Hhigh. destruct (value <? 3); [contradiction Hhigh; reflexivity|].
    subst out. apply generateIssues64_filter; [exact Hfilter|cbn; lia].
  - eexists. split; [exact Hratio|]. split; [reflexivity|].
    cbn [RatioResult64.trend].
    destruct (run <? 3); [|destruct (run <? 6)];
      split; intros; try discriminate; reflexivity.
Qed.

(** X14: [generateIssues] returns an expense-revenue issue exactly when the
    variances hold both Revenue and Total Expenses and the [percentChange]
    of the expenses is above the sum of that of the revenue and 5, as the
    program rounds that sum; the issue is critical when the expenses are
    above the sum with 15 and a warning otherwise, and its threshold is the
    sum with 5. *)
Theorem generateIssues_expense_revenue variances ratios trends anomalies
  cashPosition :
  let out :=
    generateIssues64 numToString toLowerCase dashWhitespace clock variances
      ratios trends anomalies cashPosition in
  (forall rv ev,
     varianceNamed64 "Revenue" variances = Some rv ->
     varianceNamed64 "Total Expenses" variances = Some ev ->
     (lt64 (VarianceResult64.percentChange rv + 5)
        (VarianceResult64.percentChange ev) ->
      exists i,
        filter isExpenseRevenue64 out = [i]
        /\ (Issue64.severity i = critical
            <-> lt64 (VarianceResult64.percentChange rv + 15)
                  (VarianceResult64.percentChange ev))
        /\ (Issue64.severity i = warning
            <-> ~ lt64 (VarianceResult64.percentChange rv + 15)
                    (VarianceResult64.percentChange ev))
        /\ Issue64.currentValue i = VarianceResult64.percentChange ev
        /\ Issue64.threshold i
           = Some (VarianceResult64.percentChange rv + 5))
     /\ (~ lt64 (VarianceResult64.percentChange rv + 5)
            (VarianceResult64.percentChange ev) ->
         filter isExpenseRevenue64 out = []))
  /\ (varianceNamed64 "Revenue" variances = None
      \/ varianceNamed64 "Total Expenses" variances = None ->
      filter isExpenseRevenue64 out = []).
Proof.
  intro out. unfold lt64.
  destruct (issueCascade64_expense_revenue variances ratios trends anomalies)
    as [at_ Hfilter].
  split.
  - intros rv ev Hrv Hev. rewrite Hrv, Hev in Hfilter. split.
    + intro Hgap. rewrite Hgap in Hfilter. eexists. split.
      * subst out. apply generateIssues64_filter; [exact Hfilter|cbn; lia].
      * cbn [expenseRevenueIssue64 Issue64.severity Issue64.currentValue
             Issue64.threshold].
        destruct (VarianceResult64.percentChange rv + 15
                  <? VarianceResult64.percentChange ev);
          repeat split; intros; try discriminate; try reflexivity;
          intuition discriminate.
    + intro Hnogap.
      destruct (_ <? _); [contradiction Hnogap; reflexivity|].
      subst out. apply generateIssues64_filter; [exact Hfilter|cbn; lia].
  - intros Hmissing. subst out.
    apply generateIssues64_filter; [|cbn; lia].
    rewrite Hfilter. destruct Hmissing as [-> | Hte]; [reflexivity|].
    rewrite Hte. destruct (varianceNamed64 "Revenue" variances); reflexivity.
Qed.

Lemma anomalies64_keep l st i :
  In i (issues64 st) ->
  In i
    (issues64 (fold_left (anomalyRule64 toLowerCase dashWhitespace clock) l st)).
Proof.
  revert st. induction l as [|a l IH]; intros st H; cbn; [exact H|].
  apply IH.
  destruct (anomalyRule64_cases st a) as [->|(at_ & ->)]; [exact H|].
  unfold raise64. cbn. apply in_or_app. left. exact H.
Qed.

Lemma anomalies64_origin l st i :
  In i
    (issues64 (fold_left (anomalyRule64 toLowerCase dashWhitespace clock) l st)) ->
  In i (issues64 st)
  \/ exists a at_,
       In a l /\ i = anomalyIssue64 toLowerCase dashWhitespace a at_.
Proof.
  revert st. induction l as [|a l IH]; intros st H; cbn in H;
    [left; exact H|].
  apply IH in H. destruct H as [H|(a' & at_ & Hin & ->)].
  - destruct (anomalyRule64_cases st a) as [E|(at_ & E)];
      rewrite E in H; [left; exact H|].
    unfold raise64 in H. cbn in H. apply in_app_or in H.
    destruct H as [H|[<-|[]]]; [left; exact H|].
    right. exists a, at_. split; [left; reflexivity|reflexivity].
  - right. exists a', at_. split; [right; exact Hin|reflexivity].
Qed.

(** X30: [generateIssues] reads the first two anomalies only and not the
    cash position.  The anomalies come last: every issue raised without
    them is returned with them as well, and any other issue returned is the
    issue of one of the first two anomalies, a warning or an info, never
    critical, without threshold. *)
Theorem generateIssues_anomalies_last variances ratios trends anomalies
  cashPosition :
  let out :=
    generateIssues64 numToString toLowerCase dashWhitespace clock variances
      ratios trends anomalies cashPosition in
  (forall cashPosition',
     out = generateIssues64 numToString toLowerCase dashWhitespace clock
             variances ratios trends (firstn 2 anomalies) cashPosition')
  /\ incl
       (generateIssues64 numToString toLowerCase dashWhitespace clock variances
          ratios trends [] cashPosition) out
  /\ (forall i,
        In i out ->
        In i (generateIssues64 numToString toLowerCase dashWhitespace clock
                variances ratios trends [] cashPosition)
        \/ exists a at_,
             In a (firstn 2 anomalies)
             /\ i = anomalyIssue64 toLowerCase dashWhitespace a at_
             /\ Issue64.severity i <> critical
             /\ Issue64.threshold i = None).
Proof.
  cbv zeta. split; [|split].
  - intro cashPosition'. unfold generateIssues64, issueCascade64.
    rewrite firstn_firstn. reflexivity.
  - intros i Hi.
    apply (Permutation_in _
             (generateIssues64_perm variances ratios trends anomalies
                cashPosition)).
    apply (Permutation_in _
             (Permutation_sym
                (generateIssues64_perm variances ratios trends []
                   cashPosition))) in Hi.
    unfold issueCascade64 in *. cbn [firstn fold_left] in Hi.
    apply anomalies64_keep. exact Hi.
  - intros i Hi.
    apply (Permutation_in _
             (Permutation_sym
                (generateIssues64_perm variances ratios trends anomalies
                   cashPosition))) in Hi.
    unfold issueCascade64 in Hi. apply anomalies64_origin in Hi.
    destruct Hi as [Hi|(a & at_ & Hin & ->)].
    + left.
      apply (Permutation_in _
               (generateIssues64_perm variances ratios trends []
                  cashPosition)).
      exact Hi.
    + right. exists a, at_. split; [exact Hin|]. split; [reflexivity|].
      split; [|reflexivity]. cbn. destruct (level_eqb _ _); discriminate.
Qed.

End Issues64Facts.

(** Three anomalies on the rent: one issue, a warning. *)
Lemma generateIssues_anomalies_last_witness :
  List.length
    (generateIssues64 mark64 toLowerCase replace_spaces midnight [] [] []
       [ rent_anomaly64 3000 high; rent_anomaly64 3000 high;
         rent_anomaly64 5000 low ] None)
  = 1%nat
  /\ Forall (fun i => Issue64.severity i = warning)
       (generateIssues64 mark64 toLowerCase replace_spaces midnight [] [] []
          [ rent_anomaly64 3000 high; rent_anomaly64 3000 high;
            rent_anomaly64 5000 low ] None).
Proof.
  destruct (generateIssues_anomalies_last mark64 toLowerCase replace_spaces
              midnight [] [] []
              [ rent_anomaly64 3000 high; rent_anomaly64 3000 high;
                rent_anomaly64 5000 low ] None) as (Hfirst & _ & Horigin).
  split; [rewrite (Hfirst None); reflexivity|].
  apply Forall_forall. intros i Hi.
  destruct (Horigin i Hi) as [[]|(a & at_ & Hin & -> & _)].
  destruct Hin as [<-|[<-|[]]]; reflexivity.
Defined.

(** A balance of 14,000 on a burn of 5,000 is a runway of 2.8 months: the
    issue is raised.  A balance of 17.11 on a burn of 5.80 is a quotient
    just above 2.95, below 3: the ratio is declining, its value is 3, and
    no issue is raised. *)
Lemma cash_runway_issue_threshold_witness :
  (exists i,
     filter isCashRunway64
       (generateIssues64 mark64 toLowerCase replace_spaces midnight []
          (computeRatios64 (month64 15000 20000) None (Some (cash64 14000)))
          [] [] (Some (cash64 14000))) = [i]
     /\ Issue64.severity i = critical
     /\ Issue64.currentValue i = 2.8)
  /\ filter isCashRunway64
       (generateIssues64 mark64 toLowerCase replace_spaces midnight []
          (computeRatios64 (month64 0 5.80) None (Some (cash64 17.11)))
          [] [] (Some (cash64 17.11))) = []
  /\ (exists r,
        ratioNamed64 "Cash Runway"
          (computeRatios64 (month64 0 5.80) None (Some (cash64 17.11)))
        = Some r
        /\ RatioResult64.value r = 3
        /\ RatioResult64.trend r = declining).
Proof.
  destruct (cash_runway_issue_threshold mark64 toLowerCase replace_spaces midnight
              (month64 15000 20000) None (cash64 14000) [] [] [])
    as (Hlow & _ & _); [reflexivity|reflexivity|].
  destruct (cash_runway_issue_threshold mark64 toLowerCase replace_spaces midnight
              (month64 0 5.80) None (cash64 17.11) [] [] [])
    as (_ & Hhigh & r & Hr & Hvalue & Htrend); [reflexivity|reflexivity|].
  split; [|split].
  - destruct Hlow as (i & Hi & Hsev & Hcv & _); [reflexivity|].
    exists i. split; [exact Hi|]. split; [exact Hsev|].
    rewrite Hcv. reflexivity.
  - apply Hhigh. intro H. discriminate H.
  - exists r. split; [exact Hr|]. split.
    + rewrite Hvalue. reflexivity.
    + apply Htrend. reflexivity.
Defined.

(** Revenue down from 1,000 to 951 and expenses up from 1,000 to 1,001:
    changes of -4.9 and 0.1.  The program adds 5 to -4.9 and gets a sum
    just below 0.1, so that the issue is raised, as a warning. *)
Lemma generateIssues_expense_revenue_witness :
  exists i,
    filter isExpenseRevenue64
      (generateIssues64 mark64 toLowerCase replace_spaces midnight
         (computeVariances64 (month64 951 1001) (month64 1000 1000)) [] [] []
         None) = [i]
    /\ Issue64.severity i = warning
    /\ Issue64.currentValue i = 0.1
    /\ Issue64.threshold i = Some (-4.9 + 5).
Proof.
  destruct (generateIssues_expense_revenue mark64 toLowerCase replace_spaces midnight
              (computeVariances64 (month64 951 1001) (month64 1000 1000))
              [] [] [] None) as [Hboth _].
  edestruct Hboth as [Hgap _]; [reflexivity|reflexivity|].
  destruct Hgap as (i & Hi & _ & Hwarn & Hvalue & Hthreshold); [reflexivity|].
  exists i. split; [exact Hi|]. split; [|split].
  - apply Hwarn. intro H. discriminate H.
  - rewrite Hvalue. reflexivity.
  - rewrite Hthreshold. reflexivity.
Defined.

End Binary64Engine.
